(** * Streaming confirmation core of whisper_streaming/online_asr.py

    A shallow embedding of the three classes of [online_asr.py]
    ([HypothesisBuffer], [OnlineASRProcessor], [VACOnlineASRProcessor])
    and the properties of their methods.

    Conventions of the embedding.
    - Python numbers that carry seconds (word timestamps, offsets, trimming
      thresholds) are binary64 floats; the embedding carries a float as the
      rational [Q] it denotes, so that comparisons are the comparisons of
      [Q].  The arithmetic of [HypothesisBuffer.insert] (the shift by the
      offset, [last_commited_time - 0.1], [a - last_commited_time]) and of
      [chunk_at] ([(time - buffer_time_offset) * 16000]) is the binary64
      arithmetic of [Py.fadd], [Py.fsub] and [Py.fmul]: operands and result
      are rounded to nearest, ties to even.  The other sums and quotients
      of seconds ([len(audio) / 16000], a segment end plus the offset, the
      offset added by [concatenate_tsw]) are kept exact.  Infinities and
      NaN are not represented.
    - Sample counts and VAD frame numbers are Python ints: [Z] (lengths: [nat]).
    - A Python list is a Rocq [list]; a mutated attribute is a record field
      that the method returns updated.
    - A method that can raise returns [exn + A] together with the state the
      object is left in when the exception propagates.
    - The recognizer, the sentence tokenizer and the VAD are collaborators:
      their replies are arguments or section variables. *)

From Stdlib Require Import List String Ascii Bool Arith ZArith QArith Qabs Qround Qpower
  Lia Lqa.
Import ListNotations.

Set Implicit Arguments.

Local Open Scope string_scope.
Local Open Scope list_scope.

(** ** Python fragments used by the source *)

Module Py.

(** The built-in exceptions the source can raise. *)
Inductive exn : Type :=
| TypeError
| ValueError
| IndexError
| KeyError.

(** Outcome of a call: an exception or a value. *)
Definition result (A : Type) : Type := (exn + A)%type.

(** [x < y] and [x <= y] on numbers, as booleans. *)
Definition ltb (x y : Q) : bool := negb (Qle_bool y x).
Definition leb (x y : Q) : bool := Qle_bool x y.

(** *** Binary64 arithmetic *)

(** The binary exponent of a positive rational: the [e] with
    [2^e <= q < 2^(e+1)]. *)
Definition ilog2 (q : Q) : Z :=
  let e := (Z.log2 (Qnum q) - Z.log2 (Z.pos (Qden q)))%Z in
  if Qle_bool (2 ^ e) q then e else (e - 1)%Z.

(** The integer nearest to [x]; a tie goes to the even neighbour. *)
Definition round_half_even (x : Q) : Z :=
  let f := Qfloor x in
  match Qcompare (x - inject_Z f) (1 # 2) with
  | Lt => f
  | Gt => (f + 1)%Z
  | Eq => if Z.even f then f else (f + 1)%Z
  end.

(** The binary64 number nearest to a positive [q]: a multiple of [2^k]
    with a significand of 53 bits, or of [2^-1074] in the subnormal
    range. *)
Definition float_pos (q : Q) : Q :=
  let k := Z.max (ilog2 q - 52) (-1074) in
  Qred (inject_Z (round_half_even (q * 2 ^ (- k))) * 2 ^ k).

(** The binary64 number nearest to [q], as Python's [float] reads a
    number.  The exponent is not bounded above: a result beyond the
    largest float, where Python gives [inf], is out of the embedding. *)
Definition float (q : Q) : Q :=
  match Qcompare q 0 with
  | Eq => 0
  | Gt => float_pos q
  | Lt => - float_pos (- q)
  end.

(** [x + y], [x - y] and [x * y] on floats. *)
Definition fadd (x y : Q) : Q := float (float x + float y).
Definition fsub (x y : Q) : Q := float (float x - float y).
Definition fmul (x y : Q) : Q := float (float x * float y).

(** [int(x)]: truncation toward zero. *)
Definition int (x : Q) : Z := Z.quot (Qnum x) (Z.pos (Qden x)).

(** [len(l)] as a Python int. *)
Definition len {A} (l : list A) : Z := Z.of_nat (List.length l).

(** Resolution of one slice bound against a sequence of length [n]:
    a negative bound counts from the end, and the result is clamped to
    [0..n]. *)
Definition bound (n : Z) (dflt : Z) (b : option Z) : Z :=
  match b with
  | None => dflt
  | Some i => if (i <? 0)%Z then Z.max (i + n) 0 else Z.min i n
  end.

(** [l[lo:hi]] with step 1. *)
Definition slice {A} (l : list A) (lo hi : option Z) : list A :=
  let n := len l in
  let lo' := bound n 0%Z lo in
  let hi' := bound n n hi in
  firstn (Z.to_nat (hi' - lo')) (skipn (Z.to_nat lo') l).

(** [sep.join(l)]. *)
Definition join (sep : string) (l : list string) : string := String.concat sep l.

(** [str.isspace] on one character, read as the code point of the same
    number (below 256): the ASCII white space, U+0085 and U+00A0.  The
    white space of Python beyond U+00FF has no counterpart. *)
Definition isspace (c : ascii) : bool :=
  let n := nat_of_ascii c in
  (Nat.leb 9 n && Nat.leb n 13) || (Nat.leb 28 n && Nat.leb n 32)
  || Nat.eqb n 133 || Nat.eqb n 160.

Fixpoint lstrip (s : string) : string :=
  match s with
  | EmptyString => EmptyString
  | String c s' => if isspace c then lstrip s' else s
  end.

Fixpoint rev_string (s acc : string) : string :=
  match s with
  | EmptyString => acc
  | String c s' => rev_string s' (String c acc)
  end.

(** [s.strip()]. *)
Definition strip (s : string) : string :=
  rev_string (lstrip (rev_string (lstrip s) EmptyString)) EmptyString.

(** [s.startswith(w)]. *)
Definition startswith (s w : string) : bool := String.prefix w s.

(** [s[n:]] for [n >= 0]. *)
Fixpoint drop (n : nat) (s : string) : string :=
  match n, s with
  | O, _ => s
  | S _, EmptyString => EmptyString
  | S n', String _ s' => drop n' s'
  end.

(** Dynamically typed values met in the formatted log messages. *)
Inductive value : Type :=
| VNone
| VNum (q : Q)
| VStr (s : string).

Definition of_opt (o : option Q) : value :=
  match o with None => VNone | Some q => VNum q end.

Fixpoint repeat_string (s : string) (n : nat) : string :=
  match n with
  | O => EmptyString
  | S n' => append s (repeat_string s n')
  end.

(** [v * n] for an int literal [n]. *)
Definition mul (v : value) (n : Z) : result value :=
  match v with
  | VNone => inl TypeError
  | VNum q => inr (VNum (q * inject_Z n))
  | VStr s => inr (VStr (repeat_string s (Z.to_nat n)))
  end.

(** [format(v, ".0f")] and [format(v, "2.2f")]: only numbers accept a
    float presentation type.  The rendered text only reaches the log. *)
Definition format_f (v : value) : result unit :=
  match v with
  | VNone => inl TypeError
  | VNum _ => inr tt
  | VStr _ => inl ValueError
  end.

(** [s[0]] on a string. *)
Definition str_index0 (s : string) : result value :=
  match s with
  | EmptyString => inl IndexError
  | String c _ => inr (VStr (String c EmptyString))
  end.

(** Sequencing of fallible evaluations. *)
Definition bind {A B} (r : result A) (k : A -> result B) : result B :=
  match r with
  | inl e => inl e
  | inr a => k a
  end.

End Py.

(** ** Timestamped words *)

(** A word [(beg, end, text)]. *)
Definition TimedWord : Type := (Q * Q * string)%type.

Definition w_beg (w : TimedWord) : Q := fst (fst w).
Definition w_end (w : TimedWord) : Q := snd (fst w).
Definition w_text (w : TimedWord) : string := snd w.

(** [(a + offset, b + offset, t)]. *)
Definition shift (offset : Q) (w : TimedWord) : TimedWord :=
  (Py.fadd (w_beg w) offset, Py.fadd (w_end w) offset, w_text w).

(** ** HypothesisBuffer *)

Module HypothesisBuffer.

Record t : Type := mk {
  commited_in_buffer : list TimedWord;
  buffer : list TimedWord;
  new : list TimedWord;
  last_commited_time : Q;
  last_commited_word : option string
}.

(** [__init__]. *)
Definition init : t :=
  {| commited_in_buffer := [];
     buffer := [];
     new := [];
     last_commited_time := 0;
     last_commited_word := None |}.

(** The comprehension of line 24: the shifted words that start after
    [last_commited_time - 0.1]. *)
Definition survivors (h : t) (new_words : list TimedWord) (offset : Q) : list TimedWord :=
  filter (fun w => Py.ltb (Py.fsub (last_commited_time h) (1 # 10)) (w_beg w))
         (map (shift offset) new_words).

(** [c] of line 34: the texts [commited_in_buffer[-j]] for [j = 1..i],
    reversed and joined by one space. *)
Definition ngram_commited (cib : list TimedWord) (i : nat) : string :=
  Py.join " "
    (rev (map (fun j => w_text (nth (List.length cib - j) cib (0, 0, EmptyString)))
              (seq 1 i))).

(** [tail] of line 39: the texts [new[j-1]] for [j = 1..i], joined by one
    space. *)
Definition ngram_new (nw : list TimedWord) (i : nat) : string :=
  Py.join " "
    (map (fun j => w_text (nth (j - 1) nw (0, 0, EmptyString))) (seq 1 i)).

(** The [for i in range(1, min(min(cn, nn), 5) + 1)] loop: the first [i]
    whose n-grams agree, if any. *)
Definition dedup_count (cib nw : list TimedWord) : option nat :=
  find (fun i => String.eqb (ngram_commited cib i) (ngram_new nw i))
       (seq 1 (Nat.min (Nat.min (List.length cib) (List.length nw)) 5)).

(** Lines 26-46: what is left of [self.new] after the n-gram check. *)
Definition dedup (h : t) (nw : list TimedWord) : list TimedWord :=
  match nw with
  | [] => nw
  | w0 :: _ =>
      if Py.ltb (Qabs (Py.fsub (w_beg w0) (last_commited_time h))) 1 then
        match commited_in_buffer h with
        | [] => nw
        | _ :: _ =>
            match dedup_count (commited_in_buffer h) nw with
            | Some i => skipn i nw
            | None => nw
            end
        end
      else nw
  end.

(** [insert(new, offset)]. *)
Definition insert (h : t) (new_words : list TimedWord) (offset : Q) : t :=
  {| commited_in_buffer := commited_in_buffer h;
     buffer := buffer h;
     new := dedup h (survivors h new_words offset);
     last_commited_time := last_commited_time h;
     last_commited_word := last_commited_word h |}.

(** The state of the [while self.new] loop of [flush]. *)
Record flush_state : Type := mk_flush {
  fl_commit : list TimedWord;
  fl_new : list TimedWord;
  fl_buffer : list TimedWord;
  fl_time : Q;
  fl_word : option string
}.

(** The loop of lines 52-65; every iteration that does not break pops the
    head of [self.new], so the recursion is on that list. *)
Fixpoint flush_loop (nw buf commit : list TimedWord) (lt : Q) (lw : option string)
  : flush_state :=
  match nw with
  | [] => mk_flush commit nw buf lt lw
  | (na, nb, nt) :: nw' =>
      match buf with
      | [] => mk_flush commit nw buf lt lw
      | b0 :: buf' =>
          if String.eqb nt (w_text b0)
          then flush_loop nw' buf' (commit ++ [(na, nb, nt)]) nb (Some nt)
          else mk_flush commit nw buf lt lw
      end
  end.

(** [flush()]: the returned commit list and the buffer afterwards. *)
Definition flush (h : t) : list TimedWord * t :=
  let st := flush_loop (new h) (buffer h) [] (last_commited_time h) (last_commited_word h) in
  (fl_commit st,
   {| commited_in_buffer := commited_in_buffer h ++ fl_commit st;
      buffer := fl_new st;
      new := [];
      last_commited_time := fl_time st;
      last_commited_word := fl_word st |}).

(** The loop of [pop_commited]. *)
Fixpoint pop_while (time : Q) (cib : list TimedWord) : list TimedWord :=
  match cib with
  | [] => []
  | w :: cib' => if Py.leb (w_end w) time then pop_while time cib' else cib
  end.

(** [pop_commited(time)]. *)
Definition pop_commited (h : t) (time : Q) : t :=
  {| commited_in_buffer := pop_while time (commited_in_buffer h);
     buffer := buffer h;
     new := new h;
     last_commited_time := last_commited_time h;
     last_commited_word := last_commited_word h |}.

(** [complete()]. *)
Definition complete (h : t) : list TimedWord := buffer h.

(** A caller's view of the buffer: a sequence of [insert] and [flush]
    calls. *)
Inductive call : Type :=
| Insert (new_words : list TimedWord) (offset : Q)
| Flush.

Definition step (h : t) (c : call) : t :=
  match c with
  | Insert ws offset => insert h ws offset
  | Flush => snd (flush h)
  end.

Definition run (h : t) (cs : list call) : t := fold_left step cs h.

End HypothesisBuffer.

(** ** OnlineASRProcessor *)

(** One audio sample; its value is never inspected. *)
Definition Sample : Type := Q.

(** The recognizer: [asr.sep], [asr.transcribe(audio, init_prompt=...)],
    [asr.ts_words(res)] and [asr.segments_end_ts(res)]. *)
Record ASR (Res : Type) : Type := mkASR {
  sep : string;
  transcribe : list Sample -> string -> Res;
  ts_words : Res -> list TimedWord;
  segments_end_ts : Res -> list Q
}.

(** What [process_iter] and [finish] return: [(beg, end, text)] with [None]
    for a missing time. *)
Definition Triple : Type := (option Q * option Q * string)%type.

Module OnlineASRProcessor.

Definition SAMPLING_RATE : Z := 16000.

(** The accepted values of [buffer_trimming_way]. *)
Inductive trimming : Type :=
| Sentence
| Segment.

Record t : Type := mk {
  audio_buffer : list Sample;
  transcript_buffer : HypothesisBuffer.t;
  buffer_time_offset : Q;
  commited : list TimedWord;
  buffer_trimming_way : trimming;
  buffer_trimming_sec : Q
}.

(** A method body: the outcome and the object afterwards. *)
Definition M (A : Type) : Type := t -> Py.result A * t.

Definition ret {A} (a : A) : M A := fun s => (inr a, s).
Definition raise {A} (e : Py.exn) : M A := fun s => (inl e, s).
Definition bind {A B} (m : M A) (k : A -> M B) : M B :=
  fun s =>
    match m s with
    | (inl e, s') => (inl e, s')
    | (inr a, s') => k a s'
    end.
(** A method that cannot raise. *)
Definition exec (f : t -> t) : M unit := fun s => (inr tt, f s).
(** Binding of positional arguments: a method declared with [params]
    parameters besides [self] and called with [args] arguments raises
    [TypeError] before its body runs unless the two agree. *)
Definition call_method {A} (params args : nat) (body : M A) : M A :=
  if Nat.eqb params args then body else raise Py.TypeError.

Declare Scope online_scope.
Delimit Scope online_scope with online.
Notation "x <- m ;; k" := (bind m (fun x => k))
  (at level 100, m at next level, right associativity) : online_scope.
Notation "m ;;; k" := (bind m (fun _ => k))
  (at level 100, right associativity) : online_scope.

(** [len(self.audio_buffer) / self.SAMPLING_RATE]. *)
Definition audio_seconds (audio : list Sample) : Q :=
  inject_Z (Py.len audio) / inject_Z SAMPLING_RATE.

(** [init(offset=None)]. *)
Definition init (s : t) (offset : option Q) : t :=
  let off := match offset with Some o => o | None => 0 end in
  {| audio_buffer := [];
     transcript_buffer :=
       {| HypothesisBuffer.commited_in_buffer := [];
          HypothesisBuffer.buffer := [];
          HypothesisBuffer.new := [];
          HypothesisBuffer.last_commited_time := off;
          HypothesisBuffer.last_commited_word := None |};
     buffer_time_offset := off;
     commited := [];
     buffer_trimming_way := buffer_trimming_way s;
     buffer_trimming_sec := buffer_trimming_sec s |}.

(** [__init__(asr, tokenize_method, buffer_trimming)]: [init()], then the
    validation of the trimming option. *)
Definition create (way : string) (sec : Q) : Py.result t :=
  let fresh w :=
    init {| audio_buffer := [];
            transcript_buffer := HypothesisBuffer.init;
            buffer_time_offset := 0;
            commited := [];
            buffer_trimming_way := w;
            buffer_trimming_sec := sec |} None in
  if String.eqb way "sentence" then
    if Py.leb sec 0 then inl Py.ValueError else inr (fresh Sentence)
  else if String.eqb way "segment" then
    if Py.leb sec 0 then inl Py.ValueError else inr (fresh Segment)
  else inl Py.ValueError.

(** [insert_audio_chunk(audio)]. *)
Definition insert_audio_chunk (s : t) (audio : list Sample) : t :=
  {| audio_buffer := audio_buffer s ++ audio;
     transcript_buffer := transcript_buffer s;
     buffer_time_offset := buffer_time_offset s;
     commited := commited s;
     buffer_trimming_way := buffer_trimming_way s;
     buffer_trimming_sec := buffer_trimming_sec s |}.

(** The [while k > 0 and self.commited[k - 1][1] > self.buffer_time_offset]
    loop of [prompt]. *)
Fixpoint prompt_scan (cm : list TimedWord) (offset : Q) (k : nat) : nat :=
  match k with
  | O => O
  | S k' =>
      match nth_error cm k' with
      | Some w => if Py.ltb offset (w_end w) then prompt_scan cm offset k' else k
      | None => k
      end
  end.

(** [k] when the loop of [prompt] ends; it starts from
    [max(0, len(self.commited) - 1)]. *)
Definition prompt_k (cm : list TimedWord) (offset : Q) : nat :=
  prompt_scan cm offset (Nat.max 0 (List.length cm - 1)).

(** The [while p and l < 200] loop: [p_rev] is [p] seen from its end
    ([p.pop(-1)] takes its head), the result is [prompt] in append
    order. *)
Fixpoint prompt_take (p_rev : list string) (l : nat) : list string :=
  match p_rev with
  | [] => []
  | x :: rest =>
      if Nat.ltb l 200 then x :: prompt_take rest (l + (String.length x + 1)) else []
  end.

(** The list [prompt[::-1]] that is joined. *)
Definition prompt_words (cm : list TimedWord) (offset : Q) : list string :=
  rev (prompt_take (rev (map w_text (firstn (prompt_k cm offset) cm))) 0).

(** [concatenate_tsw(tsw, sep, offset)]. *)
Definition concatenate_tsw (tsw : list TimedWord) (sp : string) (offset : Q) : Triple :=
  let text := Py.join sp (map w_text tsw) in
  match tsw with
  | [] => (None, None, text)
  | w0 :: _ => (Some (offset + w_beg w0), Some (offset + w_end (last tsw w0)), text)
  end.

(** [chunk_at(time)]. *)
Definition chunk_at (s : t) (time : Q) : t :=
  let cut_seconds := Py.fsub time (buffer_time_offset s) in
  {| audio_buffer :=
       Py.slice (audio_buffer s)
                (Some (Py.int (Py.fmul cut_seconds (inject_Z SAMPLING_RATE)))) None;
     transcript_buffer := HypothesisBuffer.pop_commited (transcript_buffer s) time;
     buffer_time_offset := time;
     commited := commited s;
     buffer_trimming_way := buffer_trimming_way s;
     buffer_trimming_sec := buffer_trimming_sec s |}.

(** [ends[-2] + self.buffer_time_offset]. *)
Definition segment_candidate (ends : list Q) (offset : Q) : Q :=
  nth (List.length ends - 2) ends 0 + offset.

(** The [while len(ends) > 2 and e > t] loop of
    [chunk_completed_segment]; each iteration pops the last segment end,
    so [fuel = len(ends)] iterations are never exhausted. *)
Fixpoint segment_loop (fuel : nat) (ends : list Q) (e offset t : Q) : list Q * Q :=
  match fuel with
  | O => (ends, e)
  | S fuel' =>
      if Nat.ltb 2 (List.length ends) && Py.ltb t e then
        let ends' := removelast ends in
        segment_loop fuel' ends' (segment_candidate ends' offset) offset t
      else (ends, e)
  end.

(** [e] when the loop ends. *)
Definition segment_end (ends : list Q) (offset t : Q) : Q :=
  snd (segment_loop (List.length ends) ends (segment_candidate ends offset) offset t).

(** [chunk_completed_segment(res)], given [ends = asr.segments_end_ts(res)]. *)
Definition chunk_completed_segment (s : t) (ends : list Q) : t :=
  match commited s with
  | [] => s
  | w0 :: _ =>
      let t := w_end (last (commited s) w0) in
      if Nat.leb (List.length ends) 1 then s
      else
        let e := segment_end ends (buffer_time_offset s) t in
        if Py.leb e t then chunk_at s e else s
  end.

(** A sentence [(beg, end, text)] as [words_to_sentences] builds it. *)
Definition SentenceT : Type := (option Q * option Q * string)%type.

(** The inner [while cwords] loop of [words_to_sentences]: the sentence
    appended on [break], if any, and the words left. *)
Fixpoint sentence_words (cwords : list TimedWord) (beg : option Q) (sent fsent : string)
  : option SentenceT * list TimedWord :=
  match cwords with
  | [] => (None, [])
  | (b, e, w) :: rest =>
      let w := Py.strip w in
      let next := Py.strip (Py.drop (String.length w) sent) in
      match beg with
      | None =>
          if Py.startswith sent w then sentence_words rest (Some b) next fsent
          else if String.eqb sent w then (Some (beg, Some e, fsent), rest)
          else sentence_words rest beg next fsent
      | Some _ =>
          if String.eqb sent w then (Some (beg, Some e, fsent), rest)
          else sentence_words rest beg next fsent
      end
  end.

(** The outer [while s] loop. *)
Fixpoint sentences_loop (s : list string) (cwords : list TimedWord) : list SentenceT :=
  match s with
  | [] => []
  | s0 :: s' =>
      let sent := Py.strip s0 in
      match sentence_words cwords None sent sent with
      | (Some x, cwords') => x :: sentences_loop s' cwords'
      | (None, cwords') => sentences_loop s' cwords'
      end
  end.

Section WithCollaborators.

Variable Res : Type.
Variable asr : ASR Res.
(** [self.tokenize]; [None] is allowed with the "segment" option. *)
Variable tokenize : option (list string -> list string).

(** [prompt()]: the pair [(prompt, context)]. *)
Definition prompt (s : t) : string * string :=
  let k := prompt_k (commited s) (buffer_time_offset s) in
  (Py.join (sep asr) (prompt_words (commited s) (buffer_time_offset s)),
   Py.join (sep asr) (map w_text (skipn k (commited s)))).

(** [words_to_sentences(words)]. *)
Definition words_to_sentences (words : list TimedWord) : Py.result (list SentenceT) :=
  let text := Py.join (sep asr) (map w_text words) in
  match tokenize with
  | None => inl Py.TypeError
  | Some tok => inr (sentences_loop (tok [text]) words)
  end.

(** The formatted message of line 234, evaluated for every sentence:
    [f"{s[0]*1000:.0f}-{s[1]*1000:.0f} {s[2]}"]. *)
Fixpoint sentences_message (sents : list SentenceT) : Py.result unit :=
  match sents with
  | [] => inr tt
  | (b, e, _) :: rest =>
      Py.bind (Py.mul (Py.of_opt b) 1000) (fun vb =>
      Py.bind (Py.format_f vb) (fun _ =>
      Py.bind (Py.mul (Py.of_opt e) 1000) (fun ve =>
      Py.bind (Py.format_f ve) (fun _ =>
      sentences_message rest))))
  end.

(** The body of [chunk_completed_sentence(self)]. *)
Definition chunk_completed_sentence : M unit :=
  fun s =>
    match commited s with
    | [] => (inr tt, s)
    | _ :: _ =>
        match words_to_sentences (commited s) with
        | inl e => (inl e, s)
        | inr sents =>
            if Nat.ltb (List.length sents) 2 then (inr tt, s)
            else
              match sentences_message sents with
              | inl e => (inl e, s)
              | inr _ =>
                  match nth (List.length sents - 2) sents (None, None, EmptyString) with
                  | (_, Some time, _) => (inr tt, chunk_at s time)
                  | (_, None, _) => (inl Py.TypeError, s)
                  end
              end
        end
    end.

(** The call [self.chunk_completed_sentence(self.commited)] of line 188:
    one positional argument for a method declared with none. *)
Definition call_chunk_completed_sentence : M unit :=
  call_method 0 1 chunk_completed_sentence.

(** The formatted message of line 318, whose fields are evaluated from
    left to right before [logger.debug] is entered:
    [f"{f[0]*1000:.0f}-{f[1]*1000:.0f}: {f[2][0]*1000:.0f}-{f[1]*1000:.0f}: {f[2]}"]. *)
Definition finish_message (f : Triple) : Py.result unit :=
  let '(b, e, text) := f in
  Py.bind (Py.mul (Py.of_opt b) 1000) (fun v0 =>
  Py.bind (Py.format_f v0) (fun _ =>
  Py.bind (Py.mul (Py.of_opt e) 1000) (fun v1 =>
  Py.bind (Py.format_f v1) (fun _ =>
  Py.bind (Py.str_index0 text) (fun c =>
  Py.bind (Py.mul c 1000) (fun v2 =>
  Py.bind (Py.format_f v2) (fun _ =>
  Py.bind (Py.mul (Py.of_opt e) 1000) (fun v3 =>
  Py.format_f v3)))))))).

(** [finish()]. *)
Definition finish : M Triple :=
  fun s =>
    let o := HypothesisBuffer.complete (transcript_buffer s) in
    let f := concatenate_tsw o (sep asr) 0 in
    match finish_message f with
    | inl e => (inl e, s)
    | inr _ =>
        (inr f,
         {| audio_buffer := audio_buffer s;
            transcript_buffer := transcript_buffer s;
            buffer_time_offset :=
              buffer_time_offset s + inject_Z (Py.len (audio_buffer s)) / 16000;
            commited := commited s;
            buffer_trimming_way := buffer_trimming_way s;
            buffer_trimming_sec := buffer_trimming_sec s |})
    end.

(** Lines 163-178 of [process_iter]: the recognizer pass, the insertion
    of its words and the commit.  Returns the recognizer's result and
    the newly committed words. *)
Definition transcribe_and_commit (s : t) : (Res * list TimedWord) * t :=
  let res := transcribe asr (audio_buffer s) (fst (prompt s)) in
  let tsw := ts_words asr res in
  let inserted := HypothesisBuffer.insert (transcript_buffer s) tsw (buffer_time_offset s) in
  let '(o, flushed) := HypothesisBuffer.flush inserted in
  ((res, o),
   {| audio_buffer := audio_buffer s;
      transcript_buffer := flushed;
      buffer_time_offset := buffer_time_offset s;
      commited := commited s ++ o;
      buffer_trimming_way := buffer_trimming_way s;
      buffer_trimming_sec := buffer_trimming_sec s |}).

(** Lines 196-204: the segment trim once the audio is longer than
    [buffer_trimming_sec]. *)
Definition trim_when_long (res : Res) (s : t) : t :=
  if Py.ltb (buffer_trimming_sec s) (audio_seconds (audio_buffer s))
  then chunk_completed_segment s (segments_end_ts asr res)
  else s.

(** [process_iter()].  Its own log messages format numbers with [2.2f]
    and interpolate strings, which cannot raise; they are left out. *)
Definition process_iter : M Triple :=
  (ro <- (fun s => let '(x, s') := transcribe_and_commit s in (inr x, s')) ;;
   let completed := concatenate_tsw (snd ro) (sep asr) 0 in
   (fun s =>
      match buffer_trimming_way s with
      | Sentence => call_chunk_completed_sentence s
      | Segment => (inr tt, s)
      end) ;;;
   exec (trim_when_long (fst ro)) ;;;
   ret completed)%online.

End WithCollaborators.

End OnlineASRProcessor.

(** ** VACOnlineASRProcessor *)

(** The reply of the voice activity controller to one chunk: [None] or a
    dict, kept in insertion order, with the keys ["start"] and/or ["end"]
    bound to absolute frame numbers. *)
Definition VadReply : Type := option (list (string * Z)).

(** [key in d] and [d[key]]. *)
Definition dict_has (d : list (string * Z)) (key : string) : bool :=
  existsb (fun kv => String.eqb (fst kv) key) d.

Definition dict_get (d : list (string * Z)) (key : string) : Py.result Z :=
  match find (fun kv => String.eqb (fst kv) key) d with
  | Some kv => inr (snd kv)
  | None => inl Py.KeyError
  end.

Module VACOnlineASRProcessor.

Definition SAMPLING_RATE : Z := OnlineASRProcessor.SAMPLING_RATE.

(** [self.status]: ["voice"] or ["nonvoice"] ([None] before the first
    VAD event). *)
Inductive voice_status : Type :=
| Voice
| NonVoice.

Record t : Type := mk {
  online : OnlineASRProcessor.t;
  online_chunk_size : Q;
  current_online_chunk_buffer_size : Z;
  is_currently_final : bool;
  status : option voice_status;
  audio_buffer : list Sample;
  buffer_offset : Z
}.

(** [init()]. *)
Definition init (v : t) : t :=
  {| online := OnlineASRProcessor.init (online v) None;
     online_chunk_size := online_chunk_size v;
     current_online_chunk_buffer_size := 0;
     is_currently_final := false;
     status := None;
     audio_buffer := [];
     buffer_offset := 0 |}.

(** [clear_buffer()]. *)
Definition clear_buffer (v : t) : t :=
  {| online := online v;
     online_chunk_size := online_chunk_size v;
     current_online_chunk_buffer_size := current_online_chunk_buffer_size v;
     is_currently_final := is_currently_final v;
     status := status v;
     audio_buffer := [];
     buffer_offset := buffer_offset v + Py.len (audio_buffer v) |}.

(** The common tail of the three event branches and of the voiced branch:
    optionally restart the inner processor at [restart], forward
    [send_audio], count it, set the flags and clear the local buffer. *)
Definition forward (v : t) (st : option voice_status) (restart : option Q)
           (send_audio : list Sample) (final : bool) : t :=
  let inner :=
    match restart with
    | Some off => OnlineASRProcessor.init (online v) (Some off)
    | None => online v
    end in
  clear_buffer
    {| online := OnlineASRProcessor.insert_audio_chunk inner send_audio;
       online_chunk_size := online_chunk_size v;
       current_online_chunk_buffer_size :=
         current_online_chunk_buffer_size v + Py.len send_audio;
       is_currently_final := final;
       status := st;
       audio_buffer := audio_buffer v;
       buffer_offset := buffer_offset v |}.

(** [(frame + self.buffer_offset) / self.SAMPLING_RATE]. *)
Definition frame_seconds (v : t) (frame : Z) : Q :=
  inject_Z (frame + buffer_offset v) / inject_Z SAMPLING_RATE.

(** [insert_audio_chunk(audio)], given [res = self.vac(audio)]. *)
Definition insert_audio_chunk (v : t) (audio : list Sample) (res : VadReply)
  : Py.result unit * t :=
  let v1 :=
    {| online := online v;
       online_chunk_size := online_chunk_size v;
       current_online_chunk_buffer_size := current_online_chunk_buffer_size v;
       is_currently_final := is_currently_final v;
       status := status v;
       audio_buffer := audio_buffer v ++ audio;
       buffer_offset := buffer_offset v |} in
  match res with
  | Some d =>
      match d with
      | [] => (inl Py.IndexError, v1)
      | (_, first) :: _ =>
          let frame := (first - buffer_offset v1)%Z in
          if dict_has d "start" && negb (dict_has d "end") then
            (inr tt,
             forward v1 (Some Voice) (Some (frame_seconds v1 frame))
                     (Py.slice (audio_buffer v1) (Some frame) None)
                     (is_currently_final v1))
          else if dict_has d "end" && negb (dict_has d "start") then
            (inr tt,
             forward v1 (Some NonVoice) None
                     (Py.slice (audio_buffer v1) None (Some frame)) true)
          else
            match dict_get d "start" with
            | inl e => (inl e, v1)
            | inr start =>
                match dict_get d "end" with
                | inl e => (inl e, v1)
                | inr stop =>
                    let b := (start - buffer_offset v1)%Z in
                    let e := (stop - buffer_offset v1)%Z in
                    (inr tt,
                     forward v1 (Some NonVoice) (Some (frame_seconds v1 b))
                             (Py.slice (audio_buffer v1) (Some b) (Some e)) true)
                end
            end
      end
  | None =>
      match status v1 with
      | Some Voice =>
          (inr tt,
           forward v1 (status v1) None (audio_buffer v1) (is_currently_final v1))
      | _ =>
          (inr tt,
           {| online := online v1;
              online_chunk_size := online_chunk_size v1;
              current_online_chunk_buffer_size := current_online_chunk_buffer_size v1;
              is_currently_final := is_currently_final v1;
              status := status v1;
              audio_buffer := Py.slice (audio_buffer v1) (Some (- SAMPLING_RATE)%Z) None;
              buffer_offset :=
                buffer_offset v1 + Z.max 0 (Py.len (audio_buffer v1) - SAMPLING_RATE) |})
      end
  end.

(** A stream of chunks, each with the VAD's reply to it; a call that
    raised leaves the object as it was at the raise. *)
Definition feed (v : t) (chunks : list (list Sample * VadReply)) : t :=
  fold_left (fun v c => snd (insert_audio_chunk v (fst c) (snd c))) chunks v.

(** Number of samples ingested by a stream of chunks. *)
Definition ingested (chunks : list (list Sample * VadReply)) : Z :=
  fold_left (fun n c => (n + Py.len (fst c))%Z) chunks 0%Z.

Section WithCollaborators.

Variable Res : Type.
Variable asr : ASR Res.
Variable tokenize : option (list string -> list string).

(** [finish()]. *)
Definition finish (v : t) : Py.result Triple * t :=
  match OnlineASRProcessor.finish asr (online v) with
  | (inl e, o') =>
      (inl e,
       {| online := o';
          online_chunk_size := online_chunk_size v;
          current_online_chunk_buffer_size := current_online_chunk_buffer_size v;
          is_currently_final := is_currently_final v;
          status := status v;
          audio_buffer := audio_buffer v;
          buffer_offset := buffer_offset v |})
  | (inr ret, o') =>
      (inr ret,
       {| online := o';
          online_chunk_size := online_chunk_size v;
          current_online_chunk_buffer_size := 0;
          is_currently_final := false;
          status := status v;
          audio_buffer := audio_buffer v;
          buffer_offset := buffer_offset v |})
  end.

(** [process_iter()]. *)
Definition process_iter (v : t) : Py.result Triple * t :=
  if is_currently_final v then finish v
  else if Py.ltb (inject_Z SAMPLING_RATE * online_chunk_size v)
                 (inject_Z (current_online_chunk_buffer_size v)) then
    let '(ret, o') := OnlineASRProcessor.process_iter asr tokenize (online v) in
    (ret,
     {| online := o';
        online_chunk_size := online_chunk_size v;
        current_online_chunk_buffer_size := 0;
        is_currently_final := is_currently_final v;
        status := status v;
        audio_buffer := audio_buffer v;
        buffer_offset := buffer_offset v |})
  else (inr (None, None, EmptyString), v).

End WithCollaborators.

End VACOnlineASRProcessor.

(** * Properties *)

Unset Implicit Arguments.

(** ** Vocabulary of the statements *)

(** The commit pointer after committing [commit] in order, from
    [(lt, lw)]: every committed triple overwrites the time with its end
    and the word with its text. *)
Definition advance (commit : list TimedWord) (lt : Q) (lw : option string)
  : Q * option string :=
  fold_left (fun _ w => (w_end w, Some (w_text w))) commit (lt, lw).

(** The hypotheses of scenario S2. *)
Definition s2_pass1 : list TimedWord := [(0, 1 # 2, "hello"); (1 # 2, 1, "word")].
Definition s2_pass2 : list TimedWord := [(0, 1 # 2, "hello"); (1 # 2, 1, "world")].

(** A buffer created for an utterance that starts at [offset]: what
    [OnlineASRProcessor.init(offset)] leaves in [transcript_buffer]. *)
Definition fresh_buffer (offset : Q) : HypothesisBuffer.t :=
  {| HypothesisBuffer.commited_in_buffer := [];
     HypothesisBuffer.buffer := [];
     HypothesisBuffer.new := [];
     HypothesisBuffer.last_commited_time := offset;
     HypothesisBuffer.last_commited_word := None |}.

(** The commit horizon of [insert]: [last_commited_time - 0.1] as the
    program computes it. *)
Definition horizon (h : HypothesisBuffer.t) : Q :=
  Py.fsub (HypothesisBuffer.last_commited_time h) (1 # 10).

(** Every word of an [insert] call has [begin <= end]. *)
Definition well_timed (c : HypothesisBuffer.call) : Prop :=
  match c with
  | HypothesisBuffer.Insert ws _ => Forall (fun w => w_beg w <= w_end w) ws
  | HypothesisBuffer.Flush => True
  end.

(** No word that an [insert] call stores in [new] ends before the
    [last_commited_time] in force at the call.  The words that the call
    discards are not constrained. *)
Definition ends_ahead (h : HypothesisBuffer.t) (c : HypothesisBuffer.call) : Prop :=
  match c with
  | HypothesisBuffer.Insert ws offset =>
      Forall (fun w => HypothesisBuffer.last_commited_time h <= w_end w)
             (HypothesisBuffer.new (HypothesisBuffer.insert h ws offset))
  | HypothesisBuffer.Flush => True
  end.

(** [ends_ahead] at every call of a run. *)
Fixpoint ends_ahead_run (h : HypothesisBuffer.t) (cs : list HypothesisBuffer.call) : Prop :=
  match cs with
  | [] => True
  | c :: cs' => ends_ahead h c /\ ends_ahead_run (HypothesisBuffer.step h c) cs'
  end.

(** The hypotheses of scenario S1. *)
Definition s1_pass1 : list TimedWord := [(0, 1 # 2, "hello"); (1 # 2, 1, "world")].
Definition s1_pass2 : list TimedWord :=
  [(0, 1 # 2, "hello"); (1 # 2, 1, "world"); (1, 14 # 10, "today")].

(** The two passes of scenario S1 followed by a third pass with the
    hypothesis of the second. *)
Definition repeated_pass_run : list HypothesisBuffer.call :=
  [ HypothesisBuffer.Insert s1_pass1 0; HypothesisBuffer.Flush;
    HypothesisBuffer.Insert s1_pass2 0; HypothesisBuffer.Flush;
    HypothesisBuffer.Insert s1_pass2 0 ].

(** A run in which ["a"] is committed with end 1.0 and then ["b"], which
    begins at 0.95 and ends at 0.98. *)
Definition early_end_run : list HypothesisBuffer.call :=
  [ HypothesisBuffer.Insert [(0, 1, "a")] 0; HypothesisBuffer.Flush;
    HypothesisBuffer.Insert [(0, 1, "a")] 0; HypothesisBuffer.Flush;
    HypothesisBuffer.Insert [(95 # 100, 98 # 100, "b")] 0; HypothesisBuffer.Flush;
    HypothesisBuffer.Insert [(95 # 100, 98 # 100, "b")] 0 ].

(** A processor whose window starts at 1.0 s and holds three samples; the
    word committed so far, from 1.0 s to 1.2 s, is still in the hypothesis
    buffer's bookkeeping. *)
Definition rewind_state : OnlineASRProcessor.t :=
  {| OnlineASRProcessor.audio_buffer := [1; 2; 3];
     OnlineASRProcessor.transcript_buffer :=
       {| HypothesisBuffer.commited_in_buffer := [(1, 6 # 5, "a")];
          HypothesisBuffer.buffer := [];
          HypothesisBuffer.new := [];
          HypothesisBuffer.last_commited_time := 6 # 5;
          HypothesisBuffer.last_commited_word := Some "a" |};
     OnlineASRProcessor.buffer_time_offset := 1;
     OnlineASRProcessor.commited := [(1, 6 # 5, "a")];
     OnlineASRProcessor.buffer_trimming_way := OnlineASRProcessor.Segment;
     OnlineASRProcessor.buffer_trimming_sec := 15 |}.

(** The segment ends of scenario S4. *)
Definition s4_ends : list Q := [4; 8; 12; 79 # 5].

(** Scenario S4: trimming option ("segment", 15), 16 s of audio from
    offset 0, and a last committed word that ends at [last_end]. *)
Definition s4_state (last_end : Q) : OnlineASRProcessor.t :=
  {| OnlineASRProcessor.audio_buffer := repeat 0 (Z.to_nat 256000);
     OnlineASRProcessor.transcript_buffer :=
       {| HypothesisBuffer.commited_in_buffer := [(0, last_end, "w")];
          HypothesisBuffer.buffer := [];
          HypothesisBuffer.new := [];
          HypothesisBuffer.last_commited_time := last_end;
          HypothesisBuffer.last_commited_word := Some "w" |};
     OnlineASRProcessor.buffer_time_offset := 0;
     OnlineASRProcessor.commited := [(0, last_end, "w")];
     OnlineASRProcessor.buffer_trimming_way := OnlineASRProcessor.Segment;
     OnlineASRProcessor.buffer_trimming_sec := 15 |}.

(** The length [prompt] counts for a list of texts: [len(x) + 1] for each
    word. *)
Definition prompt_weight (texts : list string) : nat :=
  list_sum (map (fun x => String.length x + 1)%nat texts).

(** The ends of a list of words never decrease. *)
Definition ends_sorted (ws : list TimedWord) : Prop :=
  forall i j wi wj,
    (i <= j)%nat -> nth_error ws i = Some wi -> nth_error ws j = Some wj ->
    w_end wi <= w_end wj.

(** A recognizer that hears nothing; only its separator matters for
    [prompt] and [finish]. *)
Definition silent_asr : ASR unit :=
  {| sep := " ";
     transcribe := fun _ _ => tt;
     ts_words := fun _ => [];
     segments_end_ts := fun _ => [] |}.

(** A processor with the given committed words and window offset, and
    nothing else. *)
Definition with_commited (cm : list TimedWord) (offset : Q) : OnlineASRProcessor.t :=
  {| OnlineASRProcessor.audio_buffer := [];
     OnlineASRProcessor.transcript_buffer := fresh_buffer offset;
     OnlineASRProcessor.buffer_time_offset := offset;
     OnlineASRProcessor.commited := cm;
     OnlineASRProcessor.buffer_trimming_way := OnlineASRProcessor.Segment;
     OnlineASRProcessor.buffer_trimming_sec := 15 |}.

(** A processor as [__init__] leaves it, with the given trimming way and
    the default 15 seconds. *)
Definition fresh_processor (way : OnlineASRProcessor.trimming) : OnlineASRProcessor.t :=
  {| OnlineASRProcessor.audio_buffer := [];
     OnlineASRProcessor.transcript_buffer := fresh_buffer 0;
     OnlineASRProcessor.buffer_time_offset := 0;
     OnlineASRProcessor.commited := [];
     OnlineASRProcessor.buffer_trimming_way := way;
     OnlineASRProcessor.buffer_trimming_sec := 15 |}.

(** A processor after the first pass of scenario S2: one second of audio
    and the hypothesis "hello word" waiting in [buffer] for confirmation. *)
Definition pending_processor : OnlineASRProcessor.t :=
  {| OnlineASRProcessor.audio_buffer := repeat 0 (Z.to_nat 16);
     OnlineASRProcessor.transcript_buffer :=
       {| HypothesisBuffer.commited_in_buffer := [];
          HypothesisBuffer.buffer := s2_pass1;
          HypothesisBuffer.new := [];
          HypothesisBuffer.last_commited_time := 0;
          HypothesisBuffer.last_commited_word := None |};
     OnlineASRProcessor.buffer_time_offset := 0;
     OnlineASRProcessor.commited := [];
     OnlineASRProcessor.buffer_trimming_way := OnlineASRProcessor.Segment;
     OnlineASRProcessor.buffer_trimming_sec := 15 |}.

(** A tokenizer that returns its input as one sentence. *)
Definition whole_text_tokenizer : option (list string -> list string) :=
  Some (fun texts => texts).


(** The last [i] words of a list, in order. *)
Definition last_words (i : nat) (ws : list TimedWord) : list TimedWord :=
  skipn (List.length ws - i) ws.

(** The texts of a list of words joined by single spaces, as the n-gram
    check of [insert] compares them. *)
Definition spaced (ws : list TimedWord) : string :=
  Py.join " " (map w_text ws).

(** The condition under which [insert] runs the n-gram check on the
    surviving words [kept]. *)
Definition dedup_guard (h : HypothesisBuffer.t) (kept : list TimedWord) : Prop :=
  exists w0 rest,
    kept = w0 :: rest /\
    Qabs (Py.fsub (w_beg w0) (HypothesisBuffer.last_commited_time h)) < 1 /\
    HypothesisBuffer.commited_in_buffer h <> [].

(** The buffer of scenario S3: two committed words still inside the
    window, the last of which ended at 1.0 s. *)
Definition s3_buffer : HypothesisBuffer.t :=
  {| HypothesisBuffer.commited_in_buffer := [(0, 1 # 2, "the"); (1 # 2, 1, "cat")];
     HypothesisBuffer.buffer := [];
     HypothesisBuffer.new := [];
     HypothesisBuffer.last_commited_time := 1;
     HypothesisBuffer.last_commited_word := Some "cat" |}.

(** The hypothesis of scenario S3, which repeats the two committed words. *)
Definition s3_words : list TimedWord :=
  [(1, 11 # 10, "the"); (11 # 10, 13 # 10, "cat"); (13 # 10, 16 # 10, "sat")].

(** The absolute time at which the audio window of a processor ends:
    [buffer_time_offset + len(audio_buffer) / 16000]. *)
Definition stream_end (s : OnlineASRProcessor.t) : Q :=
  OnlineASRProcessor.buffer_time_offset s
  + OnlineASRProcessor.audio_seconds (OnlineASRProcessor.audio_buffer s).

(** A recognizer that returns the words [ws] and the segment ends [ends]
    whatever the audio and the prompt. *)
Definition scripted_asr (ws : list TimedWord) (ends : list Q) : ASR unit :=
  {| sep := " ";
     transcribe := fun _ _ => tt;
     ts_words := fun _ => ws;
     segments_end_ts := fun _ => ends |}.

(** The words that a [process_iter] on [s] commits: the flush of the
    recognizer's words inserted at the window offset. *)
Definition newly_commited {Res : Type} (asr : ASR Res) (s : OnlineASRProcessor.t)
  : list TimedWord :=
  fst (HypothesisBuffer.flush
         (HypothesisBuffer.insert
            (OnlineASRProcessor.transcript_buffer s)
            (ts_words asr (transcribe asr (OnlineASRProcessor.audio_buffer s)
                                      (fst (OnlineASRProcessor.prompt asr s))))
            (OnlineASRProcessor.buffer_time_offset s))).

(** The segment ends that the recognizer reports on the audio of [s]. *)
Definition reported_ends {Res : Type} (asr : ASR Res) (s : OnlineASRProcessor.t) : list Q :=
  segments_end_ts asr (transcribe asr (OnlineASRProcessor.audio_buffer s)
                                  (fst (OnlineASRProcessor.prompt asr s))).


(** The state in which [insert_audio_chunk] leaves the object when it
    raises: only the chunk has been appended to the local buffer. *)
Definition chunk_appended (v : VACOnlineASRProcessor.t) (audio : list Sample)
  : VACOnlineASRProcessor.t :=
  {| VACOnlineASRProcessor.online := VACOnlineASRProcessor.online v;
     VACOnlineASRProcessor.online_chunk_size := VACOnlineASRProcessor.online_chunk_size v;
     VACOnlineASRProcessor.current_online_chunk_buffer_size :=
       VACOnlineASRProcessor.current_online_chunk_buffer_size v;
     VACOnlineASRProcessor.is_currently_final := VACOnlineASRProcessor.is_currently_final v;
     VACOnlineASRProcessor.status := VACOnlineASRProcessor.status v;
     VACOnlineASRProcessor.audio_buffer := VACOnlineASRProcessor.audio_buffer v ++ audio;
     VACOnlineASRProcessor.buffer_offset := VACOnlineASRProcessor.buffer_offset v |}.

(** A VAC processor in silence, before any VAD event, whose local buffer
    holds the last 3 of the 23 samples ingested so far. *)
Definition silent_vac : VACOnlineASRProcessor.t :=
  {| VACOnlineASRProcessor.online := fresh_processor OnlineASRProcessor.Segment;
     VACOnlineASRProcessor.online_chunk_size := 1;
     VACOnlineASRProcessor.current_online_chunk_buffer_size := 0;
     VACOnlineASRProcessor.is_currently_final := false;
     VACOnlineASRProcessor.status := None;
     VACOnlineASRProcessor.audio_buffer := repeat 0 (Z.to_nat 3);
     VACOnlineASRProcessor.buffer_offset := 20 |}.

(** The accumulator of a VAC processor bounds the audio held by the inner
    processor and is bounded by the offset of the local buffer. *)
Definition counted (v : VACOnlineASRProcessor.t) : Prop :=
  (0 <= VACOnlineASRProcessor.current_online_chunk_buffer_size v)%Z /\
  (Py.len (OnlineASRProcessor.audio_buffer (VACOnlineASRProcessor.online v))
   <= VACOnlineASRProcessor.current_online_chunk_buffer_size v)%Z /\
  (VACOnlineASRProcessor.current_online_chunk_buffer_size v
   <= VACOnlineASRProcessor.buffer_offset v)%Z.

(** A sentence triple spans the words [ws]: it begins with the begin of
    one word and ends with the end of a strictly later one. *)
Definition spans (ws : list TimedWord) (x : OnlineASRProcessor.SentenceT) : Prop :=
  exists pre wb mid we post,
    ws = pre ++ wb :: mid ++ we :: post /\
    fst (fst x) = Some (w_beg wb) /\
    snd (fst x) = Some (w_end we).

(** Three committed words that a tokenizer splits after the second. *)
Definition two_sentence_words : list TimedWord :=
  [(0, 1, "Hello"); (1, 2, "world."); (2, 3, "How"); (3, 4, "are"); (4, 5, "you?")].

(** A tokenizer that always returns the two sentences of
    [two_sentence_words]. *)
Definition two_sentence_tokenizer : list string -> list string :=
  fun _ => ["Hello world."; "How are you?"].

(** The bookkeeping of the hypothesis buffer agrees with the transcript of
    the processor: [commited_in_buffer] is a suffix of [commited], and
    [last_commited_time] is the end of the last committed word. *)
Definition bookkeeping_agrees (s : OnlineASRProcessor.t) : Prop :=
  (exists k : nat,
      (k <= List.length (OnlineASRProcessor.commited s))%nat /\
      HypothesisBuffer.commited_in_buffer (OnlineASRProcessor.transcript_buffer s)
      = skipn k (OnlineASRProcessor.commited s)) /\
  (forall w0 rest,
      OnlineASRProcessor.commited s = w0 :: rest ->
      HypothesisBuffer.last_commited_time (OnlineASRProcessor.transcript_buffer s)
      = w_end (last (OnlineASRProcessor.commited s) w0)).

(** A processor restarted at [offset] that has then received [audio]:
    [init(offset)] followed by [insert_audio_chunk(audio)], with the
    "segment" option. *)
Definition started (offset sec : Q) (audio : list Sample) : OnlineASRProcessor.t :=
  OnlineASRProcessor.insert_audio_chunk
    (OnlineASRProcessor.init
       (OnlineASRProcessor.mk [] HypothesisBuffer.init 0 [] OnlineASRProcessor.Segment sec)
       (Some offset))
    audio.

(** The processor after a first pass on a restarted processor. *)
Definition after_first_pass (offset sec : Q) (audio : list Sample)
           (pending : list TimedWord) : OnlineASRProcessor.t :=
  {| OnlineASRProcessor.audio_buffer := audio;
     OnlineASRProcessor.transcript_buffer :=
       {| HypothesisBuffer.commited_in_buffer := [];
          HypothesisBuffer.buffer := pending;
          HypothesisBuffer.new := [];
          HypothesisBuffer.last_commited_time := offset;
          HypothesisBuffer.last_commited_word := None |};
     OnlineASRProcessor.buffer_time_offset := offset;
     OnlineASRProcessor.commited := [];
     OnlineASRProcessor.buffer_trimming_way := OnlineASRProcessor.Segment;
     OnlineASRProcessor.buffer_trimming_sec := sec |}.

(** ** Binary64 rounding *)

Module FloatFacts.

Lemma pow2_pos (k : Z) : 0 < 2 ^ k.
Proof. apply Qpower_0_lt. reflexivity. Qed.

Lemma pow2_le (a b : Z) : (a <= b)%Z -> 2 ^ a <= 2 ^ b.
Proof. intros H. apply Qpower_le_compat_l; [exact H | discriminate]. Qed.

Lemma pow2_plus (a b : Z) : 2 ^ (a + b) == 2 ^ a * 2 ^ b.
Proof. apply Qpower_plus. discriminate. Qed.

Lemma pow2_sub (a b : Z) : 2 ^ (a - b) == 2 ^ a * 2 ^ (- b).
Proof. unfold Z.sub. apply pow2_plus. Qed.

Lemma pow2_cancel (k : Z) : 2 ^ (- k) * 2 ^ k == 1.
Proof. rewrite <- pow2_plus. now replace (- k + k)%Z with 0%Z by lia. Qed.

Lemma pow2_Z (n : Z) : (0 <= n)%Z -> inject_Z (2 ^ n) == 2 ^ n.
Proof. intros H. now rewrite Zpower_Qpower. Qed.

(** Rounding to the nearest integer stays within the two neighbours. *)
Lemma round_bounds (x : Q) :
  (Qfloor x <= Py.round_half_even x <= Qfloor x + 1)%Z.
Proof.
  unfold Py.round_half_even.
  destruct (Qcompare _ _); [destruct (Z.even _)| |]; lia.
Qed.

Lemma round_Z (n : Z) : Py.round_half_even (inject_Z n) = n.
Proof.
  unfold Py.round_half_even. rewrite Qfloor_Z.
  destruct (Qcompare_spec (inject_Z n - inject_Z n) (1 # 2)) as [H | H | H];
    [exfalso; lra | reflexivity | exfalso; lra].
Qed.

Lemma round_mono (x y : Q) :
  x <= y -> (Py.round_half_even x <= Py.round_half_even y)%Z.
Proof.
  intros Hxy. pose proof (Qfloor_resp_le _ _ Hxy) as Hf.
  pose proof (round_bounds x) as Hx. pose proof (round_bounds y) as Hy.
  destruct (Z.eq_dec (Qfloor x) (Qfloor y)) as [E | NE]; [|lia].
  unfold Py.round_half_even in *. rewrite E in *.
  set (f := Qfloor y) in *.
  destruct (Qcompare_spec (x - inject_Z f) (1 # 2)) as [Cx | Cx | Cx];
    destruct (Qcompare_spec (y - inject_Z f) (1 # 2)) as [Cy | Cy | Cy];
    try (destruct (Z.even f)); try lia; exfalso; lra.
Qed.

Lemma round_nonneg (x : Q) : 0 <= x -> (0 <= Py.round_half_even x)%Z.
Proof.
  intros H. rewrite <- (round_Z 0). now apply round_mono.
Qed.

(** [ilog2 q] is the binary exponent of a positive [q]. *)
Lemma ilog2_spec (q : Q) :
  0 < q -> 2 ^ Py.ilog2 q <= q /\ q < 2 ^ (Py.ilog2 q + 1).
Proof.
  intros Hq. destruct q as [p d]. unfold Py.ilog2. cbn [Qnum Qden].
  assert (Hp : (0 < p)%Z) by (unfold Qlt in Hq; cbn in Hq; lia).
  set (a := Z.log2 p). set (b := Z.log2 (Z.pos d)).
  destruct (Z.log2_spec p Hp) as [Ha1 Ha2]. fold a in Ha1, Ha2.
  destruct (Z.log2_spec (Z.pos d) ltac:(lia)) as [Hb1 Hb2]. fold b in Hb1, Hb2.
  assert (Ha0 : (0 <= a)%Z) by apply Z.log2_nonneg.
  assert (Hb0 : (0 <= b)%Z) by apply Z.log2_nonneg.
  assert (Hval : (p # d) * inject_Z (Z.pos d) == inject_Z p).
  { unfold Qeq, Qmult, inject_Z. cbn. lia. }
  assert (Hd : 0 < inject_Z (Z.pos d)) by (unfold Qlt; cbn; lia).
  assert (Qa1 : 2 ^ a <= inject_Z p).
  { rewrite <- pow2_Z by lia. now rewrite <- Zle_Qle. }
  assert (Qa2 : inject_Z p < 2 ^ (a + 1)).
  { rewrite <- pow2_Z by lia. rewrite <- Zlt_Qlt. now rewrite <- Z.add_1_r in Ha2. }
  assert (Qb1 : 2 ^ b <= inject_Z (Z.pos d)).
  { rewrite <- pow2_Z by lia. now rewrite <- Zle_Qle. }
  assert (Qb2 : inject_Z (Z.pos d) < 2 ^ (b + 1)).
  { rewrite <- pow2_Z by lia. rewrite <- Zlt_Qlt. now rewrite <- Z.add_1_r in Hb2. }
  assert (Hupper : (p # d) < 2 ^ (a - b + 1)).
  { apply Qmult_lt_r with (z := 2 ^ b); [apply pow2_pos|].
    rewrite <- pow2_plus. replace (a - b + 1 + b)%Z with (a + 1)%Z by lia.
    apply Qle_lt_trans with (y := inject_Z p); [|exact Qa2].
    rewrite <- Hval. apply Qmult_le_l; [exact Hq | exact Qb1]. }
  assert (Hlower : 2 ^ (a - b - 1) <= (p # d)).
  { apply Qmult_le_r with (z := 2 ^ (b + 1)); [apply pow2_pos|].
    rewrite <- pow2_plus. replace (a - b - 1 + (b + 1))%Z with a by lia.
    apply Qle_trans with (y := inject_Z p); [exact Qa1|].
    rewrite <- Hval. apply Qmult_le_l; [exact Hq | apply Qlt_le_weak, Qb2]. }
  destruct (Qle_bool (2 ^ (a - b)) (p # d)) eqn:E.
  - apply Qle_bool_iff in E. split; [exact E | exact Hupper].
  - split; [exact Hlower|].
    replace (a - b - 1 + 1)%Z with (a - b)%Z by lia.
    apply Qnot_le_lt. intros H. apply Qle_bool_iff in H. congruence.
Qed.

Lemma ilog2_mono (x y : Q) : 0 < x -> x <= y -> (Py.ilog2 x <= Py.ilog2 y)%Z.
Proof.
  intros Hx Hxy.
  destruct (ilog2_spec x Hx) as [Hx1 _].
  destruct (ilog2_spec y (Qlt_le_trans _ _ _ Hx Hxy)) as [_ Hy2].
  destruct (Z_le_gt_dec (Py.ilog2 x) (Py.ilog2 y)) as [H | H]; [exact H | exfalso].
  assert (Hpow : 2 ^ (Py.ilog2 y + 1) <= 2 ^ Py.ilog2 x) by (apply pow2_le; lia).
  lra.
Qed.

Lemma float_pos_nonneg (q : Q) : 0 <= q -> 0 <= Py.float_pos q.
Proof.
  intros Hq. unfold Py.float_pos. rewrite Qred_correct.
  apply Qmult_le_0_compat; [|apply Qlt_le_weak, pow2_pos].
  change 0 with (inject_Z 0). rewrite <- Zle_Qle. apply round_nonneg.
  apply Qmult_le_0_compat; [exact Hq | apply Qlt_le_weak, pow2_pos].
Qed.

Lemma float_pos_mono (x y : Q) : 0 < x -> x <= y -> Py.float_pos x <= Py.float_pos y.
Proof.
  intros Hx Hxy. assert (Hy : 0 < y) by (eapply Qlt_le_trans; eassumption).
  pose proof (ilog2_mono x y Hx Hxy) as He.
  destruct (ilog2_spec x Hx) as [_ Hx2]. destruct (ilog2_spec y Hy) as [Hy1 _].
  unfold Py.float_pos. rewrite !Qred_correct.
  set (ex := Py.ilog2 x) in *. set (ey := Py.ilog2 y) in *.
  set (kx := Z.max (ex - 52) (-1074)). set (ky := Z.max (ey - 52) (-1074)).
  destruct (Z.eq_dec kx ky) as [E | NE].
  - rewrite E. apply Qmult_le_compat_r; [|apply Qlt_le_weak, pow2_pos].
    rewrite <- Zle_Qle. apply round_mono.
    apply Qmult_le_compat_r; [exact Hxy | apply Qlt_le_weak, pow2_pos].
  - assert (Hk : (kx < ky)%Z) by lia.
    assert (Hky : ky = (ey - 52)%Z) by lia.
    assert (Hlt : (ex < ey)%Z) by lia.
    apply Qle_trans with (y := 2 ^ ey).
    + (* the float of x does not pass the next power of two *)
      assert (Hn : (Py.round_half_even (x * 2 ^ (- kx)) <= 2 ^ (ey - kx))%Z).
      { rewrite <- (round_Z (2 ^ (ey - kx))). apply round_mono.
        rewrite pow2_Z by lia.
        rewrite pow2_sub.
        apply Qmult_le_compat_r; [|apply Qlt_le_weak, pow2_pos].
        apply Qle_trans with (y := 2 ^ (ex + 1)); [now apply Qlt_le_weak|].
        apply pow2_le. lia. }
      rewrite Zle_Qle in Hn. rewrite pow2_Z in Hn by lia.
      assert (Hsplit : 2 ^ ey == 2 ^ (ey - kx) * 2 ^ kx).
      { rewrite <- pow2_plus. now replace (ey - kx + kx)%Z with ey by lia. }
      rewrite Hsplit.
      apply Qmult_le_compat_r; [exact Hn | apply Qlt_le_weak, pow2_pos].
    + assert (Hn : (2 ^ 52 <= Py.round_half_even (y * 2 ^ (- ky)))%Z).
      { rewrite <- (round_Z (2 ^ 52)) at 1. apply round_mono.
        rewrite pow2_Z by lia.
        replace 52%Z with (ey - ky)%Z by lia. rewrite pow2_sub.
        apply Qmult_le_compat_r; [exact Hy1 | apply Qlt_le_weak, pow2_pos]. }
      rewrite Zle_Qle in Hn. rewrite pow2_Z in Hn by lia.
      assert (Hsplit : 2 ^ ey == 2 ^ 52 * 2 ^ ky).
      { rewrite <- pow2_plus. now replace (52 + ky)%Z with ey by lia. }
      rewrite Hsplit.
      apply Qmult_le_compat_r; [exact Hn | apply Qlt_le_weak, pow2_pos].
Qed.

Lemma float_nonneg (q : Q) : 0 <= q -> 0 <= Py.float q.
Proof.
  intros H. unfold Py.float. destruct (Qcompare_spec q 0) as [_ | C | C].
  - apply Qle_refl.
  - exfalso. lra.
  - apply float_pos_nonneg, H.
Qed.

Lemma float_nonpos (q : Q) : q <= 0 -> Py.float q <= 0.
Proof.
  intros H. unfold Py.float. destruct (Qcompare_spec q 0) as [_ | C | C].
  - apply Qle_refl.
  - assert (H0 : 0 <= Py.float_pos (- q)) by (apply float_pos_nonneg; lra). lra.
  - exfalso. lra.
Qed.

(** Rounding is monotone. *)
Lemma float_mono (x y : Q) : x <= y -> Py.float x <= Py.float y.
Proof.
  intros Hxy.
  destruct (Qlt_le_dec 0 x) as [Hx | Hx].
  - assert (Hy : 0 < y) by lra. unfold Py.float.
    destruct (Qcompare_spec x 0) as [C | C | _]; [exfalso; lra | exfalso; lra|].
    destruct (Qcompare_spec y 0) as [C | C | _]; [exfalso; lra | exfalso; lra|].
    now apply float_pos_mono.
  - destruct (Qlt_le_dec y 0) as [Hy | Hy].
    + assert (Hx' : x < 0) by lra. unfold Py.float.
      destruct (Qcompare_spec x 0) as [C | _ | C]; [exfalso; lra | | exfalso; lra].
      destruct (Qcompare_spec y 0) as [C | _ | C]; [exfalso; lra | | exfalso; lra].
      assert (H : Py.float_pos (- y) <= Py.float_pos (- x)) by (apply float_pos_mono; lra).
      lra.
    + apply Qle_trans with (y := 0); [now apply float_nonpos | now apply float_nonneg].
Qed.

(** Rounding to an integer moves a number by at most one half. *)
Lemma round_error (x : Q) :
  x - (1 # 2) <= inject_Z (Py.round_half_even x) /\
  inject_Z (Py.round_half_even x) <= x + (1 # 2).
Proof.
  pose proof (Qfloor_le x) as Hlo. pose proof (Qlt_floor x) as Hhi.
  rewrite inject_Z_plus in Hhi. change (inject_Z 1) with 1 in Hhi.
  unfold Py.round_half_even.
  destruct (Qcompare_spec (x - inject_Z (Qfloor x)) (1 # 2)) as [C | C | C];
    [destruct (Z.even (Qfloor x))| |];
    rewrite ?inject_Z_plus; change (inject_Z 1) with 1; split; lra.
Qed.

(** The rounding error of a positive number: half a unit in the last
    place, which is at most [2^-53] of the number or [2^-1075]. *)
Lemma float_pos_error (x : Q) :
  0 < x ->
  x - (x * (1 # 9007199254740992) + 2 ^ (-1075)) <= Py.float_pos x /\
  Py.float_pos x <= x + (x * (1 # 9007199254740992) + 2 ^ (-1075)).
Proof.
  intros Hx. destruct (ilog2_spec x Hx) as [He _].
  unfold Py.float_pos. rewrite Qred_correct.
  set (k := Z.max (Py.ilog2 x - 52) (-1074)).
  destruct (round_error (x * 2 ^ (- k))) as [Hlo Hhi].
  set (n := inject_Z (Py.round_half_even (x * 2 ^ (- k)))) in *.
  pose proof (pow2_pos k) as Hk. pose proof (pow2_cancel k) as Hc.
  assert (Hx' : x * 2 ^ (- k) * 2 ^ k == x).
  { rewrite <- Qmult_assoc, Hc. ring. }
  assert (Hlo' : (x * 2 ^ (- k) - (1 # 2)) * 2 ^ k <= n * 2 ^ k).
  { apply Qmult_le_compat_r; [exact Hlo | now apply Qlt_le_weak]. }
  assert (Hhi' : n * 2 ^ k <= (x * 2 ^ (- k) + (1 # 2)) * 2 ^ k).
  { apply Qmult_le_compat_r; [exact Hhi | now apply Qlt_le_weak]. }
  assert (Hulp : (1 # 2) * 2 ^ k <= x * (1 # 9007199254740992) + 2 ^ (-1075)).
  { pose proof (pow2_pos (-1075)) as Heta.
    destruct (Z.max_spec (Py.ilog2 x - 52) (-1074)) as [[_ E] | [_ E]]; fold k in E; rewrite E.
    - assert (H : (1 # 2) * 2 ^ (-1074) == 2 ^ (-1075)) by reflexivity.
      rewrite H. lra.
    - rewrite pow2_sub.
      assert (H : 2 ^ (- (52)) == 1 # 4503599627370496) by reflexivity.
      rewrite H. lra. }
  split.
  - apply Qle_trans with (y := (x * 2 ^ (- k) - (1 # 2)) * 2 ^ k); [|exact Hlo'].
    setoid_replace ((x * 2 ^ (- k) - (1 # 2)) * 2 ^ k)
      with (x * 2 ^ (- k) * 2 ^ k - (1 # 2) * 2 ^ k) by ring.
    rewrite Hx'. lra.
  - apply Qle_trans with (y := (x * 2 ^ (- k) + (1 # 2)) * 2 ^ k); [exact Hhi'|].
    setoid_replace ((x * 2 ^ (- k) + (1 # 2)) * 2 ^ k)
      with (x * 2 ^ (- k) * 2 ^ k + (1 # 2) * 2 ^ k) by ring.
    rewrite Hx'. lra.
Qed.

(** The rounding error of any number. *)
Lemma float_error (x : Q) :
  Qabs (Py.float x - x) <= Qabs x * (1 # 9007199254740992) + 2 ^ (-1075).
Proof.
  pose proof (pow2_pos (-1075)) as Heta.
  unfold Py.float. destruct (Qcompare_spec x 0) as [C | C | C].
  - rewrite C. change (Qabs (0 - 0)) with 0. change (Qabs 0) with 0. lra.
  - assert (Hx : 0 < - x) by lra.
    destruct (float_pos_error (- x) Hx) as [Hlo Hhi].
    rewrite (Qabs_neg x) by lra.
    apply Qabs_Qle_condition. split; lra.
  - destruct (float_pos_error x C) as [Hlo Hhi].
    rewrite (Qabs_pos x) by lra.
    apply Qabs_Qle_condition. split; lra.
Qed.

Lemma float_error_bound (x bound : Q) :
  Qabs x <= bound ->
  x - (bound * (1 # 9007199254740992) + 2 ^ (-1075)) <= Py.float x /\
  Py.float x <= x + (bound * (1 # 9007199254740992) + 2 ^ (-1075)).
Proof.
  intros Hb. pose proof (float_error x) as He.
  apply Qabs_Qle_condition in He. destruct He as [Hlo Hhi].
  assert (Hm : Qabs x * (1 # 9007199254740992) <= bound * (1 # 9007199254740992)).
  { apply Qmult_le_compat_r; [exact Hb | discriminate]. }
  split; lra.
Qed.

(** Up to [2^40] seconds the subtraction of 0.1 is not absorbed by
    rounding: the horizon of a buffer started at [offset] is below every
    word that the shift by [offset] places at or after [offset]. *)
Lemma horizon_below_shift (offset b : Q) :
  Qabs offset <= 2 ^ 40 -> 0 <= b ->
  Py.fsub offset (1 # 10) < Py.fadd b offset.
Proof.
  intros Hoff Hb. change (2 ^ 40) with (1099511627776 # 1) in Hoff.
  apply Qabs_Qle_condition in Hoff. destruct Hoff as [Hoff1 Hoff2].
  pose proof (pow2_pos (-1075)) as Heta.
  assert (Heta' : 2 ^ (-1075) <= 1 # 9007199254740992).
  { assert (H : 2 ^ (-53) == 1 # 9007199254740992) by reflexivity.
    rewrite <- H. apply pow2_le. lia. }
  unfold Py.fsub, Py.fadd.
  assert (Hc1 : 9 # 100 <= Py.float (1 # 10)) by (vm_compute; intro; discriminate).
  assert (Hc2 : Py.float (1 # 10) <= 11 # 100) by (vm_compute; intro; discriminate).
  pose proof (float_nonneg b Hb) as Hz.
  set (c := Py.float (1 # 10)) in *. set (z := Py.float b) in *.
  destruct (float_error_bound offset (1099511627776 # 1)) as [Hy1 Hy2].
  { apply Qabs_Qle_condition. split; lra. }
  set (y := Py.float offset) in *.
  destruct (float_error_bound (y - c) (2199023255552 # 1)) as [_ Hh].
  { apply Qabs_Qle_condition. split; lra. }
  destruct (Qlt_le_dec (z + y) 0) as [Hneg | Hpos].
  - destruct (float_error_bound (z + y) (- (z + y))) as [Ha _].
    { rewrite Qabs_neg by lra. apply Qle_refl. }
    lra.
  - destruct (float_error_bound (z + y) (z + y)) as [Ha _].
    { rewrite Qabs_pos by lra. apply Qle_refl. }
    lra.
Qed.

Lemma fadd_mono_l (x y z : Q) : x <= y -> Py.fadd x z <= Py.fadd y z.
Proof.
  intros H. unfold Py.fadd. apply float_mono.
  apply Qplus_le_compat; [now apply float_mono | apply Qle_refl].
Qed.

Lemma fsub_nonneg (x y : Q) : y <= x -> 0 <= Py.fsub x y.
Proof.
  intros H. unfold Py.fsub. apply float_nonneg.
  pose proof (float_mono _ _ H). lra.
Qed.

Lemma fsub_nonpos (x y : Q) : x <= y -> Py.fsub x y <= 0.
Proof.
  intros H. unfold Py.fsub. apply float_nonpos.
  pose proof (float_mono _ _ H). lra.
Qed.

Lemma fmul_nonpos (x y : Q) : x <= 0 -> 0 <= y -> Py.fmul x y <= 0.
Proof.
  intros Hx Hy. unfold Py.fmul. apply float_nonpos.
  pose proof (float_nonpos x Hx) as Hfx. pose proof (float_nonneg y Hy) as Hfy.
  setoid_replace (Py.float x * Py.float y) with (- ((- Py.float x) * Py.float y)) by ring.
  assert (H : 0 <= (- Py.float x) * Py.float y) by (apply Qmult_le_0_compat; lra).
  lra.
Qed.



Lemma fmul_nonneg (x y : Q) : 0 <= x -> 0 <= y -> 0 <= Py.fmul x y.
Proof.
  intros Hx Hy. unfold Py.fmul. apply float_nonneg.
  apply Qmult_le_0_compat; now apply float_nonneg.
Qed.

(** Values of binary64 arithmetic that the statements below meet. *)
Lemma binary64_values :
  Py.float (1 # 10) = 3602879701896397 # 36028797018963968 /\
  Py.fsub (3 # 10) (1 # 10) = 7205759403792793 # 36028797018963968 /\
  Py.fsub (3 # 10) (1 # 10) < Py.float (1 # 5) /\
  Py.fsub 1 (1 # 10) = Py.float (9 # 10) /\
  Py.fadd (1 # 10) (1 # 5) = 1351079888211149 # 4503599627370496 /\
  Py.float (3 # 10) < Py.fadd (1 # 10) (1 # 5) /\
  Py.fmul (Py.fsub (3 # 10) (1 # 5)) 16000 = 3518437208883199 # 2199023255552 /\
  Py.int (Py.fmul (Py.fsub (3 # 10) (1 # 5)) 16000) = 1599%Z /\
  Py.fmul (Py.fsub (15999 # 16000) 1) 16000 = - (70368744177625 # 70368744177664) /\
  Py.int (Py.fmul (Py.fsub (15999 # 16000) 1) 16000) = 0%Z /\
  Py.fsub (9007199254740992 # 1) (1 # 10) = 9007199254740992 # 1.
Proof.
  repeat split; vm_compute; reflexivity.
Qed.

End FloatFacts.
(** ** Comparisons *)

Lemma ltb_lt (x y : Q) : Py.ltb x y = true <-> x < y.
Proof.
  unfold Py.ltb. rewrite negb_true_iff, <- not_true_iff_false, Qle_bool_iff.
  split; [apply Qnot_le_lt | apply Qlt_not_le].
Qed.

Lemma ltb_ge (x y : Q) : Py.ltb x y = false <-> y <= x.
Proof.
  unfold Py.ltb. rewrite negb_false_iff. apply Qle_bool_iff.
Qed.

Lemma leb_le (x y : Q) : Py.leb x y = true <-> x <= y.
Proof. apply Qle_bool_iff. Qed.

Lemma leb_gt (x y : Q) : Py.leb x y = false <-> y < x.
Proof.
  unfold Py.leb. rewrite <- not_true_iff_false, Qle_bool_iff.
  split; [apply Qnot_le_lt | apply Qlt_not_le].
Qed.

(** Closed comparisons between numerals. *)
Ltac qcompute :=
  vm_compute; first [reflexivity | discriminate | (intro; discriminate)].

(** ** HypothesisBuffer.flush *)

Module FlushFacts.
Import HypothesisBuffer.

Lemma advance_app commit w lt lw :
  advance (commit ++ [w]) lt lw = (w_end w, Some (w_text w)).
Proof. unfold advance. rewrite fold_left_app. reflexivity. Qed.

(** The loop, started with [commit] already collected and the pointer
    equal to [advance commit lt0 lw0], stops after [n] more words. *)
Lemma flush_loop_spec nw :
  forall buf commit lt lw,
  exists n : nat,
    (n <= List.length nw)%nat /\ (n <= List.length buf)%nat /\
    map w_text (firstn n nw) = map w_text (firstn n buf) /\
    (forall x y, nth_error nw n = Some x -> nth_error buf n = Some y ->
                 w_text x <> w_text y) /\
    fl_commit (flush_loop nw buf commit lt lw) = commit ++ firstn n nw /\
    fl_new (flush_loop nw buf commit lt lw) = skipn n nw /\
    (fl_time (flush_loop nw buf commit lt lw),
     fl_word (flush_loop nw buf commit lt lw))
    = fold_left (fun _ w => (w_end w, Some (w_text w))) (firstn n nw) (lt, lw).
Proof.
  induction nw as [|[[na nb] nt] nw IH]; intros buf commit lt lw.
  - exists 0%nat. cbn. rewrite app_nil_r.
    repeat split; auto with arith. intros x y H; discriminate H.
  - destruct buf as [|b0 buf].
    + exists 0%nat. cbn. rewrite app_nil_r.
      repeat split; auto with arith. intros x y _ H; discriminate H.
    + cbn [flush_loop]. destruct (String.eqb nt (w_text b0)) eqn:E.
      * apply String.eqb_eq in E.
        destruct (IH buf (commit ++ [(na, nb, nt)]) nb (Some nt))
          as (n & Hn & Hb & Ht & Hneq & Hc & Hnew & Hptr).
        exists (S n). cbn [List.length firstn skipn map nth_error fold_left].
        repeat split; try lia.
        -- f_equal; [exact E | exact Ht].
        -- exact Hneq.
        -- rewrite Hc, <- app_assoc. reflexivity.
        -- exact Hnew.
        -- exact Hptr.
      * apply String.eqb_neq in E.
        exists 0%nat. cbn. rewrite app_nil_r.
        repeat split; auto with arith.
        intros x y Hx Hy. injection Hx as <-. injection Hy as <-. exact E.
Qed.

(** [flush] in terms of the number [n] of committed words. *)
Lemma flush_spec (h : t) :
  exists n : nat,
    (n <= List.length (new h))%nat /\ (n <= List.length (buffer h))%nat /\
    map w_text (firstn n (new h)) = map w_text (firstn n (buffer h)) /\
    (forall x y, nth_error (new h) n = Some x -> nth_error (buffer h) n = Some y ->
                 w_text x <> w_text y) /\
    fst (flush h) = firstn n (new h) /\
    buffer (snd (flush h)) = skipn n (new h) /\
    new (snd (flush h)) = [] /\
    commited_in_buffer (snd (flush h)) = commited_in_buffer h ++ fst (flush h) /\
    (last_commited_time (snd (flush h)), last_commited_word (snd (flush h)))
    = advance (fst (flush h)) (last_commited_time h) (last_commited_word h).
Proof.
  destruct (flush_loop_spec (new h) (buffer h) []
              (last_commited_time h) (last_commited_word h))
    as (n & Hn & Hb & Ht & Hneq & Hc & Hnew & Hptr).
  exists n. unfold flush. cbn [fst snd].
  cbn [buffer new commited_in_buffer last_commited_time last_commited_word].
  rewrite Hc in *. cbn [app].
  repeat split; auto.
Qed.

(** The commit is a prefix of [new]. *)
Lemma flush_commit_incl (h : t) (w : TimedWord) :
  In w (fst (flush h)) -> In w (new h).
Proof.
  destruct (flush_spec h) as (n & _ & _ & _ & _ & Hc & _).
  rewrite Hc. intros Hin.
  rewrite <- (firstn_skipn n (new h)). apply in_or_app. now left.
Qed.

Lemma flush_time_unchanged (h : t) :
  fst (flush h) = [] -> last_commited_time (snd (flush h)) = last_commited_time h.
Proof.
  destruct (flush_spec h) as (n & _ & _ & _ & _ & _ & _ & _ & _ & Hp).
  intros E. rewrite E in Hp. cbn in Hp. now injection Hp.
Qed.

Lemma flush_time_last (h : t) (pre : list TimedWord) (w : TimedWord) :
  fst (flush h) = pre ++ [w] -> last_commited_time (snd (flush h)) = w_end w.
Proof.
  destruct (flush_spec h) as (n & _ & _ & _ & _ & _ & _ & _ & _ & Hp).
  intros E. rewrite E, advance_app in Hp. now injection Hp.
Qed.

End FlushFacts.

(** C1. [flush()] commits exactly the longest common prefix, by word text,
    of [new] and [buffer]: for some [n], the first [n] texts of the two
    lists agree and either a list ends at [n] or the texts at position [n]
    differ; the commit is the first [n] triples of [new], in order; the
    commit pointer is advanced through every committed triple; [buffer]
    becomes the rest of [new], [new] is cleared, the commit is appended to
    [commited_in_buffer] and returned.  In scenario S2 (hypothesis
    "hello word", then "hello world") only "hello" is committed. *)
Theorem flush_commits_longest_common_prefix :
  (forall h : HypothesisBuffer.t,
     exists n : nat,
       (n <= List.length (HypothesisBuffer.new h))%nat /\
       (n <= List.length (HypothesisBuffer.buffer h))%nat /\
       map w_text (firstn n (HypothesisBuffer.new h))
       = map w_text (firstn n (HypothesisBuffer.buffer h)) /\
       (forall x y,
           nth_error (HypothesisBuffer.new h) n = Some x ->
           nth_error (HypothesisBuffer.buffer h) n = Some y ->
           w_text x <> w_text y) /\
       fst (HypothesisBuffer.flush h) = firstn n (HypothesisBuffer.new h) /\
       HypothesisBuffer.buffer (snd (HypothesisBuffer.flush h))
       = skipn n (HypothesisBuffer.new h) /\
       HypothesisBuffer.new (snd (HypothesisBuffer.flush h)) = [] /\
       HypothesisBuffer.commited_in_buffer (snd (HypothesisBuffer.flush h))
       = HypothesisBuffer.commited_in_buffer h ++ fst (HypothesisBuffer.flush h) /\
       (HypothesisBuffer.last_commited_time (snd (HypothesisBuffer.flush h)),
        HypothesisBuffer.last_commited_word (snd (HypothesisBuffer.flush h)))
       = advance (fst (HypothesisBuffer.flush h))
                 (HypothesisBuffer.last_commited_time h)
                 (HypothesisBuffer.last_commited_word h))
  /\ fst (HypothesisBuffer.flush
            {| HypothesisBuffer.commited_in_buffer := [];
               HypothesisBuffer.buffer := s2_pass1;
               HypothesisBuffer.new := s2_pass2;
               HypothesisBuffer.last_commited_time := 0;
               HypothesisBuffer.last_commited_word := None |})
     = [(0, 1 # 2, "hello")]
  /\ (let pass1 := HypothesisBuffer.flush
                     (HypothesisBuffer.insert HypothesisBuffer.init s2_pass1 0) in
      let pass2 := HypothesisBuffer.flush
                     (HypothesisBuffer.insert (snd pass1) s2_pass2 0) in
      fst pass1 = [] /\ fst pass2 = [(0, 1 # 2, "hello")]).
Proof.
  split; [exact FlushFacts.flush_spec | split; [reflexivity | split; reflexivity]].
Qed.

(** The theorem at the state of scenario S2: one word is committed, and
    the words where the two hypotheses part, "world" and "word", differ. *)
Lemma flush_commits_longest_common_prefix_witness :
  let h := {| HypothesisBuffer.commited_in_buffer := [];
              HypothesisBuffer.buffer := s2_pass1;
              HypothesisBuffer.new := s2_pass2;
              HypothesisBuffer.last_commited_time := 0;
              HypothesisBuffer.last_commited_word := None |} in
  exists n : nat,
    fst (HypothesisBuffer.flush h) = firstn n s2_pass2 /\
    fst (HypothesisBuffer.flush h) = [(0, 1 # 2, "hello")] /\
    (nth_error s2_pass2 n = Some (1 # 2, 1, "world") ->
     nth_error s2_pass1 n = Some (1 # 2, 1, "word") ->
     "world" <> "word") /\
    HypothesisBuffer.buffer (snd (HypothesisBuffer.flush h)) = skipn n s2_pass2.
Proof.
  intros h.
  destruct (proj1 flush_commits_longest_common_prefix h)
    as (n & _ & _ & _ & Hneq & Hc & Hbuf & _).
  exists n. split; [exact Hc|]. split; [reflexivity|].
  split; [exact (Hneq (1 # 2, 1, "world") (1 # 2, 1, "word")) | exact Hbuf].
Defined.

(** ** HypothesisBuffer.insert *)

Module InsertFacts.
Import HypothesisBuffer.

Lemma in_skipn {A} (n : nat) (l : list A) (x : A) : In x (skipn n l) -> In x l.
Proof.
  intros H. rewrite <- (firstn_skipn n l). apply in_or_app. now right.
Qed.

Lemma in_firstn {A} (n : nat) (l : list A) (x : A) : In x (firstn n l) -> In x l.
Proof.
  intros H. rewrite <- (firstn_skipn n l). apply in_or_app. now left.
Qed.

(** The n-gram check only removes a prefix of at most five words. *)
Lemma dedup_suffix (h : t) (nw : list TimedWord) :
  exists n : nat, (n <= 5)%nat /\ dedup h nw = skipn n nw.
Proof.
  unfold dedup.
  destruct nw as [|w0 nw']; [exists 0%nat; split; [lia | reflexivity]|].
  destruct (Py.ltb _ _); [|exists 0%nat; split; [lia | reflexivity]].
  destruct (commited_in_buffer h) as [|c0 cib];
    [exists 0%nat; split; [lia | reflexivity]|].
  destruct (dedup_count (c0 :: cib) (w0 :: nw')) as [i|] eqn:E;
    [|exists 0%nat; split; [lia | reflexivity]].
  exists i. split; [|reflexivity].
  unfold dedup_count in E. apply find_some in E. destruct E as [Hin _].
  apply in_seq in Hin. lia.
Qed.

Lemma survivors_in (h : t) (ws : list TimedWord) (offset : Q) (w : TimedWord) :
  In w (survivors h ws offset) <->
  In w (map (shift offset) ws) /\ horizon h < w_beg w.
Proof.
  unfold survivors, horizon. rewrite filter_In, ltb_lt. reflexivity.
Qed.

Lemma insert_new_incl (h : t) (ws : list TimedWord) (offset : Q) (w : TimedWord) :
  In w (new (insert h ws offset)) -> In w (survivors h ws offset).
Proof.
  cbn [insert new].
  destruct (dedup_suffix h (survivors h ws offset)) as (n & _ & E).
  rewrite E. apply in_skipn.
Qed.

End InsertFacts.

(** C7 (amended). [insert(new_words, offset)] shifts every timestamp by
    [offset], a binary64 addition; the survivors are, in order, exactly the
    shifted candidates whose begin is strictly after the horizon, the
    binary64 value of [last_commited_time - 0.1]: a candidate that begins
    at or before the horizon is discarded and every other candidate is
    kept; [new] is the survivors less the at most five leading words
    removed by the boundary de-duplication, and no other attribute
    changes. *)
Theorem insert_keeps_words_beyond_horizon :
  forall (h : HypothesisBuffer.t) (ws : list TimedWord) (offset : Q),
    let shifted := map (shift offset) ws in
    let kept := HypothesisBuffer.survivors h ws offset in
    Forall2 (fun w w' => w_beg w' = Py.fadd (w_beg w) offset /\
                         w_end w' = Py.fadd (w_end w) offset /\
                         w_text w' = w_text w) ws shifted /\
    kept = filter (fun w => if Qlt_le_dec (horizon h) (w_beg w) then true else false)
                  shifted /\
    (forall w, In w shifted -> horizon h < w_beg w -> In w kept) /\
    (forall w, In w shifted -> w_beg w <= horizon h -> ~ In w kept) /\
    (exists n : nat,
        (n <= 5)%nat /\
        HypothesisBuffer.new (HypothesisBuffer.insert h ws offset) = skipn n kept) /\
    HypothesisBuffer.commited_in_buffer (HypothesisBuffer.insert h ws offset)
    = HypothesisBuffer.commited_in_buffer h /\
    HypothesisBuffer.buffer (HypothesisBuffer.insert h ws offset)
    = HypothesisBuffer.buffer h /\
    HypothesisBuffer.last_commited_time (HypothesisBuffer.insert h ws offset)
    = HypothesisBuffer.last_commited_time h /\
    HypothesisBuffer.last_commited_word (HypothesisBuffer.insert h ws offset)
    = HypothesisBuffer.last_commited_word h.
Proof.
  intros h ws offset shifted kept.
  split.
  { subst shifted. induction ws as [|w ws IH]; cbn [map]; constructor; auto. }
  split.
  { subst kept shifted. unfold HypothesisBuffer.survivors.
    apply filter_ext. intros w. fold (horizon h).
    destruct (Qlt_le_dec (horizon h) (w_beg w)) as [Hlt | Hle].
    - now apply ltb_lt.
    - now apply ltb_ge. }
  split.
  { intros w Hin Hlt. apply InsertFacts.survivors_in. now split. }
  split.
  { intros w _ Hle Hin. apply InsertFacts.survivors_in in Hin.
    destruct Hin as [_ Hlt]. exact (Qlt_not_le _ _ Hlt Hle). }
  split.
  { exact (InsertFacts.dedup_suffix h kept). }
  repeat split.
Qed.

(** The theorem on a buffer whose last commit ended at 1.0 s and a
    hypothesis of three words: the one that begins at 0.5 is discarded,
    the ones that begin at 0.95 and 1.5 are kept.  And on a buffer whose
    last commit ended at 0.3 s: the horizon is the float
    0.19999999999999998, and a word that begins at 0.2 is kept. *)
Lemma insert_keeps_words_beyond_horizon_witness :
  let h := fresh_buffer 1 in
  let ws := [(1 # 2, 9 # 10, "old"); (95 # 100, 3 # 2, "new"); (3 # 2, 2, "words")]
            : list TimedWord in
  let h' := fresh_buffer (3 # 10) in
  let ws' := [(1 # 5, 3 # 10, "w")] : list TimedWord in
  In (shift 0 (95 # 100, 3 # 2, "new")) (HypothesisBuffer.survivors h ws 0) /\
  ~ In (shift 0 (1 # 2, 9 # 10, "old")) (HypothesisBuffer.survivors h ws 0) /\
  HypothesisBuffer.new (HypothesisBuffer.insert h ws 0)
  = [shift 0 (95 # 100, 3 # 2, "new"); shift 0 (3 # 2, 2, "words")] /\
  horizon h' = 7205759403792793 # 36028797018963968 /\
  In (shift 0 (1 # 5, 3 # 10, "w")) (HypothesisBuffer.survivors h' ws' 0).
Proof.
  intros h ws h' ws'.
  destruct (insert_keeps_words_beyond_horizon h ws 0)
    as (_ & _ & Hkept & Hgone & _).
  destruct (insert_keeps_words_beyond_horizon h' ws' 0)
    as (_ & _ & Hkept' & _).
  split; [|split; [|split; [|split]]].
  - apply Hkept; [right; left; reflexivity | qcompute].
  - apply Hgone; [left; reflexivity | qcompute].
  - vm_compute. reflexivity.
  - vm_compute. reflexivity.
  - apply Hkept'; [left; reflexivity | qcompute].
Defined.

(** C7, as stated, fails at the horizon itself: with
    [last_commited_time = 1.0] a candidate that begins at the float 0.9
    is not below [last_commited_time - 0.1], neither as the program
    computes the difference (it is the float 0.9) nor exactly, yet the
    comparison [a > 1.0 - 0.1] rejects it. *)
Lemma insert_discards_word_starting_at_horizon :
  let h := fresh_buffer 1 in
  let ws := [(9 # 10, 1, "x")] : list TimedWord in
  let w := shift 0 (9 # 10, 1, "x") in
  In w (map (shift 0) ws) /\
  w_beg w = Py.float (9 # 10) /\
  Py.fsub (HypothesisBuffer.last_commited_time h) (1 # 10) = Py.float (9 # 10) /\
  ~ (w_beg w < Py.fsub (HypothesisBuffer.last_commited_time h) (1 # 10)) /\
  ~ (w_beg w < HypothesisBuffer.last_commited_time h - (1 # 10)) /\
  ~ In w (HypothesisBuffer.survivors h ws 0) /\
  HypothesisBuffer.new (HypothesisBuffer.insert h ws 0) = [].
Proof.
  cbv zeta. split; [left; reflexivity|].
  split; [vm_compute; reflexivity|].
  split; [vm_compute; reflexivity|].
  split; [intros H; vm_compute in H; discriminate H|].
  split; [intros H; vm_compute in H; discriminate H|].
  split; [intros H; vm_compute in H; exact H | vm_compute; reflexivity].
Qed.

(** ** last_commited_time along a run of insert and flush calls *)

Module RunFacts.
Import HypothesisBuffer.

Lemma run_snoc (h : t) (cs : list call) (c : call) :
  run h (cs ++ [c]) = step (run h cs) c.
Proof. unfold run. now rewrite fold_left_app. Qed.

(** Whatever the call, the words left in [new] start after the horizon
    of the resulting buffer. *)
Lemma step_new_beyond_horizon (h : t) (c : call) :
  Forall (fun w => horizon (step h c) < w_beg w) (new (step h c)).
Proof.
  destruct c as [ws offset|]; cbn [step].
  - apply Forall_forall. intros w Hin.
    apply InsertFacts.insert_new_incl, InsertFacts.survivors_in in Hin.
    exact (proj2 Hin).
  - destruct (FlushFacts.flush_spec h) as (n & _ & _ & _ & _ & _ & _ & E & _).
    rewrite E. constructor.
Qed.

Lemma run_new_beyond_horizon (h0 : t) (cs : list call) :
  new h0 = [] ->
  Forall (fun w => horizon (run h0 cs) < w_beg w) (new (run h0 cs)).
Proof.
  intros H0. induction cs as [|c cs _] using rev_ind.
  - cbn. rewrite H0. constructor.
  - rewrite run_snoc. apply step_new_beyond_horizon.
Qed.

Lemma shifted_inv (ws : list TimedWord) (offset : Q) (w : TimedWord) :
  In w (map (shift offset) ws) -> exists w0, In w0 ws /\ w = shift offset w0.
Proof.
  intros H. apply in_map_iff in H. destruct H as (w0 & E & Hin).
  exists w0. split; [exact Hin | now symmetry].
Qed.

Lemma step_new_well_timed (h : t) (c : call) :
  well_timed c -> Forall (fun w => w_beg w <= w_end w) (new (step h c)).
Proof.
  destruct c as [ws offset|]; cbn [step well_timed]; intros Hwt.
  - apply Forall_forall. intros w Hin.
    apply InsertFacts.insert_new_incl, InsertFacts.survivors_in in Hin.
    destruct (shifted_inv _ _ _ (proj1 Hin)) as (w0 & Hin0 & ->).
    rewrite Forall_forall in Hwt. specialize (Hwt w0 Hin0).
    unfold shift, w_beg, w_end in *. cbn [fst snd].
    now apply FloatFacts.fadd_mono_l.
  - destruct (FlushFacts.flush_spec h) as (n & _ & _ & _ & _ & _ & _ & E & _).
    rewrite E. constructor.
Qed.

Lemma run_new_well_timed (h0 : t) (cs : list call) :
  new h0 = [] -> Forall well_timed cs ->
  Forall (fun w => w_beg w <= w_end w) (new (run h0 cs)).
Proof.
  intros H0 Hwt. induction cs as [|c cs _] using rev_ind.
  - cbn. rewrite H0. constructor.
  - rewrite run_snoc. apply step_new_well_timed.
    apply Forall_app in Hwt. destruct Hwt as [_ Hc]. now inversion Hc.
Qed.

Lemma step_new_ends_ahead (h : t) (c : call) :
  ends_ahead h c ->
  Forall (fun w => last_commited_time (step h c) <= w_end w) (new (step h c)).
Proof.
  destruct c as [ws offset|]; cbn [step ends_ahead]; intros Hea.
  - exact Hea.
  - destruct (FlushFacts.flush_spec h) as (n & _ & _ & _ & _ & _ & _ & E & _).
    rewrite E. constructor.
Qed.

Lemma ends_ahead_run_snoc (cs : list call) :
  forall (h0 : t) (c : call),
    ends_ahead_run h0 (cs ++ [c]) -> ends_ahead (run h0 cs) c.
Proof.
  induction cs as [|c0 cs IH]; intros h0 c H; cbn in H.
  - exact (proj1 H).
  - exact (IH _ _ (proj2 H)).
Qed.

Lemma run_new_ends_ahead (h0 : t) (cs : list call) :
  new h0 = [] -> ends_ahead_run h0 cs ->
  Forall (fun w => last_commited_time (run h0 cs) <= w_end w) (new (run h0 cs)).
Proof.
  intros H0 Hea. induction cs as [|c cs _] using rev_ind.
  - cbn. rewrite H0. constructor.
  - rewrite run_snoc. apply step_new_ends_ahead. now apply ends_ahead_run_snoc.
Qed.

End RunFacts.

(** C5 (amended). Along every run of [insert] and [flush] calls on a
    buffer whose [new] starts empty: [insert] leaves [last_commited_time]
    as it is; [flush] leaves it as it is when it commits nothing and
    otherwise sets it to the end of the last word it commits.  Hence, when
    every inserted word has [begin <= end], a call that changes
    [last_commited_time] leaves it above the horizon, the binary64 value
    of [last_commited_time - 0.1] before the call; and when no word that
    an [insert] stores in [new] ends before the [last_commited_time] in
    force at that insertion (the words that [insert] discards are free),
    [last_commited_time] never decreases. *)
Theorem last_commited_time_drift :
  forall (h0 : HypothesisBuffer.t) (cs : list HypothesisBuffer.call)
         (c : HypothesisBuffer.call),
    HypothesisBuffer.new h0 = [] ->
    let h := HypothesisBuffer.run h0 cs in
    let h' := HypothesisBuffer.step h c in
    (forall ws offset,
        c = HypothesisBuffer.Insert ws offset ->
        HypothesisBuffer.last_commited_time h' = HypothesisBuffer.last_commited_time h) /\
    (c = HypothesisBuffer.Flush ->
     fst (HypothesisBuffer.flush h) = [] ->
     HypothesisBuffer.last_commited_time h' = HypothesisBuffer.last_commited_time h) /\
    (c = HypothesisBuffer.Flush ->
     forall pre w,
       fst (HypothesisBuffer.flush h) = pre ++ [w] ->
       HypothesisBuffer.last_commited_time h' = w_end w) /\
    (Forall well_timed cs ->
     HypothesisBuffer.last_commited_time h' = HypothesisBuffer.last_commited_time h \/
     horizon h < HypothesisBuffer.last_commited_time h') /\
    (ends_ahead_run h0 cs ->
     HypothesisBuffer.last_commited_time h <= HypothesisBuffer.last_commited_time h').
Proof.
  intros h0 cs c H0 h h'.
  assert (Hins : forall ws offset,
             c = HypothesisBuffer.Insert ws offset ->
             HypothesisBuffer.last_commited_time h'
             = HypothesisBuffer.last_commited_time h).
  { intros ws offset ->. reflexivity. }
  assert (Hnil : c = HypothesisBuffer.Flush ->
                 fst (HypothesisBuffer.flush h) = [] ->
                 HypothesisBuffer.last_commited_time h'
                 = HypothesisBuffer.last_commited_time h).
  { intros -> E. now apply FlushFacts.flush_time_unchanged. }
  assert (Hlast : c = HypothesisBuffer.Flush ->
                  forall pre w,
                    fst (HypothesisBuffer.flush h) = pre ++ [w] ->
                    HypothesisBuffer.last_commited_time h' = w_end w).
  { intros -> pre w E. now apply FlushFacts.flush_time_last with (pre := pre). }
  repeat split; try assumption.
  - intros Hwt.
    destruct c as [ws offset|].
    + left. exact (Hins ws offset eq_refl).
    + destruct (fst (HypothesisBuffer.flush h)) as [|x l] eqn:E using rev_ind.
      * left. exact (Hnil eq_refl eq_refl).
      * clear IHl. right. rewrite (Hlast eq_refl l x eq_refl).
        assert (Hin : In x (HypothesisBuffer.new h)).
        { apply FlushFacts.flush_commit_incl. rewrite E.
          apply in_or_app. right. now left. }
        pose proof (RunFacts.run_new_beyond_horizon h0 cs H0) as Hh.
        pose proof (RunFacts.run_new_well_timed h0 cs H0 Hwt) as Hw.
        rewrite Forall_forall in Hh, Hw.
        exact (Qlt_le_trans _ _ _ (Hh x Hin) (Hw x Hin)).
  - intros Hea.
    destruct c as [ws offset|].
    + rewrite (Hins ws offset eq_refl). apply Qle_refl.
    + destruct (fst (HypothesisBuffer.flush h)) as [|x l] eqn:E using rev_ind.
      * rewrite (Hnil eq_refl eq_refl). apply Qle_refl.
      * clear IHl. rewrite (Hlast eq_refl l x eq_refl).
        assert (Hin : In x (HypothesisBuffer.new h)).
        { apply FlushFacts.flush_commit_incl. rewrite E.
          apply in_or_app. right. now left. }
        pose proof (RunFacts.run_new_ends_ahead h0 cs H0 Hea) as Hh.
        rewrite Forall_forall in Hh. exact (Hh x Hin).
Qed.

(** The theorem at the run of scenario S1 followed by a repeated pass:
    the third hypothesis repeats "hello" and "world", which end before
    the [last_commited_time] of 1.0 s and are discarded by [insert], and
    the [flush] that commits "today" moves the pointer from 1.0 to 1.4. *)
Lemma last_commited_time_drift_witness :
  let h := HypothesisBuffer.run HypothesisBuffer.init repeated_pass_run in
  let h' := HypothesisBuffer.step h HypothesisBuffer.Flush in
  HypothesisBuffer.new HypothesisBuffer.init = [] /\
  Forall well_timed repeated_pass_run /\
  ends_ahead_run HypothesisBuffer.init repeated_pass_run /\
  fst (HypothesisBuffer.flush h) = [] ++ [shift 0 (1, 14 # 10, "today")] /\
  HypothesisBuffer.last_commited_time h = 1 /\
  HypothesisBuffer.last_commited_time h' = w_end (shift 0 (1, 14 # 10, "today")) /\
  (HypothesisBuffer.last_commited_time h' = HypothesisBuffer.last_commited_time h \/
   horizon h < HypothesisBuffer.last_commited_time h') /\
  HypothesisBuffer.last_commited_time h <= HypothesisBuffer.last_commited_time h'.
Proof.
  intros h h'.
  assert (Hwt : Forall well_timed repeated_pass_run).
  { repeat constructor; qcompute. }
  assert (Hea : ends_ahead_run HypothesisBuffer.init repeated_pass_run).
  { vm_compute. repeat split; repeat constructor; intro; discriminate. }
  assert (Hcommit : fst (HypothesisBuffer.flush h) = [] ++ [shift 0 (1, 14 # 10, "today")]).
  { vm_compute. reflexivity. }
  destruct (last_commited_time_drift HypothesisBuffer.init repeated_pass_run
              HypothesisBuffer.Flush eq_refl)
    as (_ & _ & Hlast & Hdrift & Hmono).
  split; [reflexivity|]. split; [exact Hwt|]. split; [exact Hea|].
  split; [exact Hcommit|]. split; [vm_compute; reflexivity|].
  split; [exact (Hlast eq_refl _ _ Hcommit)|].
  split; [exact (Hdrift Hwt) | exact (Hmono Hea)].
Defined.

(** C5, as stated, fails: after "a" is committed with end 1.0, the word
    "b" = (0.95, 0.98) passes the horizon test (0.95 > 1.0 - 0.1), is
    confirmed by the next hypothesis, and its commit moves
    [last_commited_time] back from 1.0 to 0.98. *)
Lemma last_commited_time_can_decrease :
  let h := HypothesisBuffer.run HypothesisBuffer.init early_end_run in
  let h' := HypothesisBuffer.step h HypothesisBuffer.Flush in
  HypothesisBuffer.last_commited_time h = 1 /\
  HypothesisBuffer.last_commited_time h' = Py.float (98 # 100) /\
  HypothesisBuffer.last_commited_time h' < HypothesisBuffer.last_commited_time h.
Proof.
  cbv zeta. repeat split; qcompute.
Qed.

(** ** OnlineASRProcessor.chunk_at *)

Module ChunkFacts.
Import OnlineASRProcessor.

(** [pop_commited] removes the leading run of words that ended by
    [time]. *)
Lemma pop_while_spec (time : Q) (cib : list TimedWord) :
  exists dropped : list TimedWord,
    cib = dropped ++ HypothesisBuffer.pop_while time cib /\
    Forall (fun w => w_end w <= time) dropped /\
    (forall w rest, HypothesisBuffer.pop_while time cib = w :: rest -> time < w_end w).
Proof.
  induction cib as [|w cib IH].
  - exists []. repeat split; [constructor | intros w rest H; discriminate H].
  - cbn [HypothesisBuffer.pop_while]. destruct (Py.leb (w_end w) time) eqn:E.
    + destruct IH as (dropped & Hsplit & Hall & Hhead).
      exists (w :: dropped). repeat split.
      * cbn [app]. now rewrite <- Hsplit.
      * constructor; [now apply leb_le | exact Hall].
      * exact Hhead.
    + exists []. repeat split; [constructor|].
      intros w' rest H. injection H as <- _. now apply leb_gt.
Qed.

(** [l[i:]] for a non-negative [i]. *)
Lemma slice_from_nonneg {A} (l : list A) (i : Z) :
  (0 <= i)%Z -> Py.slice l (Some i) None = skipn (Z.to_nat i) l.
Proof.
  intros Hi. unfold Py.slice, Py.bound, Py.len.
  destruct (Z.ltb_spec i 0) as [Hneg | _]; [lia|].
  destruct (Z.le_gt_cases i (Z.of_nat (List.length l))) as [Hle | Hgt].
  - rewrite Z.min_l by exact Hle.
    apply firstn_all2. rewrite length_skipn. lia.
  - rewrite Z.min_r by lia. rewrite Nat2Z.id, skipn_all.
    rewrite (skipn_all2 (n := Z.to_nat i)) by lia.
    apply firstn_nil.
Qed.

(** [l[i:]] for a negative [i]: the last [-i] elements. *)
Lemma slice_from_neg {A} (l : list A) (i : Z) :
  (i < 0)%Z -> Py.slice l (Some i) None = skipn (List.length l - Z.to_nat (- i)) l.
Proof.
  intros Hi. unfold Py.slice, Py.bound, Py.len.
  destruct (Z.ltb_spec i 0) as [_ | Hpos]; [|lia].
  replace (Z.to_nat (Z.max (i + Z.of_nat (List.length l)) 0))
    with (List.length l - Z.to_nat (- i))%nat by lia.
  apply firstn_all2. rewrite length_skipn. lia.
Qed.

Lemma int_nonneg (q : Q) : 0 <= q -> (0 <= Py.int q)%Z.
Proof.
  intros H. unfold Py.int. apply Z.quot_pos; [|lia].
  unfold Qle in H. cbn in H. lia.
Qed.

(** The number of samples to drop is not negative when the cut is not
    before the window start. *)
Lemma cut_nonneg (offset time : Q) :
  offset <= time -> 0 <= Py.fmul (Py.fsub time offset) (inject_Z SAMPLING_RATE).
Proof.
  intros H. apply FloatFacts.fmul_nonneg; [now apply FloatFacts.fsub_nonneg | discriminate].
Qed.

Lemma int_nonpos (q : Q) : q <= 0 -> (Py.int q <= 0)%Z.
Proof.
  intros H. unfold Py.int.
  assert (Hn : (Qnum q <= 0)%Z) by (unfold Qle in H; cbn in H; lia).
  rewrite <- (Z.opp_involutive (Qnum q)), Z.quot_opp_l by lia.
  assert (H0 : (0 <= - Qnum q ÷ Z.pos (Qden q))%Z) by (apply Z.quot_pos; lia).
  lia.
Qed.

(** It is not positive when the cut is not after the window start. *)
Lemma cut_nonpos (offset time : Q) :
  time <= offset -> Py.fmul (Py.fsub time offset) (inject_Z SAMPLING_RATE) <= 0.
Proof.
  intros H. apply FloatFacts.fmul_nonpos; [now apply FloatFacts.fsub_nonpos | discriminate].
Qed.

End ChunkFacts.

(** C4 (amended). For every state and every time [t], [chunk_at(t)] drops
    from the front of [commited_in_buffer] the leading words whose end is
    [<= t] (what remains starts with a word ending after [t]), sets
    [buffer_time_offset := t] and changes nothing else but the audio.
    With [n = int((t - buffer_time_offset) * 16000)] as binary64 computes
    it: the audio loses its first [n] samples when [n >= 0], which is the
    case when [t >= buffer_time_offset]; the method has no guard on [t],
    and when [n < 0], which requires [t < buffer_time_offset], the audio
    keeps its last [-n] samples only. *)
Theorem chunk_at_trims :
  forall (s : OnlineASRProcessor.t) (time : Q),
    let s' := OnlineASRProcessor.chunk_at s time in
    let tb := OnlineASRProcessor.transcript_buffer s in
    let tb' := OnlineASRProcessor.transcript_buffer s' in
    let n := Py.int (Py.fmul (Py.fsub time (OnlineASRProcessor.buffer_time_offset s))
                             (inject_Z OnlineASRProcessor.SAMPLING_RATE)) in
    OnlineASRProcessor.buffer_time_offset s' = time /\
    (exists dropped : list TimedWord,
        HypothesisBuffer.commited_in_buffer tb
        = dropped ++ HypothesisBuffer.commited_in_buffer tb' /\
        Forall (fun w => w_end w <= time) dropped /\
        (forall w rest,
            HypothesisBuffer.commited_in_buffer tb' = w :: rest -> time < w_end w)) /\
    HypothesisBuffer.buffer tb' = HypothesisBuffer.buffer tb /\
    HypothesisBuffer.new tb' = HypothesisBuffer.new tb /\
    HypothesisBuffer.last_commited_time tb' = HypothesisBuffer.last_commited_time tb /\
    HypothesisBuffer.last_commited_word tb' = HypothesisBuffer.last_commited_word tb /\
    OnlineASRProcessor.commited s' = OnlineASRProcessor.commited s /\
    OnlineASRProcessor.buffer_trimming_way s' = OnlineASRProcessor.buffer_trimming_way s /\
    OnlineASRProcessor.buffer_trimming_sec s' = OnlineASRProcessor.buffer_trimming_sec s /\
    ((0 <= n)%Z ->
     OnlineASRProcessor.audio_buffer s'
     = skipn (Z.to_nat n) (OnlineASRProcessor.audio_buffer s)) /\
    ((n < 0)%Z ->
     OnlineASRProcessor.audio_buffer s'
     = skipn (List.length (OnlineASRProcessor.audio_buffer s) - Z.to_nat (- n))
             (OnlineASRProcessor.audio_buffer s)) /\
    (OnlineASRProcessor.buffer_time_offset s <= time -> (0 <= n)%Z) /\
    (time <= OnlineASRProcessor.buffer_time_offset s -> (n <= 0)%Z).
Proof.
  intros s time s' tb tb' n. subst s' tb tb'.
  unfold OnlineASRProcessor.chunk_at, HypothesisBuffer.pop_commited.
  cbn [OnlineASRProcessor.buffer_time_offset OnlineASRProcessor.transcript_buffer
       OnlineASRProcessor.commited OnlineASRProcessor.buffer_trimming_way
       OnlineASRProcessor.buffer_trimming_sec OnlineASRProcessor.audio_buffer
       HypothesisBuffer.commited_in_buffer HypothesisBuffer.buffer
       HypothesisBuffer.new HypothesisBuffer.last_commited_time
       HypothesisBuffer.last_commited_word].
  fold n.
  split; [reflexivity|].
  split; [apply ChunkFacts.pop_while_spec|].
  repeat (split; [reflexivity|]).
  split; [intros Hn; now apply ChunkFacts.slice_from_nonneg|].
  split; [intros Hn; now apply ChunkFacts.slice_from_neg|].
  split.
  - intros Hle. apply ChunkFacts.int_nonneg, ChunkFacts.cut_nonneg, Hle.
  - intros Hle. apply ChunkFacts.int_nonpos, ChunkFacts.cut_nonpos, Hle.
Qed.

(** The theorem at four trims.  Half a second after the window start the
    first 8000 samples go (the window holds three) and the offset becomes
    1.5 s.  From 0.2 s to 0.3 s binary64 gives 1599.9999999999995 samples,
    so 1599 of the 1600 samples go and one stays.  At 8191/8192 s, before
    the window start at 1.0 s, the product is -1.953125 and the audio
    keeps its last sample.  At 0.9999375 s, one sample before the window
    start, the product is -0.9999999999994458, [n] is 0 and the audio is
    kept. *)
Lemma chunk_at_trims_witness :
  let s2 := OnlineASRProcessor.mk (repeat 0 1600) (fresh_buffer (1 # 5)) (1 # 5) []
                                  OnlineASRProcessor.Segment 15 in
  let n := fun s t =>
             Py.int (Py.fmul (Py.fsub t (OnlineASRProcessor.buffer_time_offset s))
                             (inject_Z OnlineASRProcessor.SAMPLING_RATE)) in
  (OnlineASRProcessor.buffer_time_offset rewind_state <= 3 # 2 /\
   n rewind_state (3 # 2) = 8000%Z /\
   OnlineASRProcessor.audio_buffer (OnlineASRProcessor.chunk_at rewind_state (3 # 2)) = [] /\
   OnlineASRProcessor.buffer_time_offset (OnlineASRProcessor.chunk_at rewind_state (3 # 2))
   = 3 # 2) /\
  (OnlineASRProcessor.buffer_time_offset s2 <= 3 # 10 /\
   n s2 (3 # 10) = 1599%Z /\
   OnlineASRProcessor.audio_buffer (OnlineASRProcessor.chunk_at s2 (3 # 10)) = [0]) /\
  (8191 # 8192 <= OnlineASRProcessor.buffer_time_offset rewind_state /\
   n rewind_state (8191 # 8192) = (-1)%Z /\
   OnlineASRProcessor.audio_buffer (OnlineASRProcessor.chunk_at rewind_state (8191 # 8192))
   = [3]) /\
  (15999 # 16000 <= OnlineASRProcessor.buffer_time_offset rewind_state /\
   n rewind_state (15999 # 16000) = 0%Z /\
   OnlineASRProcessor.audio_buffer (OnlineASRProcessor.chunk_at rewind_state (15999 # 16000))
   = [1; 2; 3]).
Proof.
  intros s2 n.
  assert (H1 : OnlineASRProcessor.buffer_time_offset rewind_state <= 3 # 2) by qcompute.
  assert (H2 : OnlineASRProcessor.buffer_time_offset s2 <= 3 # 10) by qcompute.
  assert (H3 : 8191 # 8192 <= OnlineASRProcessor.buffer_time_offset rewind_state)
    by qcompute.
  assert (H4 : 15999 # 16000 <= OnlineASRProcessor.buffer_time_offset rewind_state)
    by qcompute.
  assert (N1 : n rewind_state (3 # 2) = 8000%Z) by (vm_compute; reflexivity).
  assert (N2 : n s2 (3 # 10) = 1599%Z) by (vm_compute; reflexivity).
  assert (N3 : n rewind_state (8191 # 8192) = (-1)%Z) by (vm_compute; reflexivity).
  assert (N4 : n rewind_state (15999 # 16000) = 0%Z) by (vm_compute; reflexivity).
  destruct (chunk_at_trims rewind_state (3 # 2))
    as (Hoff & _ & _ & _ & _ & _ & _ & _ & _ & Ha1 & _ & Hp1 & _).
  destruct (chunk_at_trims s2 (3 # 10))
    as (_ & _ & _ & _ & _ & _ & _ & _ & _ & Ha2 & _ & Hp2 & _).
  destruct (chunk_at_trims rewind_state (8191 # 8192))
    as (_ & _ & _ & _ & _ & _ & _ & _ & _ & _ & Ha3 & _ & Hq3).
  destruct (chunk_at_trims rewind_state (15999 # 16000))
    as (_ & _ & _ & _ & _ & _ & _ & _ & _ & Ha4 & _ & _ & Hq4).
  specialize (Hp1 H1). specialize (Hp2 H2). specialize (Hq3 H3). specialize (Hq4 H4).
  fold (n rewind_state (3 # 2)) in Ha1, Hp1.
  fold (n s2 (3 # 10)) in Ha2, Hp2.
  fold (n rewind_state (8191 # 8192)) in Ha3, Hq3.
  fold (n rewind_state (15999 # 16000)) in Ha4, Hq4.
  split; [|split; [|split]].
  - split; [exact H1|]. split; [exact N1|]. split; [|exact Hoff].
    rewrite (Ha1 Hp1), N1. reflexivity.
  - split; [exact H2|]. split; [exact N2|].
    rewrite (Ha2 Hp2), N2. reflexivity.
  - split; [exact H3|]. split; [exact N3|].
    rewrite Ha3 by (rewrite N3; lia). rewrite N3. reflexivity.
  - split; [exact H4|]. split; [exact N4|].
    rewrite Ha4 by (rewrite N4; lia). rewrite N4. reflexivity.
Defined.

(** C4, as stated, fails for [t < buffer_time_offset]: the call is not a
    no-op.  At [t = 8191/8192] s, before the window start at 1.0 s, the
    offset moves back to [t], the slice start
    [int((8191/8192 - 1.0) * 16000) = int(-1.953125) = -1] keeps only the
    last sample, and the state differs from the one before the call. *)
Lemma chunk_at_before_offset_changes_state :
  let t := 8191 # 8192 in
  let s' := OnlineASRProcessor.chunk_at rewind_state t in
  t < OnlineASRProcessor.buffer_time_offset rewind_state /\
  OnlineASRProcessor.buffer_time_offset s' = t /\
  OnlineASRProcessor.audio_buffer rewind_state = [1; 2; 3] /\
  OnlineASRProcessor.audio_buffer s' = [3] /\
  s' <> rewind_state.
Proof.
  cbv zeta. repeat split; try qcompute.
Qed.

(** ** OnlineASRProcessor.chunk_completed_segment *)

Module SegmentFacts.
Import OnlineASRProcessor.

(** The candidate of the list cut down to its first [m] segments. *)
Lemma candidate_firstn (ends : list Q) (offset : Q) (m : nat) :
  (1 <= m <= List.length ends)%nat ->
  segment_candidate (firstn m ends) offset = nth (m - 2) ends 0 + offset.
Proof.
  intros Hm. unfold segment_candidate.
  rewrite length_firstn, Nat.min_l by lia.
  rewrite nth_firstn.
  destruct (Nat.ltb_spec (m - 2) m) as [_ | H]; [reflexivity | lia].
Qed.

(** The loop on the first [m] segments: it stops at some [j <= m - 2],
    having rejected every later candidate. *)
Lemma segment_loop_spec (ends : list Q) (offset t : Q) (fuel : nat) :
  forall m : nat,
    (2 <= m <= List.length ends)%nat -> (m <= fuel + 2)%nat ->
    (forall i, (m - 2 < i <= List.length ends - 2)%nat -> t < nth i ends 0 + offset) ->
    exists j : nat,
      (j <= m - 2)%nat /\
      snd (segment_loop fuel (firstn m ends) (nth (m - 2) ends 0 + offset) offset t)
      = nth j ends 0 + offset /\
      (forall i, (j < i <= List.length ends - 2)%nat -> t < nth i ends 0 + offset) /\
      (j = 0%nat \/ nth j ends 0 + offset <= t).
Proof.
  induction fuel as [|fuel IH]; intros m Hm Hfuel Hrej.
  - exists (m - 2)%nat. cbn [segment_loop snd].
    repeat split; [lia | exact Hrej | left; lia].
  - cbn [segment_loop]. rewrite length_firstn, Nat.min_l by lia.
    destruct (Nat.ltb_spec 2 m) as [Hlong | Hshort]; cbn [andb].
    + destruct (Py.ltb t (nth (m - 2) ends 0 + offset)) eqn:E.
      * assert (Hcut : removelast (firstn m ends) = firstn (m - 1) ends).
        { replace m with (S (m - 1)) at 1 by lia.
          apply removelast_firstn. lia. }
        rewrite Hcut, candidate_firstn by lia.
        replace (m - 1 - 2)%nat with (m - 3)%nat by lia.
        destruct (IH (m - 1)%nat) as (j & Hj & Hres & Hrej' & Hstop);
          [lia | lia | |].
        { intros i Hi. destruct (Nat.eq_dec i (m - 2)) as [-> | Hne].
          - now apply ltb_lt.
          - apply Hrej. lia. }
        replace (m - 1 - 2)%nat with (m - 3)%nat in Hres by lia.
        exists j. repeat split; [lia | exact Hres | exact Hrej' | exact Hstop].
      * exists (m - 2)%nat. cbn [snd].
        repeat split; [lia | exact Hrej | right; now apply ltb_ge].
    + exists (m - 2)%nat. cbn [snd].
      repeat split; [lia | exact Hrej | left; lia].
Qed.

Lemma segment_end_spec (ends : list Q) (offset t : Q) :
  (2 <= List.length ends)%nat ->
  exists j : nat,
    (j <= List.length ends - 2)%nat /\
    segment_end ends offset t = nth j ends 0 + offset /\
    (forall i, (j < i <= List.length ends - 2)%nat -> t < nth i ends 0 + offset) /\
    (j = 0%nat \/ nth j ends 0 + offset <= t).
Proof.
  intros Hlen. unfold segment_end.
  destruct (segment_loop_spec ends offset t (List.length ends) (List.length ends))
    as (j & Hj & Hres & Hrej & Hstop); [lia | lia | intros i Hi; lia |].
  rewrite firstn_all in Hres. fold (segment_candidate ends offset) in Hres.
  exists j. repeat split; assumption.
Qed.

(** Scenario S4 for any audio, offset and last committed end between
    the second and the third segment end. *)
Lemma s4_trim (s : t) (w0 : TimedWord) (rest : list TimedWord) :
  commited s = w0 :: rest ->
  8 + buffer_time_offset s <= w_end (last (commited s) w0) ->
  w_end (last (commited s) w0) < 12 + buffer_time_offset s ->
  chunk_completed_segment s s4_ends = chunk_at s (8 + buffer_time_offset s).
Proof.
  intros Hcm Hlo Hhi. unfold chunk_completed_segment.
  rewrite Hcm. rewrite <- Hcm.
  unfold s4_ends, segment_end.
  cbn [List.length Nat.leb segment_loop Nat.ltb removelast andb].
  unfold segment_candidate. cbn [List.length Nat.sub nth].
  rewrite (proj2 (ltb_lt _ _) Hhi). cbn [List.length Nat.leb andb nth Nat.sub].
  rewrite (proj2 (ltb_ge _ _) Hlo). cbn [snd].
  now rewrite (proj2 (leb_le _ _) Hlo).
Qed.


End SegmentFacts.




(** ** OnlineASRProcessor.prompt *)

Module PromptFacts.
Import OnlineASRProcessor.

(** The backward scan from [k]: every position it passes holds a word
    that ends after the offset, and it stops on a word that does not. *)
Lemma prompt_scan_spec (cm : list TimedWord) (offset : Q) (k : nat) :
  (k <= List.length cm)%nat ->
  (prompt_scan cm offset k <= k)%nat /\
  (forall i w, (prompt_scan cm offset k <= i < k)%nat ->
               nth_error cm i = Some w -> offset < w_end w) /\
  (forall i w, prompt_scan cm offset k = S i ->
               nth_error cm i = Some w -> w_end w <= offset).
Proof.
  induction k as [|k IH]; intros Hk.
  - cbn. repeat split; [lia | intros i w H; lia | intros i w H; discriminate H].
  - cbn [prompt_scan].
    destruct (nth_error cm k) as [wk|] eqn:Ek.
    + destruct (Py.ltb offset (w_end wk)) eqn:E.
      * destruct IH as (Hle & Hpass & Hstop); [lia|].
        repeat split; [lia | | exact Hstop].
        intros i w Hi Hw. destruct (Nat.eq_dec i k) as [-> | Hne].
        -- rewrite Ek in Hw. injection Hw as <-. now apply ltb_lt.
        -- apply (Hpass i w); [lia | exact Hw].
      * repeat split; [lia | intros i w Hi; lia |].
        intros i w Hi Hw. injection Hi as <-.
        rewrite Ek in Hw. injection Hw as <-. now apply ltb_ge.
    + apply nth_error_None in Ek. lia.
Qed.

Lemma weight_nil : prompt_weight [] = 0%nat.
Proof. reflexivity. Qed.

Lemma weight_cons (x : string) (xs : list string) :
  prompt_weight (x :: xs) = (String.length x + 1 + prompt_weight xs)%nat.
Proof. reflexivity. Qed.

Lemma weight_app (xs ys : list string) :
  prompt_weight (xs ++ ys) = (prompt_weight xs + prompt_weight ys)%nat.
Proof. unfold prompt_weight. now rewrite map_app, list_sum_app. Qed.

Lemma weight_rev (xs : list string) : prompt_weight (rev xs) = prompt_weight xs.
Proof.
  induction xs as [|x xs IH]; [reflexivity|].
  cbn [rev]. rewrite weight_app, IH, !weight_cons, weight_nil. lia.
Qed.

(** The collecting loop takes the shortest prefix of [p_rev] that brings
    the running length [l] to 200 or more, or all of it. *)
Lemma prompt_take_spec (p_rev : list string) :
  forall l : nat,
  exists m : nat,
    (m <= List.length p_rev)%nat /\
    prompt_take p_rev l = firstn m p_rev /\
    (m = List.length p_rev \/ (200 <= l + prompt_weight (firstn m p_rev))%nat) /\
    (forall m', (m' < m)%nat -> (l + prompt_weight (firstn m' p_rev) < 200)%nat).
Proof.
  induction p_rev as [|x rest IH]; intros l.
  - exists 0%nat. cbn. repeat split; [lia | now left | intros m' H; lia].
  - cbn [prompt_take]. destruct (Nat.ltb_spec l 200) as [Hlt | Hge].
    + destruct (IH (l + (String.length x + 1))%nat) as (m & Hm & Htake & Hfull & Hmin).
      exists (S m). cbn [List.length firstn].
      repeat split; [lia | now rewrite Htake | |].
      * destruct Hfull as [-> | Hfull]; [now left | right].
        rewrite weight_cons. lia.
      * intros [|m'] Hm'.
        -- cbn [firstn]. rewrite weight_nil. lia.
        -- specialize (Hmin m' ltac:(lia)).
           cbn [firstn]. rewrite weight_cons. lia.
    + exists 0%nat. cbn [List.length firstn].
      repeat split; [lia | right | intros m' H; lia].
      rewrite weight_nil. lia.
Qed.

(** In original order, the words that are joined are the shortest
    suffix of the eligible texts that weighs 200 or more, or all of
    them. *)
Lemma prompt_suffix (texts : list string) :
  exists d : nat,
    (d <= List.length texts)%nat /\
    rev (prompt_take (rev texts) 0) = skipn d texts /\
    (d = 0%nat \/ (200 <= prompt_weight (skipn d texts))%nat) /\
    (forall d', (d < d' <= List.length texts)%nat ->
                (prompt_weight (skipn d' texts) < 200)%nat).
Proof.
  destruct (prompt_take_spec (rev texts) 0) as (m & Hm & Htake & Hfull & Hmin).
  rewrite length_rev in Hm, Hfull.
  assert (Hpre : forall n, (n <= List.length texts)%nat ->
                   firstn n (rev texts) = rev (skipn (List.length texts - n) texts)).
  { intros n Hn. rewrite firstn_rev. reflexivity. }
  exists (List.length texts - m)%nat.
  split; [lia|]. split.
  { rewrite Htake, Hpre by exact Hm. apply rev_involutive. }
  split.
  - destruct Hfull as [-> | Hfull]; [left; lia | right].
    rewrite Hpre, weight_rev in Hfull by exact Hm. exact Hfull.
  - intros d' Hd'.
    specialize (Hmin (List.length texts - d')%nat ltac:(lia)).
    rewrite Hpre, weight_rev in Hmin by lia.
    replace (List.length texts - (List.length texts - d'))%nat with d' in Hmin by lia.
    exact Hmin.
Qed.

End PromptFacts.

(** C8 (amended). The prompt is built from a prefix [commited[:k]] of the
    committed words, found by a backward scan: every committed word, other
    than the last one, whose end is [<= buffer_time_offset] is in that
    prefix; the last word of the prefix ends at or before
    [buffer_time_offset], so that no word ending after
    [buffer_time_offset] is in the prefix when the committed ends never
    decrease.  From the texts of the prefix the shortest suffix whose
    length, counting one separator per word, reaches 200 is taken (all of
    them when the total stays below 200), in original order, and joined
    with the recognizer's separator; the context is the join of the
    remaining words. *)
Theorem prompt_built_from_scrolled_prefix :
  forall (Res : Type) (asr : ASR Res) (s : OnlineASRProcessor.t),
    let cm := OnlineASRProcessor.commited s in
    let offset := OnlineASRProcessor.buffer_time_offset s in
    let k := OnlineASRProcessor.prompt_k cm offset in
    let eligible := map w_text (firstn k cm) in
    (forall i w, nth_error cm i = Some w -> (S i < List.length cm)%nat ->
                 w_end w <= offset -> (i < k)%nat) /\
    (forall i w, k = S i -> nth_error cm i = Some w -> w_end w <= offset) /\
    (ends_sorted cm -> forall w, In w (firstn k cm) -> w_end w <= offset) /\
    (exists d : nat,
        (d <= List.length eligible)%nat /\
        fst (OnlineASRProcessor.prompt asr s) = Py.join (sep asr) (skipn d eligible) /\
        (d = 0%nat \/ (200 <= prompt_weight (skipn d eligible))%nat) /\
        (forall d', (d < d' <= List.length eligible)%nat ->
                    (prompt_weight (skipn d' eligible) < 200)%nat)) /\
    snd (OnlineASRProcessor.prompt asr s) = Py.join (sep asr) (map w_text (skipn k cm)).
Proof.
  intros Res asr s cm offset k eligible.
  assert (Hstart : (Nat.max 0 (List.length cm - 1) <= List.length cm)%nat) by lia.
  destruct (PromptFacts.prompt_scan_spec cm offset _ Hstart) as (Hle & Hpass & Hstop).
  fold (OnlineASRProcessor.prompt_k cm offset) in Hle, Hpass, Hstop. fold k in Hle, Hpass, Hstop.
  split.
  { intros i w Hw Hi Hend.
    destruct (Nat.lt_ge_cases i k) as [Hlt | Hge]; [exact Hlt | exfalso].
    apply (Qlt_not_le _ _ (Hpass i w ltac:(lia) Hw) Hend). }
  split; [exact Hstop|].
  split.
  { intros Hsorted w Hin.
    apply In_nth_error in Hin. destruct Hin as (i & Hi).
    assert (Hik : (i < k)%nat).
    { assert (Hsome : nth_error (firstn k cm) i <> None) by (rewrite Hi; discriminate).
      apply nth_error_Some in Hsome. rewrite length_firstn in Hsome. lia. }
    rewrite nth_error_firstn in Hi.
    destruct (Nat.ltb_spec i k) as [_ | Hge]; [|lia].
    destruct k as [|k']; [lia|].
    destruct (nth_error cm k') as [wk|] eqn:Ek.
    - apply Qle_trans with (y := w_end wk).
      + apply (Hsorted i k' w wk); [lia | exact Hi | exact Ek].
      + exact (Hstop k' wk eq_refl Ek).
    - apply nth_error_None in Ek. lia. }
  split; [|reflexivity].
  destruct (PromptFacts.prompt_suffix eligible) as (d & Hd & Hwords & Hfull & Hmin).
  exists d. repeat split; try assumption.
  unfold OnlineASRProcessor.prompt. cbn [fst].
  unfold OnlineASRProcessor.prompt_words. fold cm. fold offset. fold k. fold eligible.
  now rewrite Hwords.
Qed.

(** The theorem on three committed words with sorted ends and an offset
    between the second and the third: the prompt is the first two. *)
Lemma prompt_built_from_scrolled_prefix_witness :
  let cm := [(0, 1, "a"); (1, 2, "b"); (2, 3, "c"); (3, 4, "d")] : list TimedWord in
  let s := with_commited cm (5 # 2) in
  ends_sorted cm /\
  OnlineASRProcessor.prompt_k cm (5 # 2) = 2%nat /\
  (forall w, In w (firstn 2 cm) -> w_end w <= 5 # 2) /\
  OnlineASRProcessor.prompt silent_asr s = ("a b", "c d").
Proof.
  intros cm s.
  assert (Hsorted : ends_sorted cm).
  { intros i j wi wj Hij Hi Hj.
    destruct i as [|[|[|[|i]]]]; cbn in Hi;
      [injection Hi as <- .. | destruct i; discriminate Hi];
      (destruct j as [|[|[|[|j]]]]; cbn in Hj;
       [injection Hj as <- .. | destruct j; discriminate Hj]);
      try lia; qcompute. }
  destruct (prompt_built_from_scrolled_prefix unit silent_asr s)
    as (_ & _ & Hprefix & _ & _).
  split; [exact Hsorted|]. split; [reflexivity|].
  split; [exact (Hprefix Hsorted) | reflexivity].
Defined.

(** C8, as stated, fails in both directions.  With non-monotone ends the
    backward scan stops at "b" (end 2.0 <= 2.5) and keeps "a" before it in
    the prompt although "a" ends at 5.0, after the offset.  And the scan
    starts below the last committed word, which is therefore context, not
    prompt, even when it ended by the offset. *)
Lemma prompt_misses_the_window_boundary :
  (let cm := [(0, 5, "a"); (1, 2, "b"); (2, 3, "c")] : list TimedWord in
   let s := with_commited cm (5 # 2) in
   In (0, 5, "a") (firstn (OnlineASRProcessor.prompt_k cm (5 # 2)) cm) /\
   5 # 2 < w_end (0, 5, "a") /\
   OnlineASRProcessor.prompt silent_asr s = ("a b", "c")) /\
  (let cm := [(0, 1, "a"); (1, 2, "b")] : list TimedWord in
   let s := with_commited cm 2 in
   In (1, 2, "b") cm /\ w_end (1, 2, "b") <= 2 /\
   ~ In (1, 2, "b") (firstn (OnlineASRProcessor.prompt_k cm 2) cm) /\
   OnlineASRProcessor.prompt silent_asr s = ("a", "b")).
Proof.
  cbv zeta. split.
  - split; [left; reflexivity|]. split; [qcompute | reflexivity].
  - split; [right; left; reflexivity|]. split; [qcompute|].
    split; [|reflexivity].
    intros H. vm_compute in H. destruct H as [H | H]; [discriminate H | exact H].
Qed.

(** ** OnlineASRProcessor.finish *)

Module FinishFacts.
Import OnlineASRProcessor.

(** The message of line 318 cannot be formatted: one of its fields
    raises whatever the triple. *)
Lemma finish_message_raises (f : Triple) :
  finish_message f
  = inl (match f with
         | (None, _, _) => Py.TypeError
         | (Some _, None, _) => Py.TypeError
         | (Some _, Some _, EmptyString) => Py.IndexError
         | (Some _, Some _, String _ _) => Py.ValueError
         end).
Proof.
  destruct f as [[[b|] [e|]] [|c text]]; reflexivity.
Qed.


End FinishFacts.

(** C2 (what the code does). [finish()] never returns: the triple [f] is
    built from the uncommitted tail, but the formatted message of the
    [logger.debug] call that follows is evaluated first and raises
    [TypeError] on an empty tail ([None * 1000]), [IndexError] when the
    joined text is empty ([f[2][0]]) and [ValueError] otherwise (a string
    formatted with a float presentation); [buffer_time_offset] and every
    other attribute are left as they were.  So it is on a newly created
    processor and on one whose tail is "hello word". *)
Theorem finish_raises_before_returning :
  (forall (Res : Type) (asr : ASR Res) (s : OnlineASRProcessor.t),
      OnlineASRProcessor.finish asr s
      = (inl (match HypothesisBuffer.complete (OnlineASRProcessor.transcript_buffer s) with
              | [] => Py.TypeError
              | tail =>
                  match Py.join (sep asr) (map w_text tail) with
                  | EmptyString => Py.IndexError
                  | String _ _ => Py.ValueError
                  end
              end),
         s)) /\
  OnlineASRProcessor.finish silent_asr (fresh_processor OnlineASRProcessor.Segment)
  = (inl Py.TypeError, fresh_processor OnlineASRProcessor.Segment) /\
  OnlineASRProcessor.finish silent_asr pending_processor
  = (inl Py.ValueError, pending_processor).
Proof.
  split; [|split; reflexivity].
  intros Res asr s. unfold OnlineASRProcessor.finish.
  rewrite FinishFacts.finish_message_raises.
  unfold OnlineASRProcessor.concatenate_tsw.
  destruct (HypothesisBuffer.complete (OnlineASRProcessor.transcript_buffer s))
    as [|w0 tail]; [reflexivity|].
  destruct (Py.join (sep asr) (map w_text (w0 :: tail))); reflexivity.
Qed.

(** ** OnlineASRProcessor.process_iter with the "sentence" option *)

Module SentenceFacts.
Import OnlineASRProcessor.

Lemma transcribe_and_commit_way {Res : Type} (asr : ASR Res) (s : t) :
  buffer_trimming_way (snd (transcribe_and_commit asr s)) = buffer_trimming_way s.
Proof.
  unfold transcribe_and_commit.
  destruct (HypothesisBuffer.flush _) as [o flushed]. reflexivity.
Qed.

Lemma process_iter_sentence {Res : Type} (asr : ASR Res)
      (tokenize : option (list string -> list string)) (s : t) :
  buffer_trimming_way s = Sentence ->
  process_iter asr tokenize s = (inl Py.TypeError, snd (transcribe_and_commit asr s)).
Proof.
  intros Hway. unfold process_iter, bind.
  pose proof (transcribe_and_commit_way asr s) as Hkeep.
  destruct (transcribe_and_commit asr s) as [ro s']. cbn [snd] in *.
  rewrite Hkeep, Hway. reflexivity.
Qed.

(** The body of [chunk_completed_sentence], had it been entered: nothing
    happens on an empty [commited] or on fewer than two sentences. *)
Lemma body_skips_without_commits {Res : Type} (asr : ASR Res)
      (tokenize : option (list string -> list string)) (s : t) :
  commited s = [] -> chunk_completed_sentence asr tokenize s = (inr tt, s).
Proof.
  intros Hcm. unfold chunk_completed_sentence. now rewrite Hcm.
Qed.

Lemma body_skips_single_sentence {Res : Type} (asr : ASR Res)
      (tok : list string -> list string) (s : t) :
  (List.length (sentences_loop (tok [Py.join (sep asr) (map w_text (commited s))])
                               (commited s)) < 2)%nat ->
  chunk_completed_sentence asr (Some tok) s = (inr tt, s).
Proof.
  intros Hfew. unfold chunk_completed_sentence, words_to_sentences.
  destruct (commited s) as [|w0 cm] eqn:Hcm; [reflexivity|].
  now rewrite (proj2 (Nat.ltb_lt _ _) Hfew).
Qed.

End SentenceFacts.

(** C3 (what the code does). With the trimming option "sentence",
    [process_iter] raises [TypeError] on every call, whatever the
    recognizer and the tokenizer reply: after the recognizer pass and the
    commit, the call [self.chunk_completed_sentence(self.commited)] passes
    one argument to a method declared with none, so the sentence trim is
    never attempted and nothing is returned.  So it is on a newly created
    processor. *)
Theorem process_iter_sentence_raises :
  (forall (Res : Type) (asr : ASR Res) (tokenize : option (list string -> list string))
          (audio : list Sample) (tb : HypothesisBuffer.t) (offset : Q)
          (cm : list TimedWord) (sec : Q),
      let s := OnlineASRProcessor.mk audio tb offset cm OnlineASRProcessor.Sentence sec in
      OnlineASRProcessor.process_iter asr tokenize s
      = (inl Py.TypeError, snd (OnlineASRProcessor.transcribe_and_commit asr s))) /\
  OnlineASRProcessor.create "sentence" 15
  = inr (fresh_processor OnlineASRProcessor.Sentence) /\
  OnlineASRProcessor.process_iter silent_asr whole_text_tokenizer
    (fresh_processor OnlineASRProcessor.Sentence)
  = (inl Py.TypeError, fresh_processor OnlineASRProcessor.Sentence).
Proof.
  split; [|split; reflexivity].
  intros Res asr tokenize audio tb offset cm sec s.
  now apply SentenceFacts.process_iter_sentence.
Qed.

(** ** VACOnlineASRProcessor *)

Module VacFacts.
Import VACOnlineASRProcessor.

(** [l[-n:]] keeps the last [n] elements, or all of them. *)
Lemma slice_tail_len {A} (l : list A) (n : Z) :
  (0 < n)%Z ->
  Py.len (Py.slice l (Some (- n)%Z) None) = (Py.len l - Z.max 0 (Py.len l - n))%Z.
Proof.
  intros Hn. unfold Py.slice, Py.bound, Py.len.
  destruct (Z.ltb_spec (- n) 0) as [_ | H]; [|lia].
  rewrite length_firstn, length_skipn. lia.
Qed.

Lemma len_app {A} (l1 l2 : list A) : Py.len (l1 ++ l2) = (Py.len l1 + Py.len l2)%Z.
Proof. unfold Py.len. rewrite length_app. lia. Qed.

(** Forwarding clears the local buffer and moves the offset past it. *)
Lemma forward_accounts (v : t) (st : option voice_status) (restart : option Q)
      (send_audio : list Sample) (final : bool) :
  (buffer_offset (forward v st restart send_audio final)
   + Py.len (audio_buffer (forward v st restart send_audio final)))%Z
  = (buffer_offset v + Py.len (audio_buffer v))%Z.
Proof. unfold forward, clear_buffer, Py.len. cbn. lia. Qed.

(** One call moves [buffer_offset + len(audio_buffer)] forward by the
    length of the chunk, whatever the VAD replied and whether or not the
    call raised. *)
Lemma insert_accounts (v : t) (audio : list Sample) (res : VadReply) :
  (buffer_offset (snd (insert_audio_chunk v audio res))
   + Py.len (audio_buffer (snd (insert_audio_chunk v audio res))))%Z
  = (buffer_offset v + Py.len (audio_buffer v) + Py.len audio)%Z.
Proof.
  unfold insert_audio_chunk.
  destruct res as [[|[key first] d]|].
  - cbn [snd buffer_offset audio_buffer]. rewrite len_app. lia.
  - destruct (dict_has _ "start" && negb (dict_has _ "end")).
    + cbn [snd]. rewrite forward_accounts.
      cbn [buffer_offset audio_buffer]. rewrite len_app. lia.
    + destruct (dict_has _ "end" && negb (dict_has _ "start")).
      * cbn [snd]. rewrite forward_accounts.
        cbn [buffer_offset audio_buffer]. rewrite len_app. lia.
      * destruct (dict_get _ "start") as [e | start];
          [cbn [snd buffer_offset audio_buffer]; rewrite len_app; lia|].
        destruct (dict_get _ "end") as [e | stop];
          [cbn [snd buffer_offset audio_buffer]; rewrite len_app; lia|].
        cbn [snd]. rewrite forward_accounts.
        cbn [buffer_offset audio_buffer]. rewrite len_app. lia.
  - cbn [status].
    destruct (status v) as [[|]|].
    + cbn [snd]. rewrite forward_accounts.
      cbn [buffer_offset audio_buffer]. rewrite len_app. lia.
    + cbn [snd buffer_offset audio_buffer].
      rewrite slice_tail_len by (unfold SAMPLING_RATE, OnlineASRProcessor.SAMPLING_RATE; lia).
      rewrite len_app. lia.
    + cbn [snd buffer_offset audio_buffer].
      rewrite slice_tail_len by (unfold SAMPLING_RATE, OnlineASRProcessor.SAMPLING_RATE; lia).
      rewrite len_app. lia.
Qed.

Lemma feed_accounts (chunks : list (list Sample * VadReply)) :
  forall (v : t) (n : Z),
    (buffer_offset v + Py.len (audio_buffer v))%Z = n ->
    (buffer_offset (feed v chunks) + Py.len (audio_buffer (feed v chunks)))%Z
    = fold_left (fun n c => (n + Py.len (fst c))%Z) chunks n.
Proof.
  induction chunks as [|c chunks IH]; intros v n Hv; [exact Hv|].
  cbn [feed fold_left]. apply IH. rewrite insert_accounts. lia.
Qed.


End VacFacts.

(** C10. After [init] and any sequence of [insert_audio_chunk] calls, for
    every VAD reply to every chunk, [buffer_offset] plus the length of the
    local [audio_buffer] is the number of samples ingested so far. *)
Theorem vac_buffer_accounts_for_all_input :
  forall (v0 : VACOnlineASRProcessor.t) (chunks : list (list Sample * VadReply)),
    let v := VACOnlineASRProcessor.feed (VACOnlineASRProcessor.init v0) chunks in
    (VACOnlineASRProcessor.buffer_offset v
     + Py.len (VACOnlineASRProcessor.audio_buffer v))%Z
    = VACOnlineASRProcessor.ingested chunks.
Proof.
  intros v0 chunks v. subst v. unfold VACOnlineASRProcessor.ingested.
  apply VacFacts.feed_accounts. reflexivity.
Qed.


(** * Further properties of the code *)

(** ** The constructor *)

(** X1. [OnlineASRProcessor(asr, tokenize, (way, sec))] succeeds exactly
    when [way] is "sentence" or "segment" and [sec] is positive, any other
    option raising [ValueError]; the processor it returns has no audio, no
    committed word, offset 0 and the options as given (a threshold above
    30 s is accepted). *)
Theorem create_accepts_valid_options :
  forall (way : string) (sec : Q),
    ((exists s, OnlineASRProcessor.create way sec = inr s) <->
     (way = "sentence" \/ way = "segment") /\ 0 < sec) /\
    (forall e, OnlineASRProcessor.create way sec = inl e -> e = Py.ValueError) /\
    (forall s,
        OnlineASRProcessor.create way sec = inr s ->
        OnlineASRProcessor.audio_buffer s = [] /\
        OnlineASRProcessor.commited s = [] /\
        OnlineASRProcessor.buffer_time_offset s = 0 /\
        OnlineASRProcessor.transcript_buffer s = fresh_buffer 0 /\
        OnlineASRProcessor.buffer_trimming_sec s = sec /\
        (OnlineASRProcessor.buffer_trimming_way s = OnlineASRProcessor.Sentence <->
         way = "sentence")).
Proof.
  intros way sec. unfold OnlineASRProcessor.create.
  destruct (String.eqb_spec way "sentence") as [-> | Hsent].
  - destruct (Py.leb sec 0) eqn:E.
    + apply leb_le in E. split; [|split].
      * split; [intros [s H]; discriminate H|].
        intros [_ Hpos]. exfalso. exact (Qlt_not_le _ _ Hpos E).
      * intros e H. now injection H as <-.
      * intros s H. discriminate H.
    + apply leb_gt in E. split; [|split].
      * split; [intros _; split; [now left | exact E] | intros _; eexists; reflexivity].
      * intros e H. discriminate H.
      * intros s H. injection H as <-. cbn. repeat split; auto.
  - destruct (String.eqb_spec way "segment") as [-> | Hseg].
    + destruct (Py.leb sec 0) eqn:E.
      * apply leb_le in E. split; [|split].
        -- split; [intros [s H]; discriminate H|].
           intros [_ Hpos]. exfalso. exact (Qlt_not_le _ _ Hpos E).
        -- intros e H. now injection H as <-.
        -- intros s H. discriminate H.
      * apply leb_gt in E. split; [|split].
        -- split; [intros _; split; [now right | exact E] | intros _; eexists; reflexivity].
        -- intros e H. discriminate H.
        -- intros s H. injection H as <-. cbn. repeat split; auto; discriminate.
    + split; [|split].
      * split; [intros [s H]; discriminate H|].
        intros [[H | H] _]; contradiction.
      * intros e H. now injection H as <-.
      * intros s H. discriminate H.
Qed.

(** The theorem on the default option and on a misspelt one. *)
Lemma create_accepts_valid_options_witness :
  (exists s, OnlineASRProcessor.create "segment" 15 = inr s /\
             OnlineASRProcessor.commited s = [] /\
             OnlineASRProcessor.buffer_trimming_sec s = 15) /\
  OnlineASRProcessor.create "segments" 15 = inl Py.ValueError.
Proof.
  destruct (create_accepts_valid_options "segment" 15) as ((_ & Hok) & _ & Hfresh).
  destruct (create_accepts_valid_options "segments" 15) as (_ & Herr & _).
  split.
  - destruct Hok as [s Hs]; [split; [now right | reflexivity]|].
    exists s. split; [exact Hs|].
    destruct (Hfresh s Hs) as (_ & Hcm & _ & _ & Hsec & _). now split.
  - destruct (OnlineASRProcessor.create "segments" 15) as [e | s] eqn:E.
    + now rewrite (Herr e eq_refl).
    + discriminate E.
Defined.

(** ** The boundary de-duplication of insert *)

Module DedupFacts.
Import HypothesisBuffer.

Lemma skipn_nth {A} (d : A) (l : list A) (k : nat) :
  (k < List.length l)%nat -> skipn k l = nth k l d :: skipn (S k) l.
Proof.
  revert k. induction l as [|x l IH]; intros k Hk; cbn in Hk; [lia|].
  destruct k as [|k]; [reflexivity|].
  cbn [skipn nth]. apply IH. lia.
Qed.

(** The texts picked by negative indices are the last [i] texts. *)
Lemma ngram_commited_last (cib : list TimedWord) (i : nat) :
  (i <= List.length cib)%nat -> ngram_commited cib i = spaced (last_words i cib).
Proof.
  intros Hi. unfold ngram_commited, spaced, last_words. f_equal.
  induction i as [|i IH]; [now rewrite Nat.sub_0_r, skipn_all|].
  rewrite seq_S, map_app, rev_app_distr. cbn [map rev app Nat.add].
  rewrite IH by lia.
  rewrite (skipn_nth ((0, 0, EmptyString) : TimedWord) cib (List.length cib - S i)) by lia.
  cbn [map]. replace (S (List.length cib - S i)) with (List.length cib - i)%nat by lia.
  reflexivity.
Qed.

Lemma firstn_nth {A} (d : A) (l : list A) :
  forall i, (i <= List.length l)%nat ->
            map (fun j => nth (j - 1) l d) (seq 1 i) = firstn i l.
Proof.
  induction l as [|x l IH]; intros i Hi; cbn in Hi.
  - replace i with 0%nat by lia. reflexivity.
  - destruct i as [|i]; [reflexivity|].
    cbn [seq map firstn Nat.sub nth]. f_equal.
    rewrite <- seq_shift, map_map. rewrite <- (IH i) by lia.
    apply map_ext_in. intros j Hj. apply in_seq in Hj.
    destruct j as [|j]; [lia|]. cbn [Nat.sub]. now rewrite Nat.sub_0_r.
Qed.

(** The texts picked from the front are the first [i] texts. *)
Lemma ngram_new_first (nw : list TimedWord) (i : nat) :
  (i <= List.length nw)%nat -> ngram_new nw i = spaced (firstn i nw).
Proof.
  intros Hi. unfold ngram_new, spaced. f_equal.
  rewrite <- (firstn_nth ((0, 0, EmptyString) : TimedWord) nw i Hi), map_map. reflexivity.
Qed.

(** [find] returns the first element that passes. *)
Lemma find_first {A} (f : A -> bool) (l : list A) (x : A) :
  find f l = Some x ->
  exists pre post, l = pre ++ x :: post /\ f x = true /\
                   forall y, In y pre -> f y = false.
Proof.
  induction l as [|a l IH]; intros H; [discriminate H|].
  cbn [find] in H. destruct (f a) eqn:E.
  - injection H as <-. exists [], l. repeat split; [exact E | intros y []].
  - destruct (IH H) as (pre & post & -> & Hx & Hpre).
    exists (a :: pre), post. repeat split; [exact Hx|].
    intros y [<- | Hy]; [exact E | now apply Hpre].
Qed.

Lemma seq_split_lt (pre post : list nat) (x start len : nat) :
  seq start len = pre ++ x :: post ->
  forall y, (start <= y < x)%nat -> In y pre.
Proof.
  revert start len. induction pre as [|p pre IH]; intros start len H y Hy.
  - destruct len as [|len]; [discriminate H|]. cbn in H. injection H as <- _. lia.
  - destruct len as [|len]; [discriminate H|]. cbn in H. injection H as <- Htl.
    destruct (Nat.eq_dec y start) as [-> | Hne]; [now left | right].
    apply (IH (S start) len Htl). lia.
Qed.

End DedupFacts.

(** X2. The boundary de-duplication of [insert] removes from the front of
    the surviving words the smallest number [i] of words, [1 <= i <= 5],
    for which the last [i] committed texts and the first [i] surviving
    texts, each joined by single spaces, are the same string; it removes
    nothing ([i = 0]) unless the first survivor begins less than 1 s from
    [last_commited_time] and [commited_in_buffer] is non-empty, and under
    that condition it does remove words as soon as some such [i]
    exists. *)
Theorem insert_drops_repeated_ngram :
  forall (h : HypothesisBuffer.t) (ws : list TimedWord) (offset : Q),
    let kept := HypothesisBuffer.survivors h ws offset in
    let cib := HypothesisBuffer.commited_in_buffer h in
    exists i : nat,
      HypothesisBuffer.new (HypothesisBuffer.insert h ws offset) = skipn i kept /\
      (i <= 5)%nat /\ (i <= List.length cib)%nat /\ (i <= List.length kept)%nat /\
      spaced (last_words i cib) = spaced (firstn i kept) /\
      (forall i', (1 <= i' < i)%nat ->
                  spaced (last_words i' cib) <> spaced (firstn i' kept)) /\
      ((1 <= i)%nat -> dedup_guard h kept) /\
      (dedup_guard h kept ->
       forall i', (1 <= i' <= 5)%nat ->
                  (i' <= List.length cib)%nat -> (i' <= List.length kept)%nat ->
                  spaced (last_words i' cib) = spaced (firstn i' kept) ->
                  (1 <= i <= i')%nat).
Proof.
  intros h ws offset kept cib.
  assert (Hzero : spaced (last_words 0 cib) = spaced (firstn 0 kept)).
  { unfold last_words. now rewrite Nat.sub_0_r, skipn_all. }
  (* what is left to prove when nothing is removed *)
  assert (Hnone :
            HypothesisBuffer.new (HypothesisBuffer.insert h ws offset) = kept ->
            (dedup_guard h kept ->
             forall i', (1 <= i' <= 5)%nat ->
                        (i' <= List.length cib)%nat -> (i' <= List.length kept)%nat ->
                        spaced (last_words i' cib) = spaced (firstn i' kept) -> False) ->
            exists i : nat,
              HypothesisBuffer.new (HypothesisBuffer.insert h ws offset) = skipn i kept /\
              (i <= 5)%nat /\ (i <= List.length cib)%nat /\ (i <= List.length kept)%nat /\
              spaced (last_words i cib) = spaced (firstn i kept) /\
              (forall i', (1 <= i' < i)%nat ->
                          spaced (last_words i' cib) <> spaced (firstn i' kept)) /\
              ((1 <= i)%nat -> dedup_guard h kept) /\
              (dedup_guard h kept ->
               forall i', (1 <= i' <= 5)%nat ->
                          (i' <= List.length cib)%nat -> (i' <= List.length kept)%nat ->
                          spaced (last_words i' cib) = spaced (firstn i' kept) ->
                          (1 <= i <= i')%nat)).
  { intros Hnew Habsurd. exists 0%nat.
    split; [exact Hnew|]. split; [lia|]. split; [lia|]. split; [lia|].
    split; [exact Hzero|]. split; [intros i' Hi'; lia|].
    split; [intros Hpos; lia|].
    intros Hg i' Hi' Hc Hk Heq. exfalso. exact (Habsurd Hg i' Hi' Hc Hk Heq). }
  cbn [HypothesisBuffer.insert HypothesisBuffer.new] in *. fold kept in Hnone |- *.
  unfold HypothesisBuffer.dedup in *. fold cib in Hnone |- *.
  destruct kept as [|w0 rest] eqn:Hkept.
  { apply Hnone; [reflexivity|].
    intros (w & r & Hw & _). discriminate Hw. }
  rewrite <- Hkept in *.
  destruct (Py.ltb (Qabs (Py.fsub (w_beg w0) (HypothesisBuffer.last_commited_time h))) 1)
    eqn:Hnear.
  2:{ apply Hnone; [reflexivity|].
      intros (w & r & Hw & Habs & _). rewrite Hkept in Hw. injection Hw as <- _.
      apply ltb_lt in Habs. rewrite Habs in Hnear. discriminate Hnear. }
  destruct cib as [|c0 cib'] eqn:Hcib.
  { apply Hnone; [reflexivity|].
    intros (w & r & _ & _ & Hne) i' _ _ _ _. apply Hne. exact Hcib. }
  rewrite <- Hcib in *.
  assert (Hguard : dedup_guard h kept).
  { exists w0, rest. repeat split; [exact Hkept | now apply ltb_lt |].
    fold cib. rewrite Hcib. discriminate. }
  destruct (HypothesisBuffer.dedup_count cib kept) as [i|] eqn:Hfind.
  - clear Hnone. unfold HypothesisBuffer.dedup_count in Hfind.
    destruct (DedupFacts.find_first _ _ _ Hfind) as (pre & post & Hseq & Hi & Hpre).
    assert (Hin : In i (seq 1 (Nat.min (Nat.min (List.length cib) (List.length kept)) 5))).
    { rewrite Hseq. apply in_or_app. right. now left. }
    apply in_seq in Hin.
    apply String.eqb_eq in Hi.
    rewrite DedupFacts.ngram_commited_last, DedupFacts.ngram_new_first in Hi by lia.
    assert (Hearlier : forall i', (1 <= i' < i)%nat ->
                         spaced (last_words i' cib) <> spaced (firstn i' kept)).
    { intros i' Hi' Heq.
      assert (Hf := Hpre i' (DedupFacts.seq_split_lt _ _ _ _ _ Hseq i' ltac:(lia))).
      apply String.eqb_neq in Hf. apply Hf.
      rewrite DedupFacts.ngram_commited_last, DedupFacts.ngram_new_first by lia.
      exact Heq. }
    exists i.
    split; [reflexivity|]. split; [lia|]. split; [lia|]. split; [lia|].
    split; [exact Hi|]. split; [exact Hearlier|].
    split; [intros _; exact Hguard|].
    intros _ i' Hi' Hc Hk Heq.
    destruct (Nat.le_gt_cases i i') as [Hle | Hgt]; [lia | exfalso].
    exact (Hearlier i' ltac:(lia) Heq).
  - apply Hnone; [reflexivity|].
    intros _ i' Hi' Hc Hk Heq.
    unfold HypothesisBuffer.dedup_count in Hfind.
    assert (Hf := find_none _ _ Hfind i').
    cbv beta in Hf.
    rewrite DedupFacts.ngram_commited_last, DedupFacts.ngram_new_first in Hf by lia.
    rewrite Heq, String.eqb_refl in Hf.
    assert (Hin : In i' (seq 1 (Nat.min (Nat.min (List.length cib) (List.length kept)) 5))).
    { apply in_seq. lia. }
    specialize (Hf Hin). discriminate Hf.
Qed.

(** The theorem in scenario S3: "the cat" was committed, the hypothesis
    starts with "the cat sat", and the two repeated words are dropped. *)
Lemma insert_drops_repeated_ngram_witness :
  dedup_guard s3_buffer (HypothesisBuffer.survivors s3_buffer s3_words 0) /\
  spaced (last_words 2 (HypothesisBuffer.commited_in_buffer s3_buffer))
  = spaced (firstn 2 (HypothesisBuffer.survivors s3_buffer s3_words 0)) /\
  (exists i : nat,
      (1 <= i <= 2)%nat /\
      HypothesisBuffer.new (HypothesisBuffer.insert s3_buffer s3_words 0)
      = skipn i (HypothesisBuffer.survivors s3_buffer s3_words 0)) /\
  HypothesisBuffer.new (HypothesisBuffer.insert s3_buffer s3_words 0)
  = [shift 0 (13 # 10, 16 # 10, "sat")].
Proof.
  assert (Hguard : dedup_guard s3_buffer (HypothesisBuffer.survivors s3_buffer s3_words 0)).
  { exists (shift 0 (1, 11 # 10, "the")),
           [shift 0 (11 # 10, 13 # 10, "cat"); shift 0 (13 # 10, 16 # 10, "sat")].
    split; [vm_compute; reflexivity|]. split; [qcompute | discriminate]. }
  assert (Heq : spaced (last_words 2 (HypothesisBuffer.commited_in_buffer s3_buffer))
                = spaced (firstn 2 (HypothesisBuffer.survivors s3_buffer s3_words 0)))
    by (vm_compute; reflexivity).
  destruct (insert_drops_repeated_ngram s3_buffer s3_words 0)
    as (i & Hnew & _ & _ & _ & _ & _ & _ & Hmatch).
  split; [exact Hguard|]. split; [exact Heq|]. split; [|vm_compute; reflexivity].
  exists i. split; [|exact Hnew].
  apply (Hmatch Hguard 2%nat); [lia | cbn; lia | vm_compute; lia | exact Heq].
Defined.

(** ** pop_commited and repeated hypotheses *)

Module PopFacts.
Import HypothesisBuffer.

(** A later threshold absorbs an earlier one. *)
Lemma pop_while_later (t1 t2 : Q) (cib : list TimedWord) :
  t1 <= t2 -> pop_while t2 (pop_while t1 cib) = pop_while t2 cib.
Proof.
  intros Hle. induction cib as [|w cib IH]; [reflexivity|].
  cbn [pop_while]. destruct (Py.leb (w_end w) t1) eqn:E1.
  - apply leb_le in E1.
    rewrite (proj2 (leb_le (w_end w) t2) (Qle_trans _ _ _ E1 Hle)). exact IH.
  - reflexivity.
Qed.

(** Nothing is left to pop at an earlier threshold. *)
Lemma pop_while_earlier (t1 t2 : Q) (cib : list TimedWord) :
  t1 <= t2 -> pop_while t1 (pop_while t2 cib) = pop_while t2 cib.
Proof.
  intros Hle.
  destruct (ChunkFacts.pop_while_spec t2 cib) as (dropped & _ & _ & Hhead).
  destruct (pop_while t2 cib) as [|w rest]; [reflexivity|].
  cbn [pop_while].
  assert (Hgt : t1 < w_end w).
  { apply Qle_lt_trans with (y := t2); [exact Hle | exact (Hhead w rest eq_refl)]. }
  now rewrite (proj2 (leb_gt _ _) Hgt).
Qed.

(** With sorted ends, every word that stays ends after the threshold. *)
Lemma pop_while_sorted (time : Q) (cib : list TimedWord) :
  ends_sorted cib -> Forall (fun w => time < w_end w) (pop_while time cib).
Proof.
  intros Hsorted.
  destruct (ChunkFacts.pop_while_spec time cib) as (dropped & Hsplit & _ & Hhead).
  destruct (pop_while time cib) as [|w0 rest] eqn:E; [constructor|].
  apply Forall_forall. intros w Hin.
  apply In_nth_error in Hin. destruct Hin as (j & Hj).
  apply Qlt_le_trans with (y := w_end w0); [exact (Hhead w0 rest eq_refl)|].
  apply (Hsorted (List.length dropped + 0)%nat (List.length dropped + j)%nat w0 w);
    [lia | |]; rewrite Hsplit, nth_error_app2 by lia.
  - replace (List.length dropped + 0 - List.length dropped)%nat with 0%nat by lia.
    reflexivity.
  - replace (List.length dropped + j - List.length dropped)%nat with j by lia.
    exact Hj.
Qed.

End PopFacts.

(** X3. [pop_commited] composes: popping at [t1] and then at a later
    [t2], or first at [t2] and then at the earlier [t1], leaves the buffer
    as a single [pop_commited(t2)] does (in particular it is idempotent);
    and when the ends of [commited_in_buffer] never decrease, every word
    that stays ends after the threshold. *)
Theorem pop_commited_composes :
  forall (h : HypothesisBuffer.t) (t1 t2 : Q),
    t1 <= t2 ->
    HypothesisBuffer.pop_commited (HypothesisBuffer.pop_commited h t1) t2
    = HypothesisBuffer.pop_commited h t2 /\
    HypothesisBuffer.pop_commited (HypothesisBuffer.pop_commited h t2) t1
    = HypothesisBuffer.pop_commited h t2 /\
    (ends_sorted (HypothesisBuffer.commited_in_buffer h) ->
     Forall (fun w => t2 < w_end w)
            (HypothesisBuffer.commited_in_buffer (HypothesisBuffer.pop_commited h t2))).
Proof.
  intros h t1 t2 Hle. unfold HypothesisBuffer.pop_commited.
  cbn [HypothesisBuffer.commited_in_buffer HypothesisBuffer.buffer HypothesisBuffer.new
       HypothesisBuffer.last_commited_time HypothesisBuffer.last_commited_word].
  rewrite PopFacts.pop_while_later, PopFacts.pop_while_earlier by exact Hle.
  repeat split. apply PopFacts.pop_while_sorted.
Qed.

(** The theorem on the two committed words of scenario S3, which end at
    0.5 s and 1.0 s: popping at 0.5 s and then at 0.75 s leaves "cat". *)
Lemma pop_commited_composes_witness :
  1 # 2 <= 3 # 4 /\
  HypothesisBuffer.pop_commited (HypothesisBuffer.pop_commited s3_buffer (1 # 2)) (3 # 4)
  = HypothesisBuffer.pop_commited s3_buffer (3 # 4) /\
  HypothesisBuffer.commited_in_buffer (HypothesisBuffer.pop_commited s3_buffer (3 # 4))
  = [(1 # 2, 1, "cat")] /\
  Forall (fun w => 3 # 4 < w_end w)
         (HypothesisBuffer.commited_in_buffer
            (HypothesisBuffer.pop_commited s3_buffer (3 # 4))).
Proof.
  assert (Hle : 1 # 2 <= 3 # 4) by qcompute.
  destruct (pop_commited_composes s3_buffer (1 # 2) (3 # 4) Hle) as (Hlater & _ & Hall).
  split; [exact Hle|]. split; [exact Hlater|]. split; [reflexivity|].
  apply Hall. intros i j wi wj Hij Hi Hj.
  destruct i as [|[|i]]; cbn in Hi;
    [injection Hi as <- .. | destruct i; discriminate Hi];
    (destruct j as [|[|j]]; cbn in Hj;
     [injection Hj as <- .. | destruct j; discriminate Hj]);
    try lia; qcompute.
Defined.

Module AgreementFacts.
Import HypothesisBuffer.

(** When the texts of [new] and [buffer] agree throughout, the loop takes
    every word. *)
Lemma flush_loop_all (nw : list TimedWord) :
  forall buf commit lt lw,
    map w_text nw = map w_text buf ->
    fl_commit (flush_loop nw buf commit lt lw) = commit ++ nw /\
    fl_new (flush_loop nw buf commit lt lw) = [].
Proof.
  induction nw as [|[[na nb] nt] nw IH]; intros buf commit lt lw Heq.
  - cbn. now rewrite app_nil_r.
  - destruct buf as [|b0 buf]; [discriminate Heq|].
    cbn [map] in Heq. injection Heq as Ht Hrest.
    cbn [flush_loop]. unfold w_text at 1 in Ht. cbn [snd] in Ht.
    destruct (String.eqb_spec nt (w_text b0)) as [_ | Hne]; [|contradiction].
    destruct (IH buf (commit ++ [(na, nb, nt)]) nb (Some nt) Hrest) as (Hc & Hn).
    rewrite Hc, Hn, <- app_assoc. now split.
Qed.

Lemma flush_all (h : t) :
  map w_text (new h) = map w_text (buffer h) ->
  fst (flush h) = new h /\ buffer (snd (flush h)) = [].
Proof.
  intros Heq. unfold flush. cbn [fst snd buffer].
  destruct (flush_loop_all (new h) (buffer h) [] (last_commited_time h)
              (last_commited_word h) Heq) as (Hc & Hn).
  now rewrite Hc, Hn.
Qed.

(** Two passes of the same hypothesis over a buffer with nothing
    committed and no tail. *)
Lemma fresh_two_passes (start : Q) (ws : list TimedWord) (offset : Q) :
  let h0 := fresh_buffer start in
  let pass1 := HypothesisBuffer.flush (HypothesisBuffer.insert h0 ws offset) in
  let pass2 := HypothesisBuffer.flush (HypothesisBuffer.insert (snd pass1) ws offset) in
  fst pass1 = [] /\
  HypothesisBuffer.buffer (snd pass1) = HypothesisBuffer.survivors h0 ws offset /\
  fst pass2 = HypothesisBuffer.survivors h0 ws offset /\
  HypothesisBuffer.buffer (snd pass2) = [] /\
  HypothesisBuffer.commited_in_buffer (snd pass2)
  = HypothesisBuffer.survivors h0 ws offset.
Proof.
  intros h0 pass1 pass2.
  assert (Hins : HypothesisBuffer.new (HypothesisBuffer.insert h0 ws offset)
                 = HypothesisBuffer.survivors h0 ws offset).
  { cbn [HypothesisBuffer.insert HypothesisBuffer.new]. unfold HypothesisBuffer.dedup.
    destruct (HypothesisBuffer.survivors h0 ws offset) as [|w0 rest]; [reflexivity|].
    cbn [h0 fresh_buffer HypothesisBuffer.commited_in_buffer].
    now destruct (Py.ltb _ _). }
  assert (H1 : fst pass1 = [] /\
               snd pass1
               = {| HypothesisBuffer.commited_in_buffer := [];
                    HypothesisBuffer.buffer := HypothesisBuffer.survivors h0 ws offset;
                    HypothesisBuffer.new := [];
                    HypothesisBuffer.last_commited_time := start;
                    HypothesisBuffer.last_commited_word := None |}).
  { subst pass1. unfold HypothesisBuffer.flush. rewrite Hins.
    cbn [HypothesisBuffer.insert HypothesisBuffer.buffer h0 fresh_buffer
         HypothesisBuffer.commited_in_buffer HypothesisBuffer.last_commited_time
         HypothesisBuffer.last_commited_word].
    destruct (HypothesisBuffer.survivors h0 ws offset) as [|[[a b] t] rest];
      cbn; now split. }
  destruct H1 as (Hc1 & Hs1).
  assert (Hins2 : HypothesisBuffer.insert (snd pass1) ws offset
                  = {| HypothesisBuffer.commited_in_buffer := [];
                       HypothesisBuffer.buffer := HypothesisBuffer.survivors h0 ws offset;
                       HypothesisBuffer.new := HypothesisBuffer.survivors h0 ws offset;
                       HypothesisBuffer.last_commited_time := start;
                       HypothesisBuffer.last_commited_word := None |}).
  { rewrite Hs1. unfold HypothesisBuffer.insert.
    cbn [HypothesisBuffer.commited_in_buffer HypothesisBuffer.buffer
         HypothesisBuffer.last_commited_time HypothesisBuffer.last_commited_word].
    f_equal. unfold HypothesisBuffer.dedup, HypothesisBuffer.survivors.
    cbn [HypothesisBuffer.commited_in_buffer HypothesisBuffer.last_commited_time
         h0 fresh_buffer].
    destruct (filter _ _) as [|w0 rest]; [reflexivity|].
    now destruct (Py.ltb _ _). }
  destruct (flush_all (HypothesisBuffer.insert (snd pass1) ws offset))
    as (Hc2 & Hb2); [now rewrite Hins2|].
  fold pass2 in Hc2, Hb2.
  split; [exact Hc1|]. split; [now rewrite Hs1|].
  split; [rewrite Hc2, Hins2; reflexivity|]. split; [exact Hb2|].
  subst pass2. unfold HypothesisBuffer.flush at 1. cbn [snd HypothesisBuffer.commited_in_buffer].
  fold (fst (HypothesisBuffer.flush (HypothesisBuffer.insert (snd pass1) ws offset))).
  change (HypothesisBuffer.fl_commit
            (HypothesisBuffer.flush_loop
               (HypothesisBuffer.new (HypothesisBuffer.insert (snd pass1) ws offset))
               (HypothesisBuffer.buffer (HypothesisBuffer.insert (snd pass1) ws offset)) []
               (HypothesisBuffer.last_commited_time
                  (HypothesisBuffer.insert (snd pass1) ws offset))
               (HypothesisBuffer.last_commited_word
                  (HypothesisBuffer.insert (snd pass1) ws offset))))
    with (fst (HypothesisBuffer.flush (HypothesisBuffer.insert (snd pass1) ws offset))).
  rewrite Hc2, Hins2. reflexivity.
Qed.

(** The buffer after the first of the two passes. *)
Lemma fresh_first_pass (start : Q) (ws : list TimedWord) (offset : Q) :
  HypothesisBuffer.flush (HypothesisBuffer.insert (fresh_buffer start) ws offset)
  = ([], {| HypothesisBuffer.commited_in_buffer := [];
            HypothesisBuffer.buffer :=
              HypothesisBuffer.survivors (fresh_buffer start) ws offset;
            HypothesisBuffer.new := [];
            HypothesisBuffer.last_commited_time := start;
            HypothesisBuffer.last_commited_word := None |}).
Proof.
  assert (Hins : HypothesisBuffer.new
                   (HypothesisBuffer.insert (fresh_buffer start) ws offset)
                 = HypothesisBuffer.survivors (fresh_buffer start) ws offset).
  { cbn [HypothesisBuffer.insert HypothesisBuffer.new]. unfold HypothesisBuffer.dedup.
    destruct (HypothesisBuffer.survivors (fresh_buffer start) ws offset) as [|w0 rest];
      [reflexivity|].
    cbn [fresh_buffer HypothesisBuffer.commited_in_buffer].
    now destruct (Py.ltb _ _). }
  unfold HypothesisBuffer.flush. rewrite Hins.
  cbn [HypothesisBuffer.insert HypothesisBuffer.buffer fresh_buffer
       HypothesisBuffer.commited_in_buffer HypothesisBuffer.last_commited_time
       HypothesisBuffer.last_commited_word].
  destruct (HypothesisBuffer.survivors (fresh_buffer start) ws offset) as [|[[a b] t] rest];
    reflexivity.
Qed.

(** On a buffer started at [offset], up to [2^40] seconds, no word with
    a non-negative begin is behind the horizon of an insertion at
    [offset]. *)
Lemma fresh_survivors (ws : list TimedWord) (offset : Q) :
  Qabs offset <= 2 ^ 40 ->
  Forall (fun w => 0 <= w_beg w) ws ->
  HypothesisBuffer.survivors (fresh_buffer offset) ws offset = map (shift offset) ws.
Proof.
  intros Hoff Hpos. unfold HypothesisBuffer.survivors.
  cbn [fresh_buffer HypothesisBuffer.last_commited_time].
  induction ws as [|w ws IH]; [reflexivity|].
  inversion Hpos as [|? ? Hw Hrest]; subst.
  cbn [map filter].
  assert (Hlt : Py.fsub offset (1 # 10) < w_beg (shift offset w)).
  { unfold shift. unfold w_beg at 1. cbn [fst].
    now apply FloatFacts.horizon_below_shift. }
  rewrite (proj2 (ltb_lt _ _) Hlt). f_equal. now apply IH.
Qed.

(** At [2^53] seconds the horizon is the offset itself, and a word that
    begins at the offset is discarded. *)
Lemma absorbed_horizon :
  horizon (fresh_buffer (9007199254740992 # 1)) = 9007199254740992 # 1 /\
  HypothesisBuffer.survivors (fresh_buffer (9007199254740992 # 1))
                             [(0, 1, "x")] (9007199254740992 # 1) = [].
Proof. split; vm_compute; reflexivity. Qed.

End AgreementFacts.

(** X4. Words are committed on their second sighting: on a buffer with
    nothing committed and no pending tail, a first [insert]/[flush] of a
    hypothesis commits nothing and keeps its surviving words as the tail;
    the same hypothesis inserted and flushed again commits exactly those
    surviving words, with their shifted timestamps, and leaves no tail.
    More generally a [flush] whose [new] and [buffer] carry the same
    texts commits all of [new]. *)
Theorem repeated_hypothesis_is_committed :
  (forall h : HypothesisBuffer.t,
      map w_text (HypothesisBuffer.new h) = map w_text (HypothesisBuffer.buffer h) ->
      fst (HypothesisBuffer.flush h) = HypothesisBuffer.new h /\
      HypothesisBuffer.buffer (snd (HypothesisBuffer.flush h)) = []) /\
  (forall (start : Q) (ws : list TimedWord) (offset : Q),
      let h0 := fresh_buffer start in
      let pass1 := HypothesisBuffer.flush (HypothesisBuffer.insert h0 ws offset) in
      let pass2 := HypothesisBuffer.flush (HypothesisBuffer.insert (snd pass1) ws offset) in
      fst pass1 = [] /\
      HypothesisBuffer.buffer (snd pass1) = HypothesisBuffer.survivors h0 ws offset /\
      fst pass2 = HypothesisBuffer.survivors h0 ws offset /\
      HypothesisBuffer.buffer (snd pass2) = [] /\
      HypothesisBuffer.commited_in_buffer (snd pass2)
      = HypothesisBuffer.survivors h0 ws offset).
Proof.
  split; [exact AgreementFacts.flush_all | exact AgreementFacts.fresh_two_passes].
Qed.

(** The theorem on the hypothesis "hello word" of scenario S2, seen twice. *)
Lemma repeated_hypothesis_is_committed_witness :
  let h := {| HypothesisBuffer.commited_in_buffer := [];
              HypothesisBuffer.buffer := s2_pass1;
              HypothesisBuffer.new := s2_pass1;
              HypothesisBuffer.last_commited_time := 0;
              HypothesisBuffer.last_commited_word := None |} in
  map w_text (HypothesisBuffer.new h) = map w_text (HypothesisBuffer.buffer h) /\
  fst (HypothesisBuffer.flush h) = s2_pass1 /\
  HypothesisBuffer.buffer (snd (HypothesisBuffer.flush h)) = [].
Proof.
  intros h. split; [reflexivity|].
  exact (proj1 repeated_hypothesis_is_committed h eq_refl).
Defined.

(** ** process_iter with the "segment" option *)

Module IterFacts.
Import OnlineASRProcessor.

(** [l[i:]] is a suffix of [l], whatever the sign of [i]. *)
Lemma slice_from_suffix {A} (l : list A) (i : Z) :
  exists n : nat, Py.slice l (Some i) None = skipn n l.
Proof.
  unfold Py.slice, Py.bound, Py.len.
  set (lo := if (i <? 0)%Z then Z.max (i + Z.of_nat (List.length l)) 0
             else Z.min i (Z.of_nat (List.length l))).
  exists (Z.to_nat lo). apply firstn_all2. rewrite length_skipn.
  subst lo. destruct (i <? 0)%Z; lia.
Qed.

(** What [chunk_completed_segment] can do: nothing, or [chunk_at] at the
    final candidate, which does not exceed the end of the last committed
    word. *)
Lemma segment_trim_cases (s : t) (ends : list Q) :
  chunk_completed_segment s ends = s \/
  exists w0 j,
    commited s <> [] /\ (j <= List.length ends - 2)%nat /\ (2 <= List.length ends)%nat /\
    nth j ends 0 + buffer_time_offset s <= w_end (last (commited s) w0) /\
    chunk_completed_segment s ends = chunk_at s (nth j ends 0 + buffer_time_offset s).
Proof.
  unfold chunk_completed_segment.
  destruct (commited s) as [|w0 rest] eqn:Hcm; [now left|].
  destruct (Nat.leb_spec (List.length ends) 1) as [Hshort | Hlong]; [now left|].
  destruct (SegmentFacts.segment_end_spec ends (buffer_time_offset s)
              (w_end (last (w0 :: rest) w0)) ltac:(lia))
    as (j & Hj & Hres & _ & _).
  rewrite Hres.
  destruct (Py.leb _ _) eqn:E; [right | now left].
  apply leb_le in E. exists w0, j.
  repeat split; [discriminate | lia | lia | exact E].
Qed.

Lemma chunk_at_fields (s : t) (time : Q) :
  commited (chunk_at s time) = commited s /\
  buffer_trimming_way (chunk_at s time) = buffer_trimming_way s /\
  buffer_trimming_sec (chunk_at s time) = buffer_trimming_sec s /\
  buffer_time_offset (chunk_at s time) = time /\
  exists n : nat, audio_buffer (chunk_at s time) = skipn n (audio_buffer s).
Proof.
  unfold chunk_at. cbn. repeat split. apply slice_from_suffix.
Qed.

(** [process_iter] with the "segment" option, step by step. *)
Lemma process_iter_segment {Res : Type} (asr : ASR Res)
      (tokenize : option (list string -> list string)) (s : t) :
  buffer_trimming_way s = Segment ->
  process_iter asr tokenize s
  = (inr (concatenate_tsw (snd (fst (transcribe_and_commit asr s))) (sep asr) 0),
     trim_when_long asr (fst (fst (transcribe_and_commit asr s)))
                    (snd (transcribe_and_commit asr s))).
Proof.
  intros Hway. unfold process_iter, bind, exec, ret.
  pose proof (SentenceFacts.transcribe_and_commit_way asr s) as Hkeep.
  destruct (transcribe_and_commit asr s) as [[res o] s']. cbn [fst snd] in *.
  now rewrite Hkeep, Hway.
Qed.

Lemma transcribe_and_commit_fields {Res : Type} (asr : ASR Res) (s : t) :
  snd (fst (transcribe_and_commit asr s)) = newly_commited asr s /\
  segments_end_ts asr (fst (fst (transcribe_and_commit asr s))) = reported_ends asr s /\
  commited (snd (transcribe_and_commit asr s)) = commited s ++ newly_commited asr s /\
  audio_buffer (snd (transcribe_and_commit asr s)) = audio_buffer s /\
  buffer_time_offset (snd (transcribe_and_commit asr s)) = buffer_time_offset s /\
  buffer_trimming_sec (snd (transcribe_and_commit asr s)) = buffer_trimming_sec s.
Proof.
  unfold transcribe_and_commit, newly_commited, reported_ends.
  destruct (HypothesisBuffer.flush _) as [o flushed]. cbn. repeat split.
Qed.

End IterFacts.

(** X5. With the "segment" option [process_iter] always returns: its
    result is the concatenation of the words it commits, those words are
    appended to [commited] (no committed word is removed or reordered),
    the audio buffer only loses a prefix, and the options are kept.  When
    the audio is not longer than [buffer_trimming_sec] nothing is trimmed;
    and when the previous pass left no uncommitted tail nothing is
    committed and the result is [(None, None, "")]. *)
Theorem process_iter_segment_appends_commits :
  forall (Res : Type) (asr : ASR Res) (tokenize : option (list string -> list string))
         (audio : list Sample) (tb : HypothesisBuffer.t) (offset : Q)
         (cm : list TimedWord) (sec : Q),
    let s := OnlineASRProcessor.mk audio tb offset cm OnlineASRProcessor.Segment sec in
    let s' := snd (OnlineASRProcessor.process_iter asr tokenize s) in
    fst (OnlineASRProcessor.process_iter asr tokenize s)
    = inr (OnlineASRProcessor.concatenate_tsw (newly_commited asr s) (sep asr) 0) /\
    OnlineASRProcessor.commited s' = cm ++ newly_commited asr s /\
    (exists n : nat, OnlineASRProcessor.audio_buffer s' = skipn n audio) /\
    OnlineASRProcessor.buffer_trimming_way s' = OnlineASRProcessor.Segment /\
    OnlineASRProcessor.buffer_trimming_sec s' = sec /\
    (OnlineASRProcessor.audio_seconds audio <= sec ->
     OnlineASRProcessor.audio_buffer s' = audio /\
     OnlineASRProcessor.buffer_time_offset s' = offset) /\
    (HypothesisBuffer.buffer tb = [] ->
     newly_commited asr s = [] /\
     fst (OnlineASRProcessor.process_iter asr tokenize s) = inr (None, None, EmptyString)).
Proof.
  intros Res asr tokenize audio tb offset cm sec s s'.
  assert (Hiter := IterFacts.process_iter_segment asr tokenize s eq_refl).
  destruct (IterFacts.transcribe_and_commit_fields asr s)
    as (Ho & Hends & Hcm & Haudio & Hoff & Hsec).
  set (s1 := snd (OnlineASRProcessor.transcribe_and_commit asr s)) in *.
  set (res := fst (fst (OnlineASRProcessor.transcribe_and_commit asr s))) in *.
  assert (Hs' : s' = OnlineASRProcessor.trim_when_long asr res s1).
  { subst s'. now rewrite Hiter. }
  assert (Hway1 : OnlineASRProcessor.buffer_trimming_way s1 = OnlineASRProcessor.Segment).
  { exact (SentenceFacts.transcribe_and_commit_way asr s). }
  assert (Hcases : s' = s1 \/ exists time, s' = OnlineASRProcessor.chunk_at s1 time).
  { rewrite Hs'. unfold OnlineASRProcessor.trim_when_long.
    destruct (Py.ltb _ _); [|now left].
    destruct (IterFacts.segment_trim_cases s1 (segments_end_ts asr res))
      as [-> | (w0 & j & _ & _ & _ & _ & ->)]; [now left | right; eexists; reflexivity]. }
  split; [rewrite Hiter; cbn [fst]; now rewrite Ho|].
  split.
  { destruct Hcases as [-> | (time & ->)]; [exact Hcm|].
    destruct (IterFacts.chunk_at_fields s1 time) as (-> & _). exact Hcm. }
  split.
  { destruct Hcases as [-> | (time & ->)].
    - exists 0%nat. exact Haudio.
    - destruct (IterFacts.chunk_at_fields s1 time) as (_ & _ & _ & _ & n & ->).
      exists n. now rewrite Haudio. }
  split.
  { destruct Hcases as [-> | (time & ->)]; [exact Hway1|].
    destruct (IterFacts.chunk_at_fields s1 time) as (_ & -> & _). exact Hway1. }
  split.
  { destruct Hcases as [-> | (time & ->)]; [exact Hsec|].
    destruct (IterFacts.chunk_at_fields s1 time) as (_ & _ & -> & _). exact Hsec. }
  split.
  { intros Hshort. rewrite Hs'. unfold OnlineASRProcessor.trim_when_long.
    rewrite Haudio, Hsec.
    cbn [s OnlineASRProcessor.audio_buffer OnlineASRProcessor.buffer_trimming_sec].
    rewrite (proj2 (ltb_ge _ _) Hshort). now split. }
  intros Htail.
  assert (Hnone : newly_commited asr s = []).
  { unfold newly_commited.
    destruct (FlushFacts.flush_spec
                (HypothesisBuffer.insert (OnlineASRProcessor.transcript_buffer s)
                   (ts_words asr (transcribe asr (OnlineASRProcessor.audio_buffer s)
                                             (fst (OnlineASRProcessor.prompt asr s))))
                   (OnlineASRProcessor.buffer_time_offset s)))
      as (n & _ & Hn & _ & _ & Hc & _).
    rewrite Hc. cbn [HypothesisBuffer.insert HypothesisBuffer.buffer s
                     OnlineASRProcessor.transcript_buffer] in Hn.
    rewrite Htail in Hn. cbn in Hn. replace n with 0%nat by lia. reflexivity. }
  split; [exact Hnone|].
  rewrite Hiter. cbn [fst]. now rewrite Ho, Hnone.
Qed.

(** The theorem on the second pass of scenario S2: "hello" is returned
    and appended, and one second of audio is below the threshold. *)
Lemma process_iter_segment_appends_commits_witness :
  let asr := scripted_asr s2_pass2 [1] in
  let r := OnlineASRProcessor.process_iter asr None pending_processor in
  OnlineASRProcessor.audio_seconds (OnlineASRProcessor.audio_buffer pending_processor)
  <= OnlineASRProcessor.buffer_trimming_sec pending_processor /\
  HypothesisBuffer.buffer
    (OnlineASRProcessor.transcript_buffer (fresh_processor OnlineASRProcessor.Segment)) = [] /\
  fst r = inr (Some (0 + 0), Some (0 + (1 # 2)), "hello") /\
  OnlineASRProcessor.commited (snd r) = [(0, 1 # 2, "hello")] /\
  OnlineASRProcessor.buffer_time_offset (snd r) = 0 /\
  fst (OnlineASRProcessor.process_iter asr None (fresh_processor OnlineASRProcessor.Segment))
  = inr (None, None, EmptyString).
Proof.
  intros asr r.
  assert (Hshort : OnlineASRProcessor.audio_seconds
                     (OnlineASRProcessor.audio_buffer pending_processor)
                   <= OnlineASRProcessor.buffer_trimming_sec pending_processor) by qcompute.
  destruct (process_iter_segment_appends_commits unit asr None
              (OnlineASRProcessor.audio_buffer pending_processor)
              (OnlineASRProcessor.transcript_buffer pending_processor) 0 [] 15)
    as (Hret & Hcm & _ & _ & _ & Hkeep & _).
  destruct (process_iter_segment_appends_commits unit asr None
              [] (fresh_buffer 0) 0 [] 15)
    as (_ & _ & _ & _ & _ & _ & Hfirst).
  split; [exact Hshort|]. split; [reflexivity|].
  split; [exact Hret|]. split; [exact Hcm|].
  split; [exact (proj2 (Hkeep Hshort)) | exact (proj2 (Hfirst eq_refl))].
Defined.

(** ** Trimming moves the window forward *)

Module ForwardFacts.
Import OnlineASRProcessor.

Lemma candidate_after_offset (ends : list Q) (offset : Q) (j : nat) :
  Forall (fun e => 0 <= e) ends -> (j < List.length ends)%nat ->
  offset <= nth j ends 0 + offset.
Proof.
  intros Hpos Hj.
  assert (H0 : 0 <= nth j ends 0).
  { rewrite Forall_forall in Hpos. apply Hpos, nth_In, Hj. }
  lra.
Qed.

(** For a non-negative [q], [int(q)] is the integer part of [q]. *)
Lemma int_floor (q : Q) :
  0 <= q -> inject_Z (Py.int q) <= q /\ q < inject_Z (Py.int q) + 1.
Proof.
  intros Hq.
  assert (Hfloor : Py.int q = Qfloor q).
  { destruct q as [n d]. unfold Py.int, Qfloor. cbn [Qnum Qden].
    apply Z.quot_div_nonneg; [|lia].
    unfold Qle in Hq. cbn in Hq. lia. }
  rewrite Hfloor. split; [apply Qfloor_le|].
  pose proof (Qlt_floor q) as H. rewrite inject_Z_plus in H. exact H.
Qed.

End ForwardFacts.

(** X6. When the segment ends reported by the recognizer are
    non-negative, [chunk_completed_segment] never moves
    [buffer_time_offset] backwards: it either leaves the processor
    untouched or trims at a time between the old offset and the end of the
    last committed word.  Hence [buffer_time_offset] does not decrease over
    a [process_iter] with the "segment" option. *)
Theorem segment_trim_moves_forward :
  (forall (s : OnlineASRProcessor.t) (ends : list Q),
      Forall (fun e => 0 <= e) ends ->
      OnlineASRProcessor.chunk_completed_segment s ends = s \/
      exists time w0,
        OnlineASRProcessor.chunk_completed_segment s ends
        = OnlineASRProcessor.chunk_at s time /\
        OnlineASRProcessor.buffer_time_offset s <= time /\
        time <= w_end (last (OnlineASRProcessor.commited s) w0) /\
        OnlineASRProcessor.commited s <> []) /\
  (forall (Res : Type) (asr : ASR Res) (tokenize : option (list string -> list string))
          (audio : list Sample) (tb : HypothesisBuffer.t) (offset : Q)
          (cm : list TimedWord) (sec : Q),
      let s := OnlineASRProcessor.mk audio tb offset cm OnlineASRProcessor.Segment sec in
      Forall (fun e => 0 <= e) (reported_ends asr s) ->
      offset
      <= OnlineASRProcessor.buffer_time_offset
           (snd (OnlineASRProcessor.process_iter asr tokenize s))).
Proof.
  assert (Hfirst : forall (s : OnlineASRProcessor.t) (ends : list Q),
             Forall (fun e => 0 <= e) ends ->
             OnlineASRProcessor.chunk_completed_segment s ends = s \/
             exists time w0,
               OnlineASRProcessor.chunk_completed_segment s ends
               = OnlineASRProcessor.chunk_at s time /\
               OnlineASRProcessor.buffer_time_offset s <= time /\
               time <= w_end (last (OnlineASRProcessor.commited s) w0) /\
               OnlineASRProcessor.commited s <> []).
  { intros s ends Hpos.
    destruct (IterFacts.segment_trim_cases s ends)
      as [Hsame | (w0 & j & Hne & Hj & Hlen & Hle & Htrim)]; [now left | right].
    exists (nth j ends 0 + OnlineASRProcessor.buffer_time_offset s), w0.
    repeat split; [exact Htrim | | exact Hle | exact Hne].
    apply ForwardFacts.candidate_after_offset; [exact Hpos | lia]. }
  split; [exact Hfirst|].
  intros Res asr tokenize audio tb offset cm sec s Hpos.
  rewrite (IterFacts.process_iter_segment asr tokenize s eq_refl). cbn [snd].
  destruct (IterFacts.transcribe_and_commit_fields asr s)
    as (_ & Hends & _ & _ & Hoff & _).
  unfold OnlineASRProcessor.trim_when_long.
  destruct (Py.ltb _ _).
  - rewrite Hends.
    destruct (Hfirst (snd (OnlineASRProcessor.transcribe_and_commit asr s))
                (reported_ends asr s) Hpos)
      as [-> | (time & w0 & -> & Hle & _)].
    + rewrite Hoff. apply Qle_refl.
    + rewrite Hoff in Hle. exact Hle.
  - rewrite Hoff. apply Qle_refl.
Qed.

(** The theorem in scenario S4 with a last committed word ending at
    10.0 s: the processor is trimmed at 8.0 s. *)
Lemma segment_trim_moves_forward_witness :
  Forall (fun e => 0 <= e) s4_ends /\
  exists time,
    OnlineASRProcessor.chunk_completed_segment (s4_state 10) s4_ends
    = OnlineASRProcessor.chunk_at (s4_state 10) time /\
    0 <= time /\ time <= 10.
Proof.
  assert (Hpos : Forall (fun e => 0 <= e) s4_ends) by (repeat constructor; qcompute).
  split; [exact Hpos|].
  destruct (proj1 segment_trim_moves_forward (s4_state 10) s4_ends Hpos)
    as [Hsame | (time & w0 & Htrim & Hlo & Hhi & _)].
  - exfalso.
    assert (Hoff : OnlineASRProcessor.buffer_time_offset
                     (OnlineASRProcessor.chunk_completed_segment (s4_state 10) s4_ends)
                   = 8 + 0).
    { rewrite (SegmentFacts.s4_trim (s4_state 10) (0, 10, "w") [] eq_refl);
        [reflexivity | qcompute | qcompute]. }
    rewrite Hsame in Hoff. discriminate Hoff.
  - exists time. split; [exact Htrim|]. split; [exact Hlo | exact Hhi].
Defined.

(** X7. [chunk_at(t)] keeps the end of the audio window in place up to
    one sample and the rounding of the sample count: for
    [buffer_time_offset <= t <= buffer_time_offset + len(audio_buffer) /
    16000], both times within [2^20] seconds, the new offset plus the
    remaining audio ends no more than 2 ns before the old window end and
    no more than 1/16000 s plus 2 ns after it.  The sample comes from
    [int] truncating the number of samples to drop, the 2 ns bound the
    binary64 rounding of [(t - buffer_time_offset) * 16000]. *)
Theorem chunk_at_keeps_stream_end :
  forall (s : OnlineASRProcessor.t) (time : Q),
    OnlineASRProcessor.buffer_time_offset s <= time ->
    time <= stream_end s ->
    Qabs (OnlineASRProcessor.buffer_time_offset s) <= 2 ^ 20 ->
    Qabs time <= 2 ^ 20 ->
    stream_end s - (1 # 500000000) <= stream_end (OnlineASRProcessor.chunk_at s time) /\
    stream_end (OnlineASRProcessor.chunk_at s time)
    <= stream_end s + (1 # 16000) + (1 # 500000000).
Proof.
  intros s time Hlo Hhi Hoff Htime.
  change (2 ^ 20) with (1048576 # 1) in Hoff, Htime.
  apply Qabs_Qle_condition in Hoff. apply Qabs_Qle_condition in Htime.
  pose proof (FloatFacts.pow2_pos (-1075)) as Heta.
  assert (Heta' : 2 ^ (-1075) <= 1 # 1208925819614629174706176).
  { assert (H : 2 ^ (-80) == 1 # 1208925819614629174706176) by reflexivity.
    rewrite <- H. apply FloatFacts.pow2_le. lia. }
  pose proof (ChunkFacts.cut_nonneg _ _ Hlo) as Hx.
  destruct (ForwardFacts.int_floor _ Hx) as (Hn1 & Hn2).
  pose proof (ChunkFacts.int_nonneg _ Hx) as Hn0.
  unfold stream_end in *. unfold OnlineASRProcessor.audio_seconds in *.
  unfold OnlineASRProcessor.chunk_at at 2 4.
  cbn [OnlineASRProcessor.audio_buffer].
  rewrite (ChunkFacts.slice_from_nonneg _ _ Hn0).
  cbn [OnlineASRProcessor.chunk_at OnlineASRProcessor.buffer_time_offset].
  set (p := Py.fmul (Py.fsub time (OnlineASRProcessor.buffer_time_offset s))
                    (inject_Z OnlineASRProcessor.SAMPLING_RATE)) in *.
  set (n := Py.int p) in *.
  set (audio := OnlineASRProcessor.audio_buffer s) in *.
  set (off := OnlineASRProcessor.buffer_time_offset s) in *.
  (* the rounding errors of the four operations *)
  destruct (FloatFacts.float_error_bound time (1048576 # 1)) as [Ht1 Ht2].
  { apply Qabs_Qle_condition. split; lra. }
  destruct (FloatFacts.float_error_bound off (1048576 # 1)) as [Ho1 Ho2].
  { apply Qabs_Qle_condition. split; lra. }
  destruct (FloatFacts.float_error_bound (Py.float time - Py.float off) (3145728 # 1))
    as [Hd1 Hd2].
  { apply Qabs_Qle_condition. split; lra. }
  fold (Py.fsub time off) in Hd1, Hd2.
  destruct (FloatFacts.float_error_bound (Py.fsub time off) (4194304 # 1)) as [Hf1 Hf2].
  { apply Qabs_Qle_condition. split; lra. }
  assert (H16 : Py.float (inject_Z OnlineASRProcessor.SAMPLING_RATE) = 16000)
    by (vm_compute; reflexivity).
  destruct (FloatFacts.float_error_bound
              (Py.float (Py.fsub time off)
               * Py.float (inject_Z OnlineASRProcessor.SAMPLING_RATE))
              (80000000000 # 1)) as [Hp1 Hp2].
  { rewrite H16. apply Qabs_Qle_condition. split; lra. }
  fold (Py.fmul (Py.fsub time off) (inject_Z OnlineASRProcessor.SAMPLING_RATE)) in Hp1, Hp2.
  fold p in Hp1, Hp2. rewrite H16 in Hp1, Hp2.
  set (ft := Py.float time) in *. set (fo := Py.float off) in *.
  set (d := Py.fsub time off) in *. set (fd := Py.float d) in *.
  unfold Qdiv in *. change (/ inject_Z OnlineASRProcessor.SAMPLING_RATE) with (1 # 16000) in *.
  assert (Hlen0 : 0 <= inject_Z (Py.len audio)).
  { change 0 with (inject_Z 0). rewrite <- Zle_Qle. unfold Py.len. lia. }
  assert (Hn0' : 0 <= inject_Z n).
  { change 0 with (inject_Z 0). rewrite <- Zle_Qle. exact Hn0. }
  destruct (Z_le_gt_dec n (Py.len audio)) as [Hnlen | Hnlen].
  - assert (Hlen : Py.len (skipn (Z.to_nat n) audio) = (Py.len audio + - n)%Z).
    { unfold Py.len in *. rewrite length_skipn. lia. }
    rewrite Hlen, inject_Z_plus, inject_Z_opp.
    clearbody p n audio off ft fo d fd. split; lra.
  - assert (Hlen : Py.len (skipn (Z.to_nat n) audio) = 0%Z).
    { unfold Py.len in *. rewrite length_skipn. lia. }
    rewrite Hlen. change (inject_Z 0) with 0.
    assert (Hn' : inject_Z (Py.len audio) + 1 <= inject_Z n).
    { rewrite <- (inject_Z_plus _ 1). rewrite <- Zle_Qle. lia. }
    clearbody p n audio off ft fo d fd. split; lra.
Qed.

(** The theorem on a three-sample window trimmed one and a half samples
    after its start: one sample is dropped. *)
Lemma chunk_at_keeps_stream_end_witness :
  let t := 1 + (3 # 32000) in
  OnlineASRProcessor.buffer_time_offset rewind_state <= t /\
  t <= stream_end rewind_state /\
  Qabs (OnlineASRProcessor.buffer_time_offset rewind_state) <= 2 ^ 20 /\
  Qabs t <= 2 ^ 20 /\
  OnlineASRProcessor.audio_buffer (OnlineASRProcessor.chunk_at rewind_state t) = [2; 3] /\
  stream_end rewind_state - (1 # 500000000)
  <= stream_end (OnlineASRProcessor.chunk_at rewind_state t) /\
  stream_end (OnlineASRProcessor.chunk_at rewind_state t)
  <= stream_end rewind_state + (1 # 16000) + (1 # 500000000).
Proof.
  intros t.
  assert (Hlo : OnlineASRProcessor.buffer_time_offset rewind_state <= t) by qcompute.
  assert (Hhi : t <= stream_end rewind_state) by qcompute.
  assert (Hb1 : Qabs (OnlineASRProcessor.buffer_time_offset rewind_state) <= 2 ^ 20)
    by qcompute.
  assert (Hb2 : Qabs t <= 2 ^ 20) by qcompute.
  split; [exact Hlo|]. split; [exact Hhi|]. split; [exact Hb1|]. split; [exact Hb2|].
  split; [vm_compute; reflexivity|].
  exact (chunk_at_keeps_stream_end rewind_state t Hlo Hhi Hb1 Hb2).
Defined.

(** ** VACOnlineASRProcessor.insert_audio_chunk *)

Module GateFacts.
Import VACOnlineASRProcessor.

Lemma slice_len_le {A} (l : list A) (lo hi : option Z) :
  (Py.len (Py.slice l lo hi) <= Py.len l)%Z.
Proof.
  unfold Py.slice, Py.len. rewrite length_firstn, length_skipn. lia.
Qed.



Lemma dict_get_has (d : list (string * Z)) (key : string) :
  dict_has d key = true <-> exists x, dict_get d key = inr x.
Proof.
  unfold dict_has, dict_get. induction d as [|[k x] d IH]; cbn [existsb find fst].
  - split; [discriminate | intros [x H]; discriminate H].
  - destruct (String.eqb k key); cbn [orb]; [|exact IH].
    split; [intros _; eexists; reflexivity | reflexivity].
Qed.

Lemma dict_get_missing (d : list (string * Z)) (key : string) :
  dict_has d key = false -> dict_get d key = inl Py.KeyError.
Proof.
  intros Hno. destruct (dict_get d key) as [e | x] eqn:E.
  - unfold dict_get in E. destruct (find _ d); [discriminate E | now injection E as <-].
  - assert (H : dict_has d key = true) by (apply dict_get_has; now exists x).
    rewrite H in Hno. discriminate Hno.
Qed.

Lemma forward_counted (v : t) (st : option voice_status) (restart : option Q)
      (send_audio : list Sample) (final : bool) :
  counted v -> (Py.len send_audio <= Py.len (audio_buffer v))%Z ->
  counted (forward v st restart send_audio final).
Proof.
  intros (H0 & Hin & Hout) Hsend. unfold counted, forward, clear_buffer.
  cbn [current_online_chunk_buffer_size online buffer_offset audio_buffer].
  assert (Hpos : (0 <= Py.len send_audio)%Z) by (unfold Py.len; lia).
  repeat split; try lia.
  destruct restart as [off|];
    cbn [OnlineASRProcessor.insert_audio_chunk OnlineASRProcessor.init
         OnlineASRProcessor.audio_buffer app];
    [lia|].
  rewrite VacFacts.len_app. lia.
Qed.

Lemma appended_counted (v : t) (audio : list Sample) :
  counted v -> counted (chunk_appended v audio).
Proof. intros H. exact H. Qed.

Lemma insert_counted (v : t) (audio : list Sample) (res : VadReply) :
  counted v -> counted (snd (insert_audio_chunk v audio res)).
Proof.
  intros Hv. unfold insert_audio_chunk. fold (chunk_appended v audio).
  pose proof (appended_counted v audio Hv) as Hv1.
  set (v1 := chunk_appended v audio) in *.
  destruct res as [[|[key first] d]|].
  - exact Hv1.
  - destruct (dict_has _ "start" && negb (dict_has _ "end")).
    + apply forward_counted; [exact Hv1 | apply slice_len_le].
    + destruct (dict_has _ "end" && negb (dict_has _ "start")).
      * apply forward_counted; [exact Hv1 | apply slice_len_le].
      * destruct (dict_get _ "start") as [e | start]; [exact Hv1|].
        destruct (dict_get _ "end") as [e | stop]; [exact Hv1|].
        apply forward_counted; [exact Hv1 | apply slice_len_le].
  - destruct (status v1) as [[|]|].
    + apply forward_counted; [exact Hv1 | lia].
    + destruct Hv1 as (H0 & Hin & Hout). unfold counted. cbn [snd].
      cbn [current_online_chunk_buffer_size online buffer_offset]. lia.
    + destruct Hv1 as (H0 & Hin & Hout). unfold counted. cbn [snd].
      cbn [current_online_chunk_buffer_size online buffer_offset]. lia.
Qed.

Lemma feed_counted (chunks : list (list Sample * VadReply)) :
  forall v : t, counted v -> counted (feed v chunks).
Proof.
  induction chunks as [|c chunks IH]; intros v Hv; [exact Hv|].
  cbn [feed fold_left]. apply IH, insert_counted, Hv.
Qed.

End GateFacts.

(** X8. No sample is forwarded twice: after [init] and any sequence of
    [insert_audio_chunk] calls, the audio held by the inner processor is
    at most [current_online_chunk_buffer_size], which is non-negative and
    at most [buffer_offset], the number of samples that have left the
    local buffer. *)
Theorem vac_forwards_no_more_than_ingested :
  forall (v0 : VACOnlineASRProcessor.t) (chunks : list (list Sample * VadReply)),
    let v := VACOnlineASRProcessor.feed (VACOnlineASRProcessor.init v0) chunks in
    (0 <= VACOnlineASRProcessor.current_online_chunk_buffer_size v)%Z /\
    (Py.len (OnlineASRProcessor.audio_buffer (VACOnlineASRProcessor.online v))
     <= VACOnlineASRProcessor.current_online_chunk_buffer_size v)%Z /\
    (VACOnlineASRProcessor.current_online_chunk_buffer_size v
     <= VACOnlineASRProcessor.buffer_offset v)%Z /\
    (VACOnlineASRProcessor.buffer_offset v <= VACOnlineASRProcessor.ingested chunks)%Z.
Proof.
  intros v0 chunks v.
  assert (Hc : counted v).
  { apply GateFacts.feed_counted. unfold counted. cbn. lia. }
  destruct Hc as (H0 & Hin & Hout).
  repeat split; try assumption.
  assert (Hacc := VacFacts.feed_accounts chunks (VACOnlineASRProcessor.init v0) 0%Z eq_refl).
  fold v in Hacc. unfold VACOnlineASRProcessor.ingested. rewrite <- Hacc.
  unfold Py.len. lia.
Qed.

(** X9. [insert_audio_chunk] raises only on a malformed VAD reply: it
    returns for [None] and for every dict that holds "start" or "end";
    on an empty dict it raises [IndexError] and on a non-empty dict with
    neither key [KeyError], in both cases after the chunk has been
    appended to the local buffer and with nothing else changed. *)
Theorem vac_insert_raises_on_malformed_reply :
  forall (v : VACOnlineASRProcessor.t) (audio : list Sample) (res : VadReply),
    match res with
    | None => fst (VACOnlineASRProcessor.insert_audio_chunk v audio res) = inr tt
    | Some d =>
        if dict_has d "start" || dict_has d "end"
        then fst (VACOnlineASRProcessor.insert_audio_chunk v audio res) = inr tt
        else VACOnlineASRProcessor.insert_audio_chunk v audio res
             = (inl (match d with [] => Py.IndexError | _ :: _ => Py.KeyError end),
                chunk_appended v audio)
    end.
Proof.
  intros v audio res. unfold VACOnlineASRProcessor.insert_audio_chunk.
  fold (chunk_appended v audio).
  destruct res as [d|].
  - destruct d as [|[key first] d']; [reflexivity|].
    set (d := (key, first) :: d').
    destruct (dict_has d "start") eqn:Hs; destruct (dict_has d "end") eqn:He;
      cbn [andb orb negb].
    + destruct (proj1 (GateFacts.dict_get_has d "start") Hs) as (x & ->).
      destruct (proj1 (GateFacts.dict_get_has d "end") He) as (y & ->).
      reflexivity.
    + reflexivity.
    + reflexivity.
    + now rewrite (GateFacts.dict_get_missing d "start" Hs).
  - cbn [VACOnlineASRProcessor.status chunk_appended].
    now destruct (VACOnlineASRProcessor.status v) as [[|]|].
Qed.

(** X10. After every call of [insert_audio_chunk] that returns, the local
    buffer holds at most one second of audio (16000 samples); it is empty
    unless the VAD replied [None] outside voice. *)
Theorem vac_local_buffer_is_bounded :
  forall (v : VACOnlineASRProcessor.t) (audio : list Sample) (res : VadReply),
    fst (VACOnlineASRProcessor.insert_audio_chunk v audio res) = inr tt ->
    let v' := snd (VACOnlineASRProcessor.insert_audio_chunk v audio res) in
    (Py.len (VACOnlineASRProcessor.audio_buffer v') <= 16000)%Z /\
    (res <> None \/ VACOnlineASRProcessor.status v = Some VACOnlineASRProcessor.Voice ->
     VACOnlineASRProcessor.audio_buffer v' = []).
Proof.
  intros v audio res. unfold VACOnlineASRProcessor.insert_audio_chunk.
  fold (chunk_appended v audio).
  destruct res as [[|[key first] d']|].
  - intros H. discriminate H.
  - set (d := (key, first) :: d').
    destruct (dict_has d "start" && negb (dict_has d "end"));
      [intros _; cbn; split; [lia | reflexivity]|].
    destruct (dict_has d "end" && negb (dict_has d "start"));
      [intros _; cbn; split; [lia | reflexivity]|].
    destruct (dict_get d "start") as [e | start]; [intros H; discriminate H|].
    destruct (dict_get d "end") as [e | stop]; [intros H; discriminate H|].
    intros _. cbn. split; [lia | reflexivity].
  - cbn [VACOnlineASRProcessor.status chunk_appended].
    destruct (VACOnlineASRProcessor.status v) as [[|]|]; intros _; cbn [snd].
    + cbn. split; [lia | reflexivity].
    + cbn [VACOnlineASRProcessor.audio_buffer]. split.
      * rewrite VacFacts.slice_tail_len
          by (unfold VACOnlineASRProcessor.SAMPLING_RATE,
                     OnlineASRProcessor.SAMPLING_RATE; lia).
        unfold VACOnlineASRProcessor.SAMPLING_RATE, OnlineASRProcessor.SAMPLING_RATE. lia.
      * intros [H | H]; [now contradiction H | discriminate H].
    + cbn [VACOnlineASRProcessor.audio_buffer]. split.
      * rewrite VacFacts.slice_tail_len
          by (unfold VACOnlineASRProcessor.SAMPLING_RATE,
                     OnlineASRProcessor.SAMPLING_RATE; lia).
        unfold VACOnlineASRProcessor.SAMPLING_RATE, OnlineASRProcessor.SAMPLING_RATE. lia.
      * intros [H | H]; [now contradiction H | discriminate H].
Qed.

(** The theorem on a chunk of two samples ingested in silence: the local
    buffer grows to five samples and stays below one second. *)
Lemma vac_local_buffer_is_bounded_witness :
  fst (VACOnlineASRProcessor.insert_audio_chunk silent_vac [1%Q; 2%Q] None) = inr tt /\
  (Py.len (VACOnlineASRProcessor.audio_buffer
             (snd (VACOnlineASRProcessor.insert_audio_chunk silent_vac [1%Q; 2%Q] None)))
   <= 16000)%Z /\
  VACOnlineASRProcessor.audio_buffer
    (snd (VACOnlineASRProcessor.insert_audio_chunk silent_vac [1%Q; 2%Q] (Some [("end", 22%Z)])))
  = [].
Proof.
  split; [reflexivity|]. split.
  - exact (proj1 (vac_local_buffer_is_bounded silent_vac [1%Q; 2%Q] None eq_refl)).
  - apply (proj2 (vac_local_buffer_is_bounded silent_vac [1%Q; 2%Q]
                    (Some [("end", 22%Z)]) eq_refl)).
    left. discriminate.
Defined.

Module EventFacts.
Import VACOnlineASRProcessor.


Lemma len_nonneg {A} (l : list A) : (0 <= Py.len l)%Z.
Proof. unfold Py.len. lia. Qed.

End EventFacts.



(** ** The size of the prompt *)

Module PromptSizeFacts.
Import OnlineASRProcessor.

Lemma length_append (s1 s2 : string) :
  String.length (s1 ++ s2)%string = (String.length s1 + String.length s2)%nat.
Proof.
  induction s1 as [|c s1 IH]; [reflexivity|]. cbn. now rewrite IH.
Qed.

(** With a separator of at most one character, a join is shorter than the
    length [prompt] counts for its words. *)
Lemma join_below_weight (sp : string) (words : list string) :
  (String.length sp <= 1)%nat -> words <> [] ->
  (String.length (Py.join sp words) + 1 <= prompt_weight words)%nat.
Proof.
  intros Hsp. unfold Py.join.
  induction words as [|x words IH]; intros Hne; [contradiction|].
  rewrite PromptFacts.weight_cons.
  destruct words as [|y words].
  - cbn [String.concat]. rewrite PromptFacts.weight_nil. lia.
  - change (String.concat sp (x :: y :: words))
      with (x ++ sp ++ String.concat sp (y :: words))%string.
    rewrite !length_append.
    specialize (IH ltac:(discriminate)). lia.
Qed.

End PromptSizeFacts.

(** X12. The prompt is at most 200 characters plus one word: when the
    recognizer's separator has at most one character and no committed
    text is longer than [m] characters, the prompt passed to the
    recognizer has at most [199 + m] characters. *)
Theorem prompt_is_bounded :
  forall (Res : Type) (asr : ASR Res) (s : OnlineASRProcessor.t) (m : nat),
    (String.length (sep asr) <= 1)%nat ->
    (forall w, In w (OnlineASRProcessor.commited s) -> (String.length (w_text w) <= m)%nat) ->
    (String.length (fst (OnlineASRProcessor.prompt asr s)) <= 199 + m)%nat.
Proof.
  intros Res asr s m Hsep Hwords.
  unfold OnlineASRProcessor.prompt. cbn [fst]. unfold OnlineASRProcessor.prompt_words.
  set (k := OnlineASRProcessor.prompt_k (OnlineASRProcessor.commited s)
              (OnlineASRProcessor.buffer_time_offset s)).
  set (eligible := map w_text (firstn k (OnlineASRProcessor.commited s))).
  destruct (PromptFacts.prompt_suffix eligible) as (d & Hd & Htake & _ & Hmin).
  rewrite Htake.
  destruct (skipn d eligible) as [|x rest] eqn:Hskip; [cbn; lia|].
  assert (Hdlt : (d < List.length eligible)%nat).
  { destruct (Nat.eq_dec d (List.length eligible)) as [-> | Hne]; [|lia].
    rewrite skipn_all in Hskip. discriminate Hskip. }
  assert (Hrest : rest = skipn (S d) eligible).
  { rewrite (DedupFacts.skipn_nth EmptyString eligible d Hdlt) in Hskip.
    now injection Hskip as _ <-. }
  assert (Hx : (String.length x <= m)%nat).
  { assert (Hin : In x eligible).
    { apply (InsertFacts.in_skipn d). rewrite Hskip. now left. }
    subst eligible. apply in_map_iff in Hin. destruct Hin as (w & <- & Hw).
    apply Hwords. exact (InsertFacts.in_firstn k _ _ Hw). }
  pose proof (PromptSizeFacts.join_below_weight (sep asr) (x :: rest) Hsep
                ltac:(discriminate)) as Hjoin.
  rewrite PromptFacts.weight_cons in Hjoin.
  specialize (Hmin (S d) ltac:(lia)). rewrite <- Hrest in Hmin. lia.
Qed.

(** The theorem on the four committed words of one letter used before:
    the prompt "a b" is well below 200 characters. *)
Lemma prompt_is_bounded_witness :
  let cm := [(0, 1, "a"); (1, 2, "b"); (2, 3, "c"); (3, 4, "d")] : list TimedWord in
  (String.length (sep silent_asr) <= 1)%nat /\
  (forall w, In w cm -> (String.length (w_text w) <= 1)%nat) /\
  (String.length (fst (OnlineASRProcessor.prompt silent_asr (with_commited cm (5 # 2))))
   <= 199 + 1)%nat.
Proof.
  intros cm.
  assert (Hsep : (String.length (sep silent_asr) <= 1)%nat) by (cbn; lia).
  assert (Hw : forall w, In w cm -> (String.length (w_text w) <= 1)%nat).
  { intros w [<- | [<- | [<- | [<- | []]]]]; cbn; lia. }
  split; [exact Hsep|]. split; [exact Hw|].
  exact (prompt_is_bounded unit silent_asr (with_commited cm (5 # 2)) 1%nat Hsep Hw).
Defined.

(** ** Sentence segmentation *)

Module SegmentationFacts.
Import OnlineASRProcessor.

Lemma prefix_refl (s : string) : String.prefix s s = true.
Proof.
  induction s as [|c s IH]; [reflexivity|].
  cbn [String.prefix]. now destruct (ascii_dec c c).
Qed.

(** The inner loop: a sentence is appended only on a word that follows
    the one that gave its begin. *)
Lemma sentence_words_spec (cw : list TimedWord) :
  forall (beg : option Q) (sent fsent : string) (x : SentenceT) (rest : list TimedWord),
    sentence_words cw beg sent fsent = (Some x, rest) ->
    exists used we,
      cw = used ++ we :: rest /\
      snd x = fsent /\
      snd (fst x) = Some (w_end we) /\
      match beg with
      | Some b => fst (fst x) = Some b
      | None => exists pre wb mid, used = pre ++ wb :: mid /\ fst (fst x) = Some (w_beg wb)
      end.
Proof.
  induction cw as [|[[b e] w] cw IH]; intros beg sent fsent x rest H;
    [discriminate H|].
  cbn [sentence_words] in H.
  destruct beg as [b0|].
  - destruct (String.eqb sent (Py.strip w)) eqn:Eq.
    + injection H as <- <-. exists [], (b, e, w). repeat split.
    + destruct (IH _ _ _ _ _ H) as (used & we & -> & Ht & He & Hb).
      exists ((b, e, w) :: used), we. repeat split; assumption.
  - destruct (Py.startswith sent (Py.strip w)) eqn:Esw.
    + destruct (IH _ _ _ _ _ H) as (used & we & -> & Ht & He & Hb).
      exists ((b, e, w) :: used), we. repeat split; try assumption.
      exists [], (b, e, w), used. now split.
    + destruct (String.eqb sent (Py.strip w)) eqn:Eq.
      * apply String.eqb_eq in Eq. rewrite Eq in Esw.
        unfold Py.startswith in Esw. rewrite prefix_refl in Esw. discriminate Esw.
      * destruct (IH _ _ _ _ _ H) as (used & we & -> & Ht & He & (pre & wb & mid & -> & Hb)).
        exists ((b, e, w) :: pre ++ wb :: mid), we. repeat split; try assumption.
        exists ((b, e, w) :: pre), wb, mid. now split.
Qed.

(** The words left by the inner loop are a suffix of those it was given. *)
Lemma sentence_words_rest (cw : list TimedWord) :
  forall (beg : option Q) (sent fsent : string),
    exists used, cw = used ++ snd (sentence_words cw beg sent fsent).
Proof.
  induction cw as [|[[b e] w] cw IH]; intros beg sent fsent.
  - exists []. reflexivity.
  - cbn [sentence_words].
    assert (Hrec : forall beg' sent',
               exists used, (b, e, w) :: cw
                            = used ++ snd (sentence_words cw beg' sent' fsent)).
    { intros beg' sent'. destruct (IH beg' sent' fsent) as (used & Hu).
      exists ((b, e, w) :: used). cbn [app]. now rewrite <- Hu. }
    destruct beg as [b0|].
    + destruct (String.eqb sent (Py.strip w)); [exists [(b, e, w)]; reflexivity|].
      apply Hrec.
    + destruct (Py.startswith sent (Py.strip w)); [apply Hrec|].
      destruct (String.eqb sent (Py.strip w)); [exists [(b, e, w)]; reflexivity|].
      apply Hrec.
Qed.

Lemma spans_prepend (used ws : list TimedWord) (x : SentenceT) :
  spans ws x -> spans (used ++ ws) x.
Proof.
  intros (pre & wb & mid & we & post & -> & Hb & He).
  exists (used ++ pre), wb, mid, we, post. rewrite <- app_assoc. now split.
Qed.

(** The outer loop: at most one sentence per tokenizer sentence, each
    spanning the words and carrying the stripped tokenizer text. *)
Lemma sentences_loop_spec (ss : list string) :
  forall cw : list TimedWord,
    (List.length (sentences_loop ss cw) <= List.length ss)%nat /\
    Forall (fun x => spans cw x /\ In (snd x) (map Py.strip ss)) (sentences_loop ss cw).
Proof.
  induction ss as [|s0 ss IH]; intros cw; [split; [cbn; lia | constructor]|].
  cbn [sentences_loop].
  destruct (sentence_words_rest cw None (Py.strip s0) (Py.strip s0)) as (used & Hused).
  destruct (sentence_words cw None (Py.strip s0) (Py.strip s0)) as [[x|] cw'] eqn:E;
    cbn [snd] in Hused; destruct (IH cw') as (Hlen & Hall).
  - split; [cbn [List.length]; lia|].
    destruct (sentence_words_spec _ _ _ _ _ _ E)
      as (used' & we & Hcw & Ht & He & (pre & wb & mid & Hu & Hb)).
    constructor.
    + split.
      * exists pre, wb, mid, we, cw'. rewrite Hcw, Hu, <- app_assoc. now split.
      * left. now symmetry.
    + rewrite Forall_forall in Hall |- *. intros y Hy.
      destruct (Hall y Hy) as (Hsp & Hin). split.
      * rewrite Hused. now apply spans_prepend.
      * now right.
  - split; [cbn [List.length]; lia|].
    rewrite Forall_forall in Hall |- *. intros y Hy.
    destruct (Hall y Hy) as (Hsp & Hin). split.
    + rewrite Hused. now apply spans_prepend.
    + now right.
Qed.

(** The message of line 234 can be formatted for sentences with both
    times. *)
Lemma sentences_message_ok (words : list TimedWord) (sents : list SentenceT) :
  Forall (spans words) sents -> sentences_message sents = inr tt.
Proof.
  induction sents as [|[[b e] text] sents IH]; intros Hall; [reflexivity|].
  inversion Hall as [|? ? (pre & wb & mid & we & post & _ & Hb & He) Hrest]; subst.
  cbn [fst snd] in Hb, He. subst b e. cbn. now apply IH.
Qed.

End SegmentationFacts.

(** X13. [words_to_sentences] fails only without a tokenizer
    ([TypeError]).  With one, it returns at most one triple per tokenizer
    sentence; each triple carries a stripped tokenizer sentence, begins at
    the begin of one of the words and ends at the end of a strictly later
    word, so that neither time is [None] and a sentence is never built
    from a single word. *)
Theorem words_to_sentences_spans_words :
  forall (Res : Type) (asr : ASR Res) (tokenize : option (list string -> list string))
         (words : list TimedWord),
    match tokenize with
    | None => OnlineASRProcessor.words_to_sentences asr tokenize words = inl Py.TypeError
    | Some tok =>
        let ss := tok [Py.join (sep asr) (map w_text words)] in
        exists sents,
          OnlineASRProcessor.words_to_sentences asr tokenize words = inr sents /\
          (List.length sents <= List.length ss)%nat /\
          Forall (fun x => spans words x /\ In (snd x) (map Py.strip ss)) sents
    end.
Proof.
  intros Res asr tokenize words. unfold OnlineASRProcessor.words_to_sentences.
  destruct tokenize as [tok|]; [|reflexivity].
  cbv zeta. eexists. split; [reflexivity|].
  apply SegmentationFacts.sentences_loop_spec.
Qed.

(** X14. The body of [chunk_completed_sentence], entered with a
    tokenizer, never raises.  With [sents] the sentences that
    [words_to_sentences] builds from [commited]: when [commited] is empty
    or [sents] has fewer than two sentences, the processor is left
    untouched; otherwise the body trims, by [chunk_at], at the end of the
    second-to-last sentence, which is the end time of a committed word
    that is not the first one. *)
Theorem sentence_trim_is_at_a_committed_end :
  forall (Res : Type) (asr : ASR Res) (tok : list string -> list string)
         (s : OnlineASRProcessor.t),
    let r := OnlineASRProcessor.chunk_completed_sentence asr (Some tok) s in
    let sents :=
      OnlineASRProcessor.sentences_loop
        (tok [Py.join (sep asr) (map w_text (OnlineASRProcessor.commited s))])
        (OnlineASRProcessor.commited s) in
    fst r = inr tt /\
    OnlineASRProcessor.words_to_sentences asr (Some tok) (OnlineASRProcessor.commited s)
    = inr sents /\
    (OnlineASRProcessor.commited s = [] \/ (List.length sents < 2)%nat -> snd r = s) /\
    (OnlineASRProcessor.commited s <> [] -> (2 <= List.length sents)%nat ->
     exists b text pre we post,
       nth (List.length sents - 2) sents (None, None, EmptyString)
       = (Some b, Some (w_end we), text) /\
       pre <> [] /\
       OnlineASRProcessor.commited s = pre ++ we :: post /\
       snd r = OnlineASRProcessor.chunk_at s (w_end we)).
Proof.
  intros Res asr tok s r sents. subst r.
  unfold OnlineASRProcessor.chunk_completed_sentence.
  assert (Hws : OnlineASRProcessor.words_to_sentences asr (Some tok)
                  (OnlineASRProcessor.commited s) = inr sents) by reflexivity.
  destruct (SegmentationFacts.sentences_loop_spec
              (tok [Py.join (sep asr) (map w_text (OnlineASRProcessor.commited s))])
              (OnlineASRProcessor.commited s)) as (_ & Hall).
  fold sents in Hall. clearbody sents.
  destruct (OnlineASRProcessor.commited s) as [|w0 cm] eqn:Hcm.
  { split; [reflexivity|]. split; [exact Hws|]. split; [reflexivity|].
    intros Hne. now contradiction Hne. }
  rewrite <- Hcm in Hws, Hall |- *. rewrite Hws.
  destruct (Nat.ltb_spec (List.length sents) 2) as [Hfew | Hmany].
  { split; [reflexivity|]. split; [reflexivity|]. split; [reflexivity|].
    intros _ Hlen. lia. }
  assert (Hspans : Forall (spans (OnlineASRProcessor.commited s)) sents).
  { rewrite Forall_forall in Hall |- *. intros x Hx. exact (proj1 (Hall x Hx)). }
  rewrite (SegmentationFacts.sentences_message_ok _ _ Hspans).
  assert (Hin : In (nth (List.length sents - 2) sents (None, None, EmptyString)) sents).
  { apply nth_In. lia. }
  rewrite Forall_forall in Hspans.
  destruct (Hspans _ Hin) as (pre & wb & mid & we & post & Hsplit & Hb & He).
  destruct (nth (List.length sents - 2) sents (None, None, EmptyString)) as [[b e] text].
  cbn [fst snd] in Hb, He. subst b e. cbn [fst snd].
  split; [reflexivity|]. split; [reflexivity|]. split.
  - intros [Hnil | Hlen]; [rewrite Hcm in Hnil; discriminate Hnil | lia].
  - intros _ _. exists (w_beg wb), text, (pre ++ wb :: mid), we, post.
    split; [reflexivity|]. split; [destruct pre; discriminate|].
    split; [|reflexivity].
    rewrite Hsplit, <- app_assoc. reflexivity.
Qed.

(** The theorem in scenario S5: the committed words "Hello world. How
    are you?" give two sentences, from 0 to 2 s and from 2 to 5 s, and
    the body trims at 2 s, the end of "world."; on a processor with
    nothing committed the body changes nothing. *)
Lemma sentence_trim_is_at_a_committed_end_witness :
  let s := with_commited two_sentence_words 0 in
  let s0 := fresh_processor OnlineASRProcessor.Sentence in
  OnlineASRProcessor.words_to_sentences silent_asr (Some two_sentence_tokenizer)
    two_sentence_words
  = inr [(Some 0, Some 2, "Hello world."); (Some 2, Some 5, "How are you?")] /\
  (exists b text pre we post,
      nth 0 [(Some 0, Some 2, "Hello world."); (Some 2, Some 5, "How are you?")]
          (None, None, EmptyString)
      = (Some b, Some (w_end we), text) /\
      pre <> [] /\ two_sentence_words = pre ++ we :: post /\
      snd (OnlineASRProcessor.chunk_completed_sentence silent_asr
             (Some two_sentence_tokenizer) s)
      = OnlineASRProcessor.chunk_at s (w_end we)) /\
  OnlineASRProcessor.buffer_time_offset
    (snd (OnlineASRProcessor.chunk_completed_sentence silent_asr
            (Some two_sentence_tokenizer) s)) = 2 /\
  snd (OnlineASRProcessor.chunk_completed_sentence silent_asr
         (Some two_sentence_tokenizer) s0) = s0.
Proof.
  intros s s0.
  destruct (sentence_trim_is_at_a_committed_end unit silent_asr two_sentence_tokenizer s)
    as (_ & Hws & _ & Htrim).
  destruct (sentence_trim_is_at_a_committed_end unit silent_asr two_sentence_tokenizer s0)
    as (_ & _ & Hsame & _).
  split; [exact Hws|]. split; [|split].
  - apply Htrim; [discriminate | vm_compute; lia].
  - reflexivity.
  - apply Hsame. left. reflexivity.
Defined.

(** ** The bookkeeping of the hypothesis buffer *)

Module BookFacts.
Import OnlineASRProcessor.

Lemma skipn_app_le {A} (k : nat) (l1 l2 : list A) :
  (k <= List.length l1)%nat -> skipn k (l1 ++ l2) = skipn k l1 ++ l2.
Proof.
  intros Hk. rewrite skipn_app.
  replace (k - List.length l1)%nat with 0%nat by lia. reflexivity.
Qed.

Lemma commit_agrees {Res : Type} (asr : ASR Res) (s : t) :
  bookkeeping_agrees s -> bookkeeping_agrees (snd (transcribe_and_commit asr s)).
Proof.
  intros ((k & Hk & Hcib) & Hlast). unfold transcribe_and_commit.
  set (ins := HypothesisBuffer.insert (transcript_buffer s) _ (buffer_time_offset s)).
  destruct (FlushFacts.flush_spec ins) as (n & _ & _ & _ & _ & _ & _ & _ & Hc & Hp).
  pose proof (FlushFacts.flush_time_unchanged ins) as Hnil.
  pose proof (FlushFacts.flush_time_last ins) as Hsnoc.
  destruct (HypothesisBuffer.flush ins) as [o flushed]. cbn [fst snd] in *.
  unfold bookkeeping_agrees. cbn [commited transcript_buffer].
  split.
  - exists k. split; [rewrite length_app; lia|].
    rewrite Hc. subst ins. cbn [HypothesisBuffer.insert HypothesisBuffer.commited_in_buffer].
    rewrite Hcib. symmetry. now apply skipn_app_le.
  - intros w0 rest Hcm.
    destruct o as [|x l] using rev_ind.
    + rewrite app_nil_r in *. rewrite (Hnil eq_refl).
      subst ins. cbn [HypothesisBuffer.insert HypothesisBuffer.last_commited_time].
      exact (Hlast w0 rest Hcm).
    + clear IHl. rewrite (Hsnoc l x eq_refl), app_assoc, last_last. reflexivity.
Qed.

Lemma chunk_at_agrees (s : t) (time : Q) :
  bookkeeping_agrees s -> bookkeeping_agrees (chunk_at s time).
Proof.
  intros ((k & Hk & Hcib) & Hlast). unfold bookkeeping_agrees, chunk_at.
  cbn [commited transcript_buffer HypothesisBuffer.pop_commited
       HypothesisBuffer.commited_in_buffer HypothesisBuffer.last_commited_time].
  split; [|exact Hlast].
  destruct (ChunkFacts.pop_while_spec time
              (HypothesisBuffer.commited_in_buffer (transcript_buffer s)))
    as (dropped & Hsplit & _).
  set (kept := HypothesisBuffer.pop_while time _) in *.
  assert (Hlen : (List.length dropped + List.length kept
                  = List.length (commited s) - k)%nat).
  { rewrite <- length_app, <- Hsplit, Hcib. apply length_skipn. }
  exists (List.length dropped + k)%nat. split; [lia|].
  rewrite <- skipn_skipn, <- Hcib, Hsplit.
  rewrite skipn_app, skipn_all, Nat.sub_diag. reflexivity.
Qed.

Lemma segment_agrees (s : t) (ends : list Q) :
  bookkeeping_agrees s -> bookkeeping_agrees (chunk_completed_segment s ends).
Proof.
  intros Hs.
  destruct (IterFacts.segment_trim_cases s ends)
    as [-> | (w0 & j & _ & _ & _ & _ & ->)]; [exact Hs | now apply chunk_at_agrees].
Qed.

Lemma process_iter_agrees {Res : Type} (asr : ASR Res)
      (tokenize : option (list string -> list string)) (s : t) :
  bookkeeping_agrees s -> bookkeeping_agrees (snd (process_iter asr tokenize s)).
Proof.
  intros Hs. pose proof (commit_agrees asr s Hs) as Hc.
  destruct (buffer_trimming_way s) eqn:Hway.
  - now rewrite (SentenceFacts.process_iter_sentence asr tokenize s Hway).
  - rewrite (IterFacts.process_iter_segment asr tokenize s Hway). cbn [snd].
    unfold trim_when_long. destruct (Py.ltb _ _); [|exact Hc].
    now apply segment_agrees.
Qed.

End BookFacts.

(** X15. The hypothesis buffer's bookkeeping follows the transcript: on a
    processor where [commited_in_buffer] is a suffix of [commited] and
    [last_commited_time] is the end of the last committed word, this
    still holds after [process_iter] (whatever the option and the
    recognizer's reply, also when the call raises), after [chunk_at],
    after [chunk_completed_segment] and after [insert_audio_chunk]; and it
    holds after every [init]. *)
Theorem bookkeeping_follows_transcript :
  (forall (s : OnlineASRProcessor.t) (offset : option Q),
      bookkeeping_agrees (OnlineASRProcessor.init s offset)) /\
  (forall (Res : Type) (asr : ASR Res) (tokenize : option (list string -> list string))
          (s : OnlineASRProcessor.t),
      bookkeeping_agrees s ->
      bookkeeping_agrees (snd (OnlineASRProcessor.process_iter asr tokenize s)) /\
      (forall time, bookkeeping_agrees (OnlineASRProcessor.chunk_at s time)) /\
      (forall ends, bookkeeping_agrees (OnlineASRProcessor.chunk_completed_segment s ends)) /\
      (forall audio, bookkeeping_agrees (OnlineASRProcessor.insert_audio_chunk s audio))).
Proof.
  split.
  - intros s offset. unfold bookkeeping_agrees, OnlineASRProcessor.init.
    cbn [OnlineASRProcessor.commited OnlineASRProcessor.transcript_buffer
         HypothesisBuffer.commited_in_buffer].
    split; [exists 0%nat; split; [cbn; lia | reflexivity]|].
    intros w0 rest H. discriminate H.
  - intros Res asr tokenize s Hs.
    split; [now apply BookFacts.process_iter_agrees|].
    split; [intros time; now apply BookFacts.chunk_at_agrees|].
    split; [intros ends; now apply BookFacts.segment_agrees|].
    intros audio. exact Hs.
Qed.

(** The theorem on the second pass of scenario S2, from a processor with
    nothing committed: afterwards "hello" is both the transcript and the
    bookkeeping, and the commit pointer is its end, 0.5 s. *)
Lemma bookkeeping_follows_transcript_witness :
  let asr := scripted_asr s2_pass2 [1] in
  let s' := snd (OnlineASRProcessor.process_iter asr None pending_processor) in
  bookkeeping_agrees pending_processor /\
  bookkeeping_agrees s' /\
  OnlineASRProcessor.commited s' = [(0, 1 # 2, "hello")] /\
  HypothesisBuffer.commited_in_buffer (OnlineASRProcessor.transcript_buffer s')
  = [(0, 1 # 2, "hello")] /\
  HypothesisBuffer.last_commited_time (OnlineASRProcessor.transcript_buffer s') = 1 # 2.
Proof.
  intros asr s'.
  assert (H0 : bookkeeping_agrees pending_processor).
  { split; [exists 0%nat; split; [cbn; lia | reflexivity]|].
    intros w0 rest H. discriminate H. }
  split; [exact H0|].
  split; [|repeat split].
  exact (proj1 (proj2 bookkeeping_follows_transcript unit asr None pending_processor H0)).
Defined.

(** ** Two passes over the same audio *)

Module PassFacts.
Import OnlineASRProcessor.

Lemma trim_keeps_commited {Res : Type} (asr : ASR Res) (res : Res) (s : t) :
  commited (trim_when_long asr res s) = commited s.
Proof.
  unfold trim_when_long. destruct (Py.ltb _ _); [|reflexivity].
  destruct (IterFacts.segment_trim_cases s (segments_end_ts asr res))
    as [-> | (w0 & j & _ & _ & _ & _ & ->)]; [reflexivity|].
  exact (proj1 (IterFacts.chunk_at_fields s _)).
Qed.

Lemma trim_without_commits {Res : Type} (asr : ASR Res) (res : Res) (s : t) :
  commited s = [] -> trim_when_long asr res s = s.
Proof.
  intros Hcm. unfold trim_when_long, chunk_completed_segment. rewrite Hcm.
  now destruct (Py.ltb _ _).
Qed.

Lemma first_pass {Res : Type} (asr : ASR Res)
      (tokenize : option (list string -> list string))
      (offset sec : Q) (audio : list Sample) :
  let words := ts_words asr (transcribe asr audio EmptyString) in
  process_iter asr tokenize (started offset sec audio)
  = (inr (None, None, EmptyString),
     after_first_pass offset sec audio
       (HypothesisBuffer.survivors (fresh_buffer offset) words offset)).
Proof.
  intros words.
  rewrite (IterFacts.process_iter_segment asr tokenize (started offset sec audio) eq_refl).
  unfold transcribe_and_commit, started.
  cbn [insert_audio_chunk init audio_buffer transcript_buffer buffer_time_offset
       commited buffer_trimming_way buffer_trimming_sec app prompt fst
       prompt_words prompt_k List.length Nat.sub Nat.max prompt_scan firstn map rev
       prompt_take Py.join String.concat].
  fold words. fold (fresh_buffer offset).
  rewrite AgreementFacts.fresh_first_pass. cbn [fst snd app].
  rewrite trim_without_commits by reflexivity. reflexivity.
Qed.

Lemma second_pass {Res : Type} (asr : ASR Res)
      (tokenize : option (list string -> list string))
      (offset sec : Q) (audio : list Sample) :
  let words := ts_words asr (transcribe asr audio EmptyString) in
  let pending := HypothesisBuffer.survivors (fresh_buffer offset) words offset in
  let r := process_iter asr tokenize (after_first_pass offset sec audio pending) in
  fst r = inr (concatenate_tsw pending (sep asr) 0) /\ commited (snd r) = pending.
Proof.
  intros words pending r. subst r.
  rewrite (IterFacts.process_iter_segment asr tokenize
             (after_first_pass offset sec audio pending) eq_refl).
  cbn [fst snd]. rewrite trim_keeps_commited.
  destruct (IterFacts.transcribe_and_commit_fields asr
              (after_first_pass offset sec audio pending)) as (-> & _ & -> & _).
  assert (Hnew : newly_commited asr (after_first_pass offset sec audio pending) = pending).
  { unfold newly_commited, after_first_pass.
    cbn [audio_buffer transcript_buffer buffer_time_offset commited prompt fst
         prompt_words prompt_k List.length Nat.sub Nat.max prompt_scan firstn map rev
         prompt_take Py.join String.concat].
    fold words.
    destruct (AgreementFacts.fresh_two_passes offset words offset) as (_ & _ & H2 & _).
    cbv zeta in H2. rewrite AgreementFacts.fresh_first_pass in H2. exact H2. }
  rewrite Hnew. now split.
Qed.

End PassFacts.

(** X16. Two passes over the same audio commit the whole hypothesis: on a
    processor restarted at [offset] with the "segment" option, the first
    [process_iter] returns [(None, None, "")], commits nothing and keeps
    the words that survive the horizon test as the uncommitted tail; a
    second [process_iter] with no new audio returns the concatenation of
    those words and [commited] is then exactly those words.  When the
    recognizer returns words with non-negative begin times and the offset
    is at most [2^40] seconds in absolute value, every word survives:
    the tail, the result and [commited] are made of all the words,
    shifted by [offset].  (From about [2^50] seconds on, binary64 absorbs
    the 0.1 s of the horizon and [insert] discards a word that begins at
    the offset.) *)
Theorem two_passes_commit_the_hypothesis :
  forall (Res : Type) (asr : ASR Res) (tokenize : option (list string -> list string))
         (offset sec : Q) (audio : list Sample),
    let words := ts_words asr (transcribe asr audio EmptyString) in
    let kept := HypothesisBuffer.survivors (fresh_buffer offset) words offset in
    let r1 := OnlineASRProcessor.process_iter asr tokenize (started offset sec audio) in
    let r2 := OnlineASRProcessor.process_iter asr tokenize (snd r1) in
    (fst r1 = inr (None, None, EmptyString) /\
     OnlineASRProcessor.commited (snd r1) = [] /\
     HypothesisBuffer.complete (OnlineASRProcessor.transcript_buffer (snd r1)) = kept /\
     fst r2 = inr (OnlineASRProcessor.concatenate_tsw kept (sep asr) 0) /\
     OnlineASRProcessor.commited (snd r2) = kept) /\
    (Qabs offset <= 2 ^ 40 ->
     Forall (fun w => 0 <= w_beg w) words ->
     fst r1 = inr (None, None, EmptyString) /\
     OnlineASRProcessor.commited (snd r1) = [] /\
     HypothesisBuffer.complete (OnlineASRProcessor.transcript_buffer (snd r1))
     = map (shift offset) words /\
     fst r2 = inr (OnlineASRProcessor.concatenate_tsw (map (shift offset) words) (sep asr) 0) /\
     OnlineASRProcessor.commited (snd r2) = map (shift offset) words).
Proof.
  intros Res asr tokenize offset sec audio words kept r1 r2.
  pose proof (PassFacts.first_pass asr tokenize offset sec audio) as H1.
  pose proof (PassFacts.second_pass asr tokenize offset sec audio) as H2.
  cbv zeta in H1, H2. fold words in H1, H2. fold kept in H1, H2.
  assert (Hgen : fst r1 = inr (None, None, EmptyString) /\
                 OnlineASRProcessor.commited (snd r1) = [] /\
                 HypothesisBuffer.complete (OnlineASRProcessor.transcript_buffer (snd r1))
                 = kept /\
                 fst r2 = inr (OnlineASRProcessor.concatenate_tsw kept (sep asr) 0) /\
                 OnlineASRProcessor.commited (snd r2) = kept).
  { subst r2 r1. rewrite H1. cbn [fst snd].
    destruct H2 as (Hret & Hcm).
    repeat split; [exact Hret | exact Hcm]. }
  split; [exact Hgen|].
  intros Hoff Hpos.
  assert (Hall : kept = map (shift offset) words)
    by exact (AgreementFacts.fresh_survivors words offset Hoff Hpos).
  rewrite Hall in Hgen. exact Hgen.
Qed.

(** The theorem on a recognizer that hears "hello word" in one second of
    audio. *)
Lemma two_passes_commit_the_hypothesis_witness :
  let asr := scripted_asr s2_pass1 [1] in
  let r1 := OnlineASRProcessor.process_iter asr None (started 0 15 (repeat 0 (Z.to_nat 16))) in
  let r2 := OnlineASRProcessor.process_iter asr None (snd r1) in
  Qabs 0 <= 2 ^ 40 /\
  Forall (fun w => 0 <= w_beg w) s2_pass1 /\
  fst r1 = inr (None, None, EmptyString) /\
  fst r2 = inr (Some (0 + 0), Some (0 + 1), "hello word") /\
  OnlineASRProcessor.commited (snd r2) = map (shift 0) s2_pass1.
Proof.
  intros asr r1 r2.
  assert (Hoff : Qabs 0 <= 2 ^ 40) by qcompute.
  assert (Hpos : Forall (fun w => 0 <= w_beg w) s2_pass1) by (repeat constructor; qcompute).
  destruct (proj2 (two_passes_commit_the_hypothesis unit asr None 0 15
                     (repeat 0 (Z.to_nat 16))) Hoff Hpos) as (H1 & _ & _ & H2 & Hcm).
  split; [exact Hoff|]. split; [exact Hpos|]. split; [exact H1|].
  split; [|exact Hcm].
  etransitivity; [exact H2|]. vm_compute. reflexivity.
Defined.

(** X17. A pass only commits what the two last hypotheses share: the
    words committed by [process_iter] are words of the current
    hypothesis, shifted by [buffer_time_offset], that begin after the
    horizon, the binary64 value of [last_commited_time - 0.1], and their
    texts are the first texts of the uncommitted tail left by the
    previous pass. *)
Theorem committed_words_come_from_both_hypotheses :
  forall (Res : Type) (asr : ASR Res) (s : OnlineASRProcessor.t),
    let words := ts_words asr (transcribe asr (OnlineASRProcessor.audio_buffer s)
                                          (fst (OnlineASRProcessor.prompt asr s))) in
    let tb := OnlineASRProcessor.transcript_buffer s in
    Forall (fun w => (exists w0, In w0 words /\
                                 w = shift (OnlineASRProcessor.buffer_time_offset s) w0) /\
                     horizon tb < w_beg w)
           (newly_commited asr s) /\
    (exists n : nat,
        map w_text (newly_commited asr s)
        = firstn n (map w_text (HypothesisBuffer.complete tb))).
Proof.
  intros Res asr s words tb. unfold newly_commited. fold words. fold tb.
  set (ins := HypothesisBuffer.insert tb words (OnlineASRProcessor.buffer_time_offset s)).
  split.
  - apply Forall_forall. intros w Hin.
    apply FlushFacts.flush_commit_incl in Hin.
    apply InsertFacts.insert_new_incl, InsertFacts.survivors_in in Hin.
    destruct Hin as (Hshift & Hlt). split; [|exact Hlt].
    exact (RunFacts.shifted_inv _ _ _ Hshift).
  - destruct (FlushFacts.flush_spec ins) as (n & _ & _ & Ht & _ & Hc & _).
    exists n. rewrite Hc, Ht, firstn_map. reflexivity.
Qed.

(** ** concatenate_tsw *)

Module ConcatFacts.




End ConcatFacts.


